(** * IC Autopilot: the workflow orchestrator, its executors and artifacts

A shallow embedding of the Investment Committee pipeline
([worker/workflow.py], [worker/executors/*.py], [backend/schemas/*.py],
[backend/services/event_bus.py]) and the properties of its artifact
hashes, event sequence numbers, bounded repair loop and selection
policy.

Python values are modelled as the interpreter has them: [float] is the
IEEE-754 binary64 of the kernel, [dict] is an insertion-ordered
association list, [str] is [string], an artifact is a record with the
pydantic fields in declaration order.  An [async def] is a computation in
a state-and-exception monad over the world the workflow can touch (the
Redis stream, the blob container, the workflow object); what the
interpreter draws from outside the program (uuid4, the clock, the
per-process string hash, the Mersenne Twister, I/O failures) is an
explicit [Runtime].

What is left out: the stages that build the universe, the features, the
rebalance plan and the memo (their artifacts are inputs here), the HTTP
layer of [backend/main.py], and the scheduling of [asyncio.gather] (a
unit of the stage-5 fan-out is modelled by itself).  Strings are taken to
hold ASCII characters only, and the Redis stream of a run is modelled
below its length cap, where entries are only ever appended. *)

From Stdlib Require Import ZArith List String Ascii Bool Lia DecimalString Permutation.
From Stdlib Require Import PrimFloat FloatOps SpecFloat Uint63 FloatAxioms.
Import ListNotations.

Set Warnings "-inexact-float,-register-all".
#[local] Open Scope list_scope.
#[local] Open Scope string_scope.
#[local] Open Scope Z_scope.

(* ================================================================== *)
(** * Python numbers *)
(* ================================================================== *)

Module PyNum.

(** [str(n)] for an [int]. *)
Definition str_int (z : Z) : string := NilZero.string_of_int (Z.to_int z).

(** [float(n)]: the binary64 nearest to the integer, ties to even. *)
Definition of_Z (z : Z) : float := SF2Prim (binary_normalize prec emax z 0 false).

(** Nearest integer to [num / den], ties to even ([0 < den]). *)
Definition round_half_even (num den : Z) : Z :=
  let q := num / den in
  let r := num mod den in
  if 2 * r <? den then q
  else if den <? 2 * r then q + 1
  else if Z.even q then q else q + 1.

(** The magnitude [m * 2^e] of a finite float, divided by [10^q] and
    rounded to the nearest integer. *)
Definition scaled_round (m : positive) (e q : Z) : Z :=
  round_half_even (Zpos m * 2 ^ Z.max e 0 * 10 ^ Z.max (- q) 0)
                  (2 ^ Z.max (- e) 0 * 10 ^ Z.max q 0).

(** The binary64 nearest to [d * 10^q] ([0 <= d]), ties to even: the
    quotient is cut after 64 or more bits and a sticky bit records an
    inexact cut. *)
Definition of_decimal (d q : Z) : float :=
  if d =? 0 then 0%float
  else
    let num := d * 10 ^ Z.max q 0 in
    let den := 10 ^ Z.max (- q) 0 in
    let s := Z.max 0 (66 + Z.log2 den - Z.log2 num) in
    let qt := (num * 2 ^ s) / den in
    let sticky := if (num * 2 ^ s) mod den =? 0 then 0 else 1 in
    SF2Prim (binary_normalize prec emax (2 * qt + sticky) (- s - 1) false).

(** [int(x)]: truncation toward zero (0 on nan and infinities, where
    Python raises). *)
Definition to_Z (x : float) : Z :=
  match Prim2SF x with
  | S754_finite s m e =>
      let a := if 0 <=? e then Zpos m * 2 ^ e else Zpos m / 2 ^ (- e) in
      if s then - a else a
  | _ => 0
  end.

(** [round(x, ndigits)] on a float: the decimal with [ndigits] places
    nearest to the exact value of [x] (ties to even), read back as a
    float. *)
Definition round (x : float) (ndigits : Z) : float :=
  match Prim2SF x with
  | S754_finite s m e =>
      let r := of_decimal (scaled_round m e (- ndigits)) (- ndigits) in
      if s then (- r)%float else r
  | _ => x
  end.

(** Two-argument [max] and [min]: the first argument wins unless the
    second is strictly better. *)
Definition max (a b : float) : float := if (a <? b)%float then b else a.
Definition min (a b : float) : float := if (b <? a)%float then b else a.

(** [sum(xs)] starting from the integer 0: the additions from left to
    right, each rounded (CPython before 3.12; later versions compensate
    the rounding errors of a float sum). *)
Definition sum (xs : list float) : float := fold_left PrimFloat.add xs 0%float.

(** [max(xs)] and [min(xs)] over a non-empty list of floats. *)
Definition max_list (x : float) (xs : list float) : float := fold_left max xs x.
Definition min_list (x : float) (xs : list float) : float := fold_left min xs x.

(** ** Formatting *)

Fixpoint zeros (n : nat) : string :=
  match n with O => "" | S k => "0" ++ zeros k end.

(** [d] written with at least [n] digits. *)
Definition pad_left (n : nat) (d : Z) : string :=
  let s := str_int d in zeros (n - String.length s) ++ s.

(** [format(x, '.<nd>f')]. *)
Definition format_f (x : float) (nd : nat) : string :=
  match Prim2SF x with
  | S754_zero s => (if s then "-" else "") ++ "0" ++ (if Nat.eqb nd 0 then "" else "." ++ zeros nd)
  | S754_infinity s => if s then "-inf" else "inf"
  | S754_nan => "nan"
  | S754_finite s m e =>
      let k := scaled_round m e (- Z.of_nat nd) in
      let scale := 10 ^ Z.of_nat nd in
      (if s then "-" else "") ++ str_int (k / scale)
        ++ (if Nat.eqb nd 0 then "" else "." ++ pad_left nd (k mod scale))
  end.

(** [format(x, '.<nd>%')]. *)
Definition format_pct (x : float) (nd : nat) : string :=
  format_f (x * 100)%float nd ++ "%".

(** [floor(log10(m * 2^e))]. *)
Definition decimal_exponent (m : positive) (e : Z) : Z :=
  let le (k : Z) := (* 10^k <= m * 2^e *)
    10 ^ Z.max k 0 * 2 ^ Z.max (- e) 0 <=? Zpos m * 2 ^ Z.max e 0 * 10 ^ Z.max (- k) 0 in
  let k0 := ((Z.log2 (Zpos m) + e) * 30103) / 100000 in
  if le (k0 + 2) then k0 + 2
  else if le (k0 + 1) then k0 + 1
  else if le k0 then k0
  else if le (k0 - 1) then k0 - 1
  else k0 - 2.

Fixpoint strip_zeros (fuel : nat) (d : Z) (q : Z) : Z * Z :=
  match fuel with
  | O => (d, q)
  | S f => if (d mod 10 =? 0) && negb (d =? 0) then strip_zeros f (d / 10) (q + 1) else (d, q)
  end.

(** The shortest decimal [d * 10^q] that reads back as [x]: try 1 to 17
    significant digits, nearest decimal first. *)
Fixpoint shortest (x : float) (m : positive) (e k : Z) (n : nat) (fuel : nat) : Z * Z :=
  let q := k - Z.of_nat n + 1 in
  let d := scaled_round m e q in
  match fuel with
  | O => (d, q)
  | S f =>
      if SFeqb (Prim2SF (of_decimal d q)) (Prim2SF x) then strip_zeros 17 d q
      else shortest x m e k (S n) f
  end.

(** [repr(x)] for a float. *)
Definition repr (x : float) : string :=
  match Prim2SF x with
  | S754_zero s => if s then "-0.0" else "0.0"
  | S754_infinity s => if s then "-inf" else "inf"
  | S754_nan => "nan"
  | S754_finite s m e =>
      let sign := if s then "-" else "" in
      let '(d, q) := shortest (PrimFloat.abs x) m e (decimal_exponent m e) 1 16 in
      let digits := str_int d in
      let nd := String.length digits in
      let decpt := Z.of_nat nd + q in
      if (decpt <=? -4) || (16 <? decpt) then
        let ex := decpt - 1 in
        sign ++ substring 0 1 digits
          ++ (if Nat.ltb 1 nd then "." ++ substring 1 (nd - 1) digits else "")
          ++ "e" ++ (if ex <? 0 then "-" else "+") ++ pad_left 2 (Z.abs ex)
      else if decpt <=? 0 then
        sign ++ "0." ++ zeros (Z.to_nat (- decpt)) ++ digits
      else if Z.of_nat nd <=? decpt then
        sign ++ digits ++ zeros (Z.to_nat decpt - nd) ++ ".0"
      else
        sign ++ substring 0 (Z.to_nat decpt) digits ++ "."
          ++ substring (Z.to_nat decpt) (nd - Z.to_nat decpt) digits
  end.

End PyNum.

(* ================================================================== *)
(** * Python strings, dicts and JSON *)
(* ================================================================== *)

Module PyStr.

Definition hex_digit (n : Z) : string :=
  substring (Z.to_nat n) 1 "0123456789abcdef".

(** The byte [n] as two lower-case hex digits. *)
Definition hex_byte (n : Z) : string := hex_digit (n / 16) ++ hex_digit (n mod 16).

Definition code (c : ascii) : Z := Z.of_nat (nat_of_ascii c).

(** The double-quote character and the one-character string of it. *)
Definition dquote : ascii := "034"%char.
Definition dq : string := String dquote "".

Fixpoint bytes (s : string) : list Z :=
  match s with
  | EmptyString => []
  | String c r => code c :: bytes r
  end.

Fixpoint contains_char (c : ascii) (s : string) : bool :=
  match s with
  | EmptyString => false
  | String d r => Ascii.eqb c d || contains_char c r
  end.

(** [repr(s)] for a [str]: single quotes unless the text has a single
    quote and no double quote. *)
Definition repr (s : string) : string :=
  let q := if contains_char "'" s && negb (contains_char dquote s) then dquote else "'"%char in
  let fix body (s : string) : string :=
    match s with
    | EmptyString => ""
    | String c r =>
        (if Ascii.eqb c q || Ascii.eqb c "\" then String "\" (String c "")
         else if Ascii.eqb c "010" then "\n"
         else if Ascii.eqb c "013" then "\r"
         else if Ascii.eqb c "009" then "\t"
         else if (code c <? 32) || (127 <=? code c) then "\x" ++ hex_byte (code c)
         else String c "") ++ body r
    end in
  String q "" ++ body s ++ String q "".

(** [str(xs)] for a list of [str]. *)
Definition str_list (xs : list string) : string :=
  "[" ++ String.concat ", " (map repr xs) ++ "]".

End PyStr.

(** A Python [dict] with [str] keys: insertion ordered, assignment to a
    present key keeps its place. *)
Module PyDict.

Definition t (V : Type) : Type := list (string * V).

Definition empty {V} : t V := [].

Fixpoint get {V} (d : t V) (k : string) : option V :=
  match d with
  | [] => None
  | (k', v) :: r => if String.eqb k k' then Some v else get r k
  end.

Fixpoint set {V} (d : t V) (k : string) (v : V) : t V :=
  match d with
  | [] => [(k, v)]
  | (k', v') :: r => if String.eqb k k' then (k', v) :: r else (k', v') :: set r k v
  end.

(** [d[k] = v] where [v] may be [None]: a key that holds [None] reads
    like an absent key through [d.get(k)], the only way the workflow
    reads its report dicts, so it is kept absent. *)
Definition set_opt {V} (d : t V) (k : string) (v : option V) : t V :=
  match v with
  | Some v => set d k v
  | None => filter (fun kv => negb (String.eqb k (fst kv))) d
  end.

Definition keys {V} (d : t V) : list string := map fst d.
Definition values {V} (d : t V) : list V := map snd d.
Definition items {V} (d : t V) : list (string * V) := d.
Definition contains {V} (d : t V) (k : string) : bool :=
  match get d k with Some _ => true | None => false end.

(** [{key(x): x for x in xs}]. *)
Definition of_list {A} (key : A -> string) (xs : list A) : t A :=
  fold_left (fun d x => set d (key x) x) xs [].

End PyDict.

Module Json.

Inductive value : Type :=
  | Null
  | Bool (b : bool)
  | Int (z : Z)
  | Float (f : float)
  | Str (s : string)
  | List (l : list value)
  | Dict (d : list (string * value)).

Definition opt {A} (f : A -> value) (o : option A) : value :=
  match o with Some a => f a | None => Null end.
Definition strs (l : list string) : value := List (map Str l).
Definition dict_of {V} (f : V -> value) (d : PyDict.t V) : value :=
  Dict (map (fun kv => (fst kv, f (snd kv))) d).

(** A JSON string literal with [ensure_ascii=True]. *)
Fixpoint escape (s : string) : string :=
  match s with
  | EmptyString => ""
  | String c r =>
      (if Ascii.eqb c PyStr.dquote then "\" ++ PyStr.dq
       else if Ascii.eqb c "\" then "\\"
       else if Ascii.eqb c "010" then "\n"
       else if Ascii.eqb c "013" then "\r"
       else if Ascii.eqb c "009" then "\t"
       else if Ascii.eqb c "008" then "\b"
       else if Ascii.eqb c "012" then "\f"
       else if (PyStr.code c <? 32) || (127 <=? PyStr.code c) then "\u00" ++ PyStr.hex_byte (PyStr.code c)
       else String c "") ++ escape r
  end.

Definition quote (s : string) : string := PyStr.dq ++ escape s ++ PyStr.dq.

Definition float_repr (f : float) : string :=
  if PrimFloat.is_nan f then "NaN"
  else if PrimFloat.is_infinity f then (if PrimFloat.get_sign f then "-Infinity" else "Infinity")
  else PyNum.repr f.

(** Stable insertion sort of the items by key. *)
Fixpoint insert_item (kv : string * string) (l : list (string * string)) : list (string * string) :=
  match l with
  | [] => [kv]
  | kv' :: r => if String.ltb (fst kv) (fst kv') then kv :: l else kv' :: insert_item kv r
  end.

Definition sort_items (l : list (string * string)) : list (string * string) :=
  fold_left (fun acc kv => insert_item kv acc) l [].

(** [json.dumps(v, sort_keys=True)]. *)
Fixpoint dumps (v : value) : string :=
  match v with
  | Null => "null"
  | Bool true => "true"
  | Bool false => "false"
  | Int z => PyNum.str_int z
  | Float f => float_repr f
  | Str s => quote s
  | List l =>
      "[" ++ String.concat ", "
               ((fix each (l : list value) : list string :=
                   match l with [] => [] | x :: r => dumps x :: each r end) l) ++ "]"
  | Dict d =>
      "{" ++ String.concat ", "
               (map (fun kv => quote (fst kv) ++ ": " ++ snd kv)
                  (sort_items
                     ((fix each (d : list (string * value)) : list (string * string) :=
                         match d with [] => [] | (k, x) :: r => (k, dumps x) :: each r end) d)))
          ++ "}"
  end.

(** [{k: v for k, v in d.items() if k not in excluded}]. *)
Definition exclude (excluded : list string) (d : list (string * value)) : list (string * value) :=
  filter (fun kv => negb (existsb (String.eqb (fst kv)) excluded)) d.

End Json.

(** [hashlib.sha256] (FIPS 180-4) on the UTF-8 bytes of a string; the
    32-bit words are kept in machine integers. *)
Module SHA256.

#[local] Open Scope uint63_scope.

Definition w32 (x : int) : int := x land 0xffffffff.
Definition add (x y : int) : int := w32 (x + y).
Definition rotr (n x : int) : int := (x >> n) lor (w32 (x << (32 - n))).
Definition shr (n x : int) : int := x >> n.

Definition Ch (x y z : int) : int := (x land y) lxor ((w32 (x lxor 0xffffffff)) land z).
Definition Maj (x y z : int) : int := ((x land y) lxor (x land z)) lxor (y land z).
Definition Sigma0 (x : int) : int := (rotr 2 x lxor rotr 13 x) lxor rotr 22 x.
Definition Sigma1 (x : int) : int := (rotr 6 x lxor rotr 11 x) lxor rotr 25 x.
Definition sigma0 (x : int) : int := (rotr 7 x lxor rotr 18 x) lxor shr 3 x.
Definition sigma1 (x : int) : int := (rotr 17 x lxor rotr 19 x) lxor shr 10 x.

(** The first primes, by trial division. *)
Definition is_prime (n : Z) : bool :=
  forallb (fun d => negb (n mod d =? 0)%Z)
          (map Z.of_nat (seq 2 (Z.to_nat (Z.sqrt n) - 1))).

Definition primes (count : nat) : list Z :=
  firstn count (filter is_prime (map Z.of_nat (seq 2 320))).

(** The integer cube root of [n], for [n < 2 ^ (3 * bits)]. *)
Fixpoint cube_root (bits : nat) (n r : Z) : Z :=
  match bits with
  | O => r
  | S k =>
      let c := (r + 2 ^ Z.of_nat k)%Z in
      cube_root k n (if (c * c * c <=? n)%Z then c else r)
  end.

(** The round constants: the first 32 bits of the fractional parts of
    the cube roots of the first 64 primes. *)
Definition K : list int :=
  Eval vm_compute in
    map (fun p => Uint63.of_Z (cube_root 36 (p * 2 ^ 96) 0 mod 2 ^ 32)%Z) (primes 64).

(** The initial hash value: the first 32 bits of the fractional parts
    of the square roots of the first 8 primes. *)
Definition H0 : list int :=
  Eval vm_compute in
    map (fun p => Uint63.of_Z (Z.sqrt (p * 2 ^ 64) mod 2 ^ 32)%Z) (primes 8).

(** Big-endian bytes of [x], [n] of them. *)
Fixpoint be_bytes (n : nat) (x : Z) : list Z :=
  match n with
  | O => []
  | S k => ((x / 256 ^ Z.of_nat k) mod 256)%Z :: be_bytes k x
  end.

Definition pad (msg : list Z) : list Z :=
  let len := Z.of_nat (List.length msg) in
  let fill := Z.to_nat ((55 - len) mod 64)%Z in
  (msg ++ [0x80%Z] ++ repeat 0%Z fill ++ be_bytes 8 (8 * len)%Z)%list.

(** The big-endian 32-bit words of a byte list. *)
Fixpoint words (n : nat) (bs : list Z) : list int :=
  match n, bs with
  | S k, a :: b :: c :: d :: r =>
      Uint63.of_Z (((a * 256 + b) * 256 + c) * 256 + d)%Z :: words k r
  | _, _ => []
  end.

(** The message schedule, most recent word first: [w] holds
    [W(t-1), W(t-2), ...]. *)
Fixpoint schedule (n : nat) (w : list int) : list int :=
  match n with
  | O => w
  | S k =>
      let wt := add (add (sigma1 (nth 1 w 0)) (nth 6 w 0)) (add (sigma0 (nth 14 w 0)) (nth 15 w 0)) in
      schedule k (wt :: w)
  end.

Definition round (st : list int) (kw : int * int) : list int :=
  match st with
  | [a; b; c; d; e; f; g; h] =>
      let t1 := add (add (add h (Sigma1 e)) (add (Ch e f g) (fst kw))) (snd kw) in
      let t2 := add (Sigma0 a) (Maj a b c) in
      [add t1 t2; a; b; c; add d t1; e; f; g]
  | _ => st
  end.

Definition compress (h : list int) (block : list Z) : list int :=
  let w := rev (schedule 48 (rev (words 16 block))) in
  map (fun p => add (fst p) (snd p)) (combine h (fold_left round (combine K w) h)).

Fixpoint blocks (n : nat) (h : list int) (bs : list Z) : list int :=
  match n with
  | O => h
  | S k => blocks k (compress h (firstn 64 bs)) (skipn 64 bs)
  end.

Definition digest (msg : list Z) : list Z :=
  let p := pad msg in
  flat_map (fun x => be_bytes 4 (Uint63.to_Z x)) (blocks (List.length p / 64) H0 p).

(** [hashlib.sha256(s.encode()).hexdigest()] *)
Definition hexdigest (s : string) : string :=
  String.concat "" (map PyStr.hex_byte (digest (PyStr.bytes s))).

End SHA256.

(* ================================================================== *)
(** * backend/schemas/artifacts.py *)
(* ================================================================== *)

(** [datetime.datetime]: a naive timestamp. *)
Module Datetime.

Record t : Type := mk
  { year : Z; month : Z; day : Z; hour : Z; minute : Z; second : Z; microsecond : Z }.

(** [dt.isoformat(sep)]. *)
Definition format (sep : string) (d : t) : string :=
  PyNum.pad_left 4 (year d) ++ "-" ++ PyNum.pad_left 2 (month d) ++ "-" ++ PyNum.pad_left 2 (day d)
    ++ sep ++ PyNum.pad_left 2 (hour d) ++ ":" ++ PyNum.pad_left 2 (minute d) ++ ":"
    ++ PyNum.pad_left 2 (second d)
    ++ (if microsecond d =? 0 then "" else "." ++ PyNum.pad_left 6 (microsecond d)).

Definition isoformat (d : t) : string := format "T" d.
  (** [str(dt)], what [json.dumps(..., default=str)] writes. *)
Definition str (d : t) : string := format " " d.

End Datetime.

Inductive DataClassification : Type := PUBLIC | DERIVED | RESTRICTED.

Definition DataClassification_value (c : DataClassification) : string :=
  match c with PUBLIC => "public" | DERIVED => "derived" | RESTRICTED => "restricted" end.

(** ** ArtifactBase *)
Module ArtifactBase.

Record t : Type := mk
  { artifact_id : string;
    artifact_type : string;
    version : Z;
    parent_hashes : list string;
    data_classification : DataClassification;
    pii : bool;
    sources : list string;
    producer : string;
    created_at : Datetime.t;
    run_id : string;
    stage_id : string }.

Definition fields (b : t) : list (string * Json.value) :=
  [ ("artifact_id", Json.Str (artifact_id b));
    ("artifact_type", Json.Str (artifact_type b));
    ("version", Json.Int (version b));
    ("parent_hashes", Json.strs (parent_hashes b));
    ("data_classification", Json.Str (DataClassification_value (data_classification b)));
    ("pii", Json.Bool (pii b));
    ("sources", Json.strs (sources b));
    ("producer", Json.Str (producer b));
    ("created_at", Json.Str (Datetime.str (created_at b)));
    ("run_id", Json.Str (run_id b));
    ("stage_id", Json.Str (stage_id b)) ].

Definition set_artifact_id (b : t) (i : string) : t :=
  mk i (artifact_type b) (version b) (parent_hashes b) (data_classification b) (pii b)
     (sources b) (producer b) (created_at b) (run_id b) (stage_id b).

Definition set_created_at (b : t) (d : Datetime.t) : t :=
  mk (artifact_id b) (artifact_type b) (version b) (parent_hashes b) (data_classification b) (pii b)
     (sources b) (producer b) d (run_id b) (stage_id b).

End ArtifactBase.

(** A subclass of [ArtifactBase]: its envelope and the fields it adds. *)
Class Artifact (A : Type) : Type :=
  { base : A -> ArtifactBase.t;
    own_fields : A -> list (string * Json.value) }.

(** [self.model_dump()] without the computed [artifact_hash]. *)
Definition model_dump {A} `{Artifact A} (a : A) : list (string * Json.value) :=
  (ArtifactBase.fields (base a) ++ own_fields a)%list.

(** [content = self.model_dump(exclude={"artifact_hash", "created_at"})]
    and [content_str = json.dumps(content, sort_keys=True, default=str)],
    the string that is hashed. *)
Definition hashed_fields {A} `{Artifact A} (a : A) : list (string * Json.value) :=
  Json.exclude ["artifact_hash"; "created_at"] (model_dump a).

Definition hash_content {A} `{Artifact A} (a : A) : string :=
  Json.dumps (Json.Dict (hashed_fields a)).

(** [ArtifactBase.artifact_hash] *)
Definition artifact_hash {A} `{Artifact A} (a : A) : string :=
  substring 0 16 (SHA256.hexdigest (hash_content a)).

#[export] Instance ArtifactBase_Artifact : Artifact ArtifactBase.t :=
  {| base := fun b => b; own_fields := fun _ => [] |}.

Module MandateDSL.

Record t : Type := mk
  { envelope : ArtifactBase.t;
    mandate_name : string;
    mandate_id : string;
    primary_objective : string;
    secondary_objectives : list string;
    benchmark : option string;
    risk_budget : float;
    max_drawdown : float;
    volatility_target : option float;
    min_equity : float;
    max_equity : float;
    min_fixed_income : float;
    max_fixed_income : float;
    min_alternatives : float;
    max_alternatives : float;
    max_single_position : float;
    max_sector_exposure : float;
    max_country_exposure : float;
    min_liquidity_ratio : float;
    esg_exclusions : list string;
    min_esg_score : option float }.

Definition fields (m : t) : list (string * Json.value) :=
  [ ("mandate_name", Json.Str (mandate_name m));
    ("mandate_id", Json.Str (mandate_id m));
    ("primary_objective", Json.Str (primary_objective m));
    ("secondary_objectives", Json.strs (secondary_objectives m));
    ("benchmark", Json.opt Json.Str (benchmark m));
    ("risk_budget", Json.Float (risk_budget m));
    ("max_drawdown", Json.Float (max_drawdown m));
    ("volatility_target", Json.opt Json.Float (volatility_target m));
    ("min_equity", Json.Float (min_equity m));
    ("max_equity", Json.Float (max_equity m));
    ("min_fixed_income", Json.Float (min_fixed_income m));
    ("max_fixed_income", Json.Float (max_fixed_income m));
    ("min_alternatives", Json.Float (min_alternatives m));
    ("max_alternatives", Json.Float (max_alternatives m));
    ("max_single_position", Json.Float (max_single_position m));
    ("max_sector_exposure", Json.Float (max_sector_exposure m));
    ("max_country_exposure", Json.Float (max_country_exposure m));
    ("min_liquidity_ratio", Json.Float (min_liquidity_ratio m));
    ("esg_exclusions", Json.strs (esg_exclusions m));
    ("min_esg_score", Json.opt Json.Float (min_esg_score m)) ].

End MandateDSL.

#[export] Instance MandateDSL_Artifact : Artifact MandateDSL.t :=
  {| base := MandateDSL.envelope; own_fields := MandateDSL.fields |}.

Module FundInfo.

Record t : Type := mk
  { accession_number : string;
    series_name : string;
    series_id : string;
    manager_name : string;
    total_assets : float;
    net_assets : float;
    primary_asset_class : string;
    holding_count : Z;
    equity_pct : float;
    fixed_income_pct : float;
    cash_pct : float;
    other_pct : float }.

Definition dump (f : t) : Json.value :=
  Json.Dict
    [ ("accession_number", Json.Str (accession_number f));
      ("series_name", Json.Str (series_name f));
      ("series_id", Json.Str (series_id f));
      ("manager_name", Json.Str (manager_name f));
      ("total_assets", Json.Float (total_assets f));
      ("net_assets", Json.Float (net_assets f));
      ("primary_asset_class", Json.Str (primary_asset_class f));
      ("holding_count", Json.Int (holding_count f));
      ("equity_pct", Json.Float (equity_pct f));
      ("fixed_income_pct", Json.Float (fixed_income_pct f));
      ("cash_pct", Json.Float (cash_pct f));
      ("other_pct", Json.Float (other_pct f)) ].

End FundInfo.

Module Universe.

Record t : Type := mk
  { envelope : ArtifactBase.t;
    universe_name : string;
    filter_criteria : PyDict.t Json.value;
    funds : list FundInfo.t;
    total_fund_count : Z;
    total_aum : float;
    asset_class_breakdown : PyDict.t float;
    manager_breakdown : PyDict.t Z }.

Definition fields (u : t) : list (string * Json.value) :=
  [ ("universe_name", Json.Str (universe_name u));
    ("filter_criteria", Json.Dict (filter_criteria u));
    ("funds", Json.List (map FundInfo.dump (funds u)));
    ("total_fund_count", Json.Int (total_fund_count u));
    ("total_aum", Json.Float (total_aum u));
    ("asset_class_breakdown", Json.dict_of Json.Float (asset_class_breakdown u));
    ("manager_breakdown", Json.dict_of Json.Int (manager_breakdown u)) ].

End Universe.

#[export] Instance Universe_Artifact : Artifact Universe.t :=
  {| base := Universe.envelope; own_fields := Universe.fields |}.

Module FundFeatures.

Record t : Type := mk
  { envelope : ArtifactBase.t;
    accession_number : string;
    series_name : string;
    monthly_return_1 : option float;
    monthly_return_2 : option float;
    monthly_return_3 : option float;
    annualized_return : option float;
    volatility : option float;
    sharpe_ratio : option float;
    max_drawdown : option float;
    beta : option float;
    equity_exposure : float;
    fixed_income_exposure : float;
    cash_exposure : float;
    alternative_exposure : float;
    top_10_concentration : float;
    sector_hhi : float;
    avg_credit_rating : option string;
    avg_duration : option float;
    avg_daily_volume : option float;
    liquidity_score : float }.

Definition fields (f : t) : list (string * Json.value) :=
  [ ("accession_number", Json.Str (accession_number f));
    ("series_name", Json.Str (series_name f));
    ("monthly_return_1", Json.opt Json.Float (monthly_return_1 f));
    ("monthly_return_2", Json.opt Json.Float (monthly_return_2 f));
    ("monthly_return_3", Json.opt Json.Float (monthly_return_3 f));
    ("annualized_return", Json.opt Json.Float (annualized_return f));
    ("volatility", Json.opt Json.Float (volatility f));
    ("sharpe_ratio", Json.opt Json.Float (sharpe_ratio f));
    ("max_drawdown", Json.opt Json.Float (max_drawdown f));
    ("beta", Json.opt Json.Float (beta f));
    ("equity_exposure", Json.Float (equity_exposure f));
    ("fixed_income_exposure", Json.Float (fixed_income_exposure f));
    ("cash_exposure", Json.Float (cash_exposure f));
    ("alternative_exposure", Json.Float (alternative_exposure f));
    ("top_10_concentration", Json.Float (top_10_concentration f));
    ("sector_hhi", Json.Float (sector_hhi f));
    ("avg_credit_rating", Json.opt Json.Str (avg_credit_rating f));
    ("avg_duration", Json.opt Json.Float (avg_duration f));
    ("avg_daily_volume", Json.opt Json.Float (avg_daily_volume f));
    ("liquidity_score", Json.Float (liquidity_score f)) ].

End FundFeatures.

#[export] Instance FundFeatures_Artifact : Artifact FundFeatures.t :=
  {| base := FundFeatures.envelope; own_fields := FundFeatures.fields |}.

Module HoldingAllocation.

Record t : Type := mk
  { fund_accession : string;
    fund_name : string;
    weight : float;
    expected_contribution : float }.

Definition dump (h : t) : Json.value :=
  Json.Dict
    [ ("fund_accession", Json.Str (fund_accession h));
      ("fund_name", Json.Str (fund_name h));
      ("weight", Json.Float (weight h));
      ("expected_contribution", Json.Float (expected_contribution h)) ].

(** [h.weight = w] *)
Definition set_weight (h : t) (w : float) : t :=
  mk (fund_accession h) (fund_name h) w (expected_contribution h).

End HoldingAllocation.

Module PortfolioCandidate.

Record t : Type := mk
  { envelope : ArtifactBase.t;
    candidate_id : string;
    solver_config : string;
    diversity_seed : Z;
    holdings : list HoldingAllocation.t;
    total_positions : Z;
    expected_return : float;
    expected_volatility : float;
    expected_sharpe : float;
    equity_allocation : float;
    fixed_income_allocation : float;
    cash_allocation : float;
    max_position_size : float;
    optimization_score : float;
    constraint_violations : list string;
    solver_iterations : Z;
    solver_time_ms : Z }.

Definition fields (c : t) : list (string * Json.value) :=
  [ ("candidate_id", Json.Str (candidate_id c));
    ("solver_config", Json.Str (solver_config c));
    ("diversity_seed", Json.Int (diversity_seed c));
    ("holdings", Json.List (map HoldingAllocation.dump (holdings c)));
    ("total_positions", Json.Int (total_positions c));
    ("expected_return", Json.Float (expected_return c));
    ("expected_volatility", Json.Float (expected_volatility c));
    ("expected_sharpe", Json.Float (expected_sharpe c));
    ("equity_allocation", Json.Float (equity_allocation c));
    ("fixed_income_allocation", Json.Float (fixed_income_allocation c));
    ("cash_allocation", Json.Float (cash_allocation c));
    ("max_position_size", Json.Float (max_position_size c));
    ("optimization_score", Json.Float (optimization_score c));
    ("constraint_violations", Json.strs (constraint_violations c));
    ("solver_iterations", Json.Int (solver_iterations c));
    ("solver_time_ms", Json.Int (solver_time_ms c)) ].


End PortfolioCandidate.

#[export] Instance PortfolioCandidate_Artifact : Artifact PortfolioCandidate.t :=
  {| base := PortfolioCandidate.envelope; own_fields := PortfolioCandidate.fields |}.

Module ComplianceRule.

Record t : Type := mk
  { rule_id : string;
    rule_name : string;
    rule_category : string;
    passed : bool;
    actual_value : float;
    limit_value : float;
    message : string }.

Definition dump (r : t) : Json.value :=
  Json.Dict
    [ ("rule_id", Json.Str (rule_id r));
      ("rule_name", Json.Str (rule_name r));
      ("rule_category", Json.Str (rule_category r));
      ("passed", Json.Bool (passed r));
      ("actual_value", Json.Float (actual_value r));
      ("limit_value", Json.Float (limit_value r));
      ("message", Json.Str (message r)) ].

End ComplianceRule.

Module ComplianceReport.

Record t : Type := mk
  { envelope : ArtifactBase.t;
    candidate_id : string;
    passed : bool;
    rules_checked : Z;
    rules_passed : Z;
    rules_failed : Z;
    rule_results : list ComplianceRule.t;
    critical_failures : list string;
    warnings : list string }.

Definition fields (r : t) : list (string * Json.value) :=
  [ ("candidate_id", Json.Str (candidate_id r));
    ("passed", Json.Bool (passed r));
    ("rules_checked", Json.Int (rules_checked r));
    ("rules_passed", Json.Int (rules_passed r));
    ("rules_failed", Json.Int (rules_failed r));
    ("rule_results", Json.List (map ComplianceRule.dump (rule_results r)));
    ("critical_failures", Json.strs (critical_failures r));
    ("warnings", Json.strs (warnings r)) ].

End ComplianceReport.

#[export] Instance ComplianceReport_Artifact : Artifact ComplianceReport.t :=
  {| base := ComplianceReport.envelope; own_fields := ComplianceReport.fields |}.

Module ScenarioResult.

Record t : Type := mk
  { scenario_id : string;
    scenario_name : string;
    scenario_type : string;
    description : string;
    portfolio_return : float;
    portfolio_drawdown : float;
    var_breach : bool;
    severity : string;
    passed : bool }.

Definition dump (r : t) : Json.value :=
  Json.Dict
    [ ("scenario_id", Json.Str (scenario_id r));
      ("scenario_name", Json.Str (scenario_name r));
      ("scenario_type", Json.Str (scenario_type r));
      ("description", Json.Str (description r));
      ("portfolio_return", Json.Float (portfolio_return r));
      ("portfolio_drawdown", Json.Float (portfolio_drawdown r));
      ("var_breach", Json.Bool (var_breach r));
      ("severity", Json.Str (severity r));
      ("passed", Json.Bool (passed r)) ].

End ScenarioResult.

Module RedTeamReport.

Record t : Type := mk
  { envelope : ArtifactBase.t;
    candidate_id : string;
    seed : Z;
    scenarios_tested : Z;
    search_budget : Z;
    passed : bool;
    worst_scenario : option ScenarioResult.t;
    scenario_results : list ScenarioResult.t;
    avg_drawdown : float;
    max_drawdown : float;
    var_95 : float;
    cvar_95 : float;
    breaking_scenarios : list string }.

Definition fields (r : t) : list (string * Json.value) :=
  [ ("candidate_id", Json.Str (candidate_id r));
    ("seed", Json.Int (seed r));
    ("scenarios_tested", Json.Int (scenarios_tested r));
    ("search_budget", Json.Int (search_budget r));
    ("passed", Json.Bool (passed r));
    ("worst_scenario", Json.opt ScenarioResult.dump (worst_scenario r));
    ("scenario_results", Json.List (map ScenarioResult.dump (scenario_results r)));
    ("avg_drawdown", Json.Float (avg_drawdown r));
    ("max_drawdown", Json.Float (max_drawdown r));
    ("var_95", Json.Float (var_95 r));
    ("cvar_95", Json.Float (cvar_95 r));
    ("breaking_scenarios", Json.strs (breaking_scenarios r)) ].

End RedTeamReport.

#[export] Instance RedTeamReport_Artifact : Artifact RedTeamReport.t :=
  {| base := RedTeamReport.envelope; own_fields := RedTeamReport.fields |}.

Module Decision.

Record t : Type := mk
  { envelope : ArtifactBase.t;
    selected_candidate : string;
    selection_rationale : string;
    candidate_scores : PyDict.t float;
    scoring_weights : PyDict.t float;
    candidate_comparison : PyDict.t (PyDict.t Json.value);
    rejected_candidates : PyDict.t string }.

Definition fields (d : t) : list (string * Json.value) :=
  [ ("selected_candidate", Json.Str (selected_candidate d));
    ("selection_rationale", Json.Str (selection_rationale d));
    ("candidate_scores", Json.dict_of Json.Float (candidate_scores d));
    ("scoring_weights", Json.dict_of Json.Float (scoring_weights d));
    ("candidate_comparison", Json.dict_of Json.Dict (candidate_comparison d));
    ("rejected_candidates", Json.dict_of Json.Str (rejected_candidates d)) ].

End Decision.

#[export] Instance Decision_Artifact : Artifact Decision.t :=
  {| base := Decision.envelope; own_fields := Decision.fields |}.

Module ICMemo.

Record t : Type := mk
  { envelope : ArtifactBase.t;
    memo_date : Datetime.t;
    memo_title : string;
    prepared_by : string;
    executive_summary : string;
    recommendation : string;
    mandate_summary : string;
    market_context : string;
    portfolio_overview : string;
    risk_analysis : string;
    compliance_summary : string;
    implementation_plan : string;
    appendix_refs : list string }.

Definition fields (m : t) : list (string * Json.value) :=
  [ ("memo_date", Json.Str (Datetime.str (memo_date m)));
    ("memo_title", Json.Str (memo_title m));
    ("prepared_by", Json.Str (prepared_by m));
    ("executive_summary", Json.Str (executive_summary m));
    ("recommendation", Json.Str (recommendation m));
    ("mandate_summary", Json.Str (mandate_summary m));
    ("market_context", Json.Str (market_context m));
    ("portfolio_overview", Json.Str (portfolio_overview m));
    ("risk_analysis", Json.Str (risk_analysis m));
    ("compliance_summary", Json.Str (compliance_summary m));
    ("implementation_plan", Json.Str (implementation_plan m));
    ("appendix_refs", Json.strs (appendix_refs m)) ].

End ICMemo.

#[export] Instance ICMemo_Artifact : Artifact ICMemo.t :=
  {| base := ICMemo.envelope; own_fields := ICMemo.fields |}.

Module AuditEvent.

Record t : Type := mk
  { envelope : ArtifactBase.t;
    event_id : string;
    event_type : string;
    event_timestamp : Datetime.t;
    actor : string;
    action : string;
    target : option string;
    details : PyDict.t Json.value;
    outcome : string;
    error_message : option string }.

Definition fields (a : t) : list (string * Json.value) :=
  [ ("event_id", Json.Str (event_id a));
    ("event_type", Json.Str (event_type a));
    ("event_timestamp", Json.Str (Datetime.str (event_timestamp a)));
    ("actor", Json.Str (actor a));
    ("action", Json.Str (action a));
    ("target", Json.opt Json.Str (target a));
    ("details", Json.Dict (details a));
    ("outcome", Json.Str (outcome a));
    ("error_message", Json.opt Json.Str (error_message a)) ].

End AuditEvent.

#[export] Instance AuditEvent_Artifact : Artifact AuditEvent.t :=
  {| base := AuditEvent.envelope; own_fields := AuditEvent.fields |}.

(* ================================================================== *)
(** * backend/schemas/events.py *)
(* ================================================================== *)

Inductive EventLevel : Type := INFO | WARN | ERROR.

Inductive EventKind : Type :=
| RUN_STARTED | RUN_COMPLETED | RUN_FAILED
| STAGE_STARTED | STAGE_COMPLETED | STAGE_FAILED | STAGE_SKIPPED
| AGENT_STARTED | AGENT_COMPLETED | EXECUTOR_STARTED | EXECUTOR_COMPLETED
| TOOL_CALLED | TOOL_COMPLETED | TOOL_FAILED
| CANDIDATE_CREATED | CANDIDATE_PASSED | CANDIDATE_FAILED | CANDIDATE_REPAIRED
| COMPLIANCE_CHECK | REDTEAM_CHECK | REPAIR_ITERATION
| DECISION_MADE | ARTIFACT_PERSISTED
| PROGRESS_UPDATE | HEARTBEAT.

Definition EventKind_eqb (a b : EventKind) : bool :=
  match a, b with
  | RUN_STARTED, RUN_STARTED | RUN_COMPLETED, RUN_COMPLETED | RUN_FAILED, RUN_FAILED
  | STAGE_STARTED, STAGE_STARTED | STAGE_COMPLETED, STAGE_COMPLETED
  | STAGE_FAILED, STAGE_FAILED | STAGE_SKIPPED, STAGE_SKIPPED
  | AGENT_STARTED, AGENT_STARTED | AGENT_COMPLETED, AGENT_COMPLETED
  | EXECUTOR_STARTED, EXECUTOR_STARTED | EXECUTOR_COMPLETED, EXECUTOR_COMPLETED
  | TOOL_CALLED, TOOL_CALLED | TOOL_COMPLETED, TOOL_COMPLETED | TOOL_FAILED, TOOL_FAILED
  | CANDIDATE_CREATED, CANDIDATE_CREATED | CANDIDATE_PASSED, CANDIDATE_PASSED
  | CANDIDATE_FAILED, CANDIDATE_FAILED | CANDIDATE_REPAIRED, CANDIDATE_REPAIRED
  | COMPLIANCE_CHECK, COMPLIANCE_CHECK | REDTEAM_CHECK, REDTEAM_CHECK
  | REPAIR_ITERATION, REPAIR_ITERATION
  | DECISION_MADE, DECISION_MADE | ARTIFACT_PERSISTED, ARTIFACT_PERSISTED
  | PROGRESS_UPDATE, PROGRESS_UPDATE | HEARTBEAT, HEARTBEAT => true
  | _, _ => false
  end.

Module WorkflowEvent.

Record t : Type := mk
  { event_id : string;
    run_id : string;
    ts : Datetime.t;
    sequence : Z;
    level : EventLevel;
    kind : EventKind;
    stage_id : option string;
    stage_name : option string;
    candidate_id : option string;
    agent_name : option string;
    executor_name : option string;
    tool_name : option string;
    message : string;
    payload : PyDict.t Json.value;
    trace_id : option string;
    span_id : option string;
    parent_span_id : option string;
    progress_pct : option float;
    duration_ms : option Z }.

(** [event.sequence = n] *)
Definition set_sequence (e : t) (n : Z) : t :=
  mk (event_id e) (run_id e) (ts e) n (level e) (kind e) (stage_id e) (stage_name e)
     (candidate_id e) (agent_name e) (executor_name e) (tool_name e) (message e) (payload e)
     (trace_id e) (span_id e) (parent_span_id e) (progress_pct e) (duration_ms e).

End WorkflowEvent.

(* ================================================================== *)
(** * What the interpreter draws from outside the program *)
(* ================================================================== *)

(** The [random] module's generator: the operations of [random.Random]
    the executors reach. *)
Module Random.

Record t : Type := mk
  { state : Type;
    (** [random.seed(n)] *)
    seed : Z -> state;
    (** [random.random()]: a float in [0, 1) *)
    random : state -> float * state;
    (** [Random._randbelow(n)]: an integer in [0, n) *)
    randbelow : Z -> state -> Z * state;
    (** [random.gauss(mu, sigma)] *)
    gauss : float -> float -> state -> float * state }.

End Random.

Module Runtime.

Record t : Type := mk
  { (** the 128-bit value of the n-th [uuid.uuid4()] of the process *)
    uuid4 : nat -> Z;
    (** the n-th [datetime.utcnow()] *)
    utcnow : nat -> Datetime.t;
    (** the n-th [time.time()] *)
    time : nat -> float;
    (** [hash(s)] for a [str] under this process's hash seed *)
    str_hash : string -> Z;
    (** the generator behind the [random] module *)
    rng : Random.t;
    (** the exception the n-th call to Redis, the blob container or the
        run store raises, if it raises *)
    io_error : nat -> option string }.

End Runtime.

Module Uuid.

Fixpoint hex_digits (n : nat) (x : Z) : string :=
  match n with
  | O => ""
  | S k => PyStr.hex_digit ((x / 16 ^ Z.of_nat k) mod 16) ++ hex_digits k x
  end.

(** [u.hex] *)
Definition hex (u : Z) : string := hex_digits 32 u.

(** [str(u)] *)
Definition str (u : Z) : string :=
  let h := hex u in
  substring 0 8 h ++ "-" ++ substring 8 4 h ++ "-" ++ substring 12 4 h ++ "-"
    ++ substring 16 4 h ++ "-" ++ substring 20 12 h.

End Uuid.

(* ================================================================== *)
(** * The world of one run and the monad of [async def] *)
(* ================================================================== *)

(** [schemas/runs.py]: the stage statuses and the part of [RunMetadata]
    the workflow reads. *)
Module StageStatus.
Inductive t : Type := PENDING | RUNNING | SUCCEEDED | FAILED | SKIPPED | REPAIRED.
End StageStatus.

Module RunMetadata.
Record t : Type := mk { mandate_id : string; seed : Z }.
End RunMetadata.

(** The attributes of an [ICWorkflow] object. *)
Module ICWorkflowState.

Record t : Type := mk
  { run_id : string;
    run : option RunMetadata.t;
    sequence : Z;
    mandate : option MandateDSL.t;
    universe : option Universe.t;
    features : list FundFeatures.t;
    candidates : PyDict.t PortfolioCandidate.t;
    compliance_reports : PyDict.t ComplianceReport.t;
    redteam_reports : PyDict.t RedTeamReport.t;
    decision : option Decision.t;
    memo : option ICMemo.t }.

(** [ICWorkflow.__init__] *)
Definition init (run_id : string) : t :=
  mk run_id None 0 None None [] [] [] [] None None.

End ICWorkflowState.

(** A blob of the artifact container, its path
    [runs/<run_id>/artifacts/<artifact_type>/<file>] kept by component. *)
Module Blob.

Record t : Type := mk
  { run_id : string;
    artifact_type : string;
    file : string;
    content : Json.value }.

Definition path (b : t) : string :=
  "runs/" ++ run_id b ++ "/artifacts/" ++ artifact_type b ++ "/" ++ file b.

End Blob.

Module World.

Record t : Type := mk
  { (** how many uuids, timestamps, timer values and I/O calls the
        process has consumed *)
    uuid_draws : nat;
    clock_reads : nat;
    timer_reads : nat;
    io_calls : nat;
    (** the Redis stream [ic:events:<run_id>], oldest entry first *)
    stream : list WorkflowEvent.t;
    (** [EventBus._sequence_counters[run_id]] *)
    bus_sequence : Z;
    (** the blobs uploaded to the artifact container, oldest first *)
    blobs : list Blob.t;
    (** the run store's stage rows, as the updates it received *)
    stage_updates : list (string * StageStatus.t);
    (** the workflow object *)
    wf : ICWorkflowState.t }.

Definition init (run_id : string) : t :=
  mk 0 0 0 0 [] 0 [] [] (ICWorkflowState.init run_id).

Definition set_wf (w : t) (s : ICWorkflowState.t) : t :=
  mk (uuid_draws w) (clock_reads w) (timer_reads w) (io_calls w) (stream w) (bus_sequence w)
     (blobs w) (stage_updates w) s.

End World.

(** The result of awaiting a coroutine: a value or a raised exception
    (its [str()]). *)
Inductive outcome (A : Type) : Type :=
| Ok (a : A)
| Raised (msg : string).
Arguments Ok {A} a.
Arguments Raised {A} msg.

(** An [async def] returning [A].  The world after the call is returned in
    both cases: what a coroutine did before it raised stays done. *)
Definition M (A : Type) : Type := World.t -> outcome A * World.t.

Definition ret {A} (a : A) : M A := fun w => (Ok a, w).

Definition bind {A B} (m : M A) (f : A -> M B) : M B :=
  fun w =>
    match m w with
    | (Ok a, w') => f a w'
    | (Raised e, w') => (Raised e, w')
    end.

Definition raise {A} (msg : string) : M A := fun w => (Raised msg, w).


Definition get_world : M World.t := fun w => (Ok w, w).
Definition modify (f : World.t -> World.t) : M unit := fun w => (Ok tt, f w).

Declare Scope py_scope.
Delimit Scope py_scope with py.
Notation "x <- m ;; k" := (bind m (fun x => k))
  (at level 61, m at next level, right associativity) : py_scope.
Notation "' pat <- m ;; k" := (bind m (fun x => match x with pat => k end))
  (at level 61, pat pattern, m at next level, right associativity) : py_scope.
Notation "m ;; k" := (bind m (fun _ => k))
  (at level 61, right associativity) : py_scope.
#[local] Open Scope py_scope.

(** [for x in xs: body(x)] *)
Fixpoint for_each {A} (xs : list A) (body : A -> M unit) : M unit :=
  match xs with
  | [] => ret tt
  | x :: r => body x ;; for_each r body
  end.

(** [ys = []; for x in xs: ys.append(await body(x))] *)
Fixpoint map_M {A B} (xs : list A) (body : A -> M B) : M (list B) :=
  match xs with
  | [] => ret []
  | x :: r => y <- body x ;; ys <- map_M r body ;; ret (y :: ys)
  end.

Section Primitives.

Variable rt : Runtime.t.

(** [uuid.uuid4()] *)
Definition uuid4 : M Z :=
  fun w =>
    (Ok (Runtime.uuid4 rt (World.uuid_draws w)),
     World.mk (S (World.uuid_draws w)) (World.clock_reads w) (World.timer_reads w)
              (World.io_calls w) (World.stream w) (World.bus_sequence w) (World.blobs w)
              (World.stage_updates w) (World.wf w)).

(** [uuid.uuid4().hex[:8]] *)
Definition uuid4_hex8 : M string := u <- uuid4 ;; ret (substring 0 8 (Uuid.hex u)).

(** [datetime.utcnow()] *)
Definition utcnow : M Datetime.t :=
  fun w =>
    (Ok (Runtime.utcnow rt (World.clock_reads w)),
     World.mk (World.uuid_draws w) (S (World.clock_reads w)) (World.timer_reads w)
              (World.io_calls w) (World.stream w) (World.bus_sequence w) (World.blobs w)
              (World.stage_updates w) (World.wf w)).


(** One awaited call to an external service: it completes or raises. *)
Definition io : M unit :=
  fun w =>
    let w' := World.mk (World.uuid_draws w) (World.clock_reads w) (World.timer_reads w)
                       (S (World.io_calls w)) (World.stream w) (World.bus_sequence w)
                       (World.blobs w) (World.stage_updates w) (World.wf w) in
    match Runtime.io_error rt (World.io_calls w) with
    | None => (Ok tt, w')
    | Some e => (Raised e, w')
    end.

(** ** services/event_bus.py: [EventBus.publish] *)

(** [EventBus._get_next_sequence] *)
Definition _get_next_sequence : M Z :=
  fun w =>
    let n := World.bus_sequence w + 1 in
    (Ok n,
     World.mk (World.uuid_draws w) (World.clock_reads w) (World.timer_reads w)
              (World.io_calls w) (World.stream w) n (World.blobs w)
              (World.stage_updates w) (World.wf w)).

(** [await self.redis.xadd(stream_key, event_data, maxlen=MAX_STREAM_LEN)] *)
Definition xadd (event : WorkflowEvent.t) : M unit :=
  io ;;
  modify (fun w =>
    World.mk (World.uuid_draws w) (World.clock_reads w) (World.timer_reads w)
             (World.io_calls w) (World.stream w ++ [event])%list (World.bus_sequence w)
             (World.blobs w) (World.stage_updates w) (World.wf w)).

Definition publish (event : WorkflowEvent.t) : M unit :=
  event <- (if WorkflowEvent.sequence event =? 0
            then n <- _get_next_sequence ;; ret (WorkflowEvent.set_sequence event n)
            else ret event) ;;
  xadd event.

(** [WorkflowEvent(run_id=..., kind=..., ...)]: the constructor draws
    [event_id] and [ts]. *)
Definition new_event (run_id : string) (kind : EventKind) (level : EventLevel)
    (stage_id candidate_id : option string) (message : string) (sequence : Z)
    (payload : PyDict.t Json.value) (duration_ms : option Z) : M WorkflowEvent.t :=
  u <- uuid4 ;;
  now <- utcnow ;;
  ret (WorkflowEvent.mk (Uuid.str u) run_id now sequence level kind stage_id None candidate_id
         None None None message payload None None None None duration_ms).

(** ** services/artifact_store.py: [ArtifactStore.save] *)

Definition _artifact_path (run_id artifact_type : string) (version : Z) : string :=
  "runs/" ++ run_id ++ "/artifacts/" ++ artifact_type ++ "/" ++ PyNum.str_int version ++ ".json".

Definition _latest_path (run_id artifact_type : string) : string :=
  "runs/" ++ run_id ++ "/artifacts/" ++ artifact_type ++ "/latest.json".

(** [await blob_client.upload_blob(content, overwrite=True)] *)
Definition upload_blob (blob : Blob.t) : M unit :=
  io ;;
  modify (fun w =>
    World.mk (World.uuid_draws w) (World.clock_reads w) (World.timer_reads w)
             (World.io_calls w) (World.stream w) (World.bus_sequence w)
             (World.blobs w ++ [blob])%list (World.stage_updates w) (World.wf w)).

(** [artifact.model_dump_json()]: the fields and the computed hash. *)
Definition model_dump_json {A} `{Artifact A} (a : A) : Json.value :=
  Json.Dict (model_dump a ++ [("artifact_hash", Json.Str (artifact_hash a))])%list.

Definition store_save {A} `{Artifact A} (artifact : A) : M string :=
  let artifact_json := model_dump_json artifact in
  let b := base artifact in
  let version_path :=
    _artifact_path (ArtifactBase.run_id b) (ArtifactBase.artifact_type b) (ArtifactBase.version b) in
  upload_blob (Blob.mk (ArtifactBase.run_id b) (ArtifactBase.artifact_type b)
                       (PyNum.str_int (ArtifactBase.version b) ++ ".json") artifact_json) ;;
  (* Also save as latest *)
  upload_blob (Blob.mk (ArtifactBase.run_id b) (ArtifactBase.artifact_type b)
                       "latest.json" artifact_json) ;;
  ret version_path.


(** ** worker/workflow.py: [ICWorkflow.emit] *)

Definition get_wf : M ICWorkflowState.t := fun w => (Ok (World.wf w), w).
Definition set_wf (f : ICWorkflowState.t -> ICWorkflowState.t) : M unit :=
  modify (fun w => World.set_wf w (f (World.wf w))).

Definition set_sequence (s : ICWorkflowState.t) (n : Z) : ICWorkflowState.t :=
  ICWorkflowState.mk (ICWorkflowState.run_id s) (ICWorkflowState.run s) n
    (ICWorkflowState.mandate s) (ICWorkflowState.universe s) (ICWorkflowState.features s)
    (ICWorkflowState.candidates s) (ICWorkflowState.compliance_reports s)
    (ICWorkflowState.redteam_reports s) (ICWorkflowState.decision s) (ICWorkflowState.memo s).

Definition emit (kind : EventKind) (message : string) (stage_id candidate_id : option string)
    (level : EventLevel) (payload : PyDict.t Json.value) (duration_ms : option Z) : M unit :=
  set_wf (fun s => set_sequence s (ICWorkflowState.sequence s + 1)) ;;
  self <- get_wf ;;
  event <- new_event (ICWorkflowState.run_id self) kind level stage_id candidate_id message
             (ICWorkflowState.sequence self) payload duration_ms ;;
  publish event.

(** ** worker/executors/base.py: [BaseExecutor] *)

Record Executor : Type := mkExecutor { stage_id : string; executor_name : string }.

Definition emit_progress (self : Executor) (message : string) : M unit :=
  emit PROGRESS_UPDATE message (Some (stage_id self)) None INFO
       [("progress_pct", Json.Null)] None.

Definition save_artifact {A} `{Artifact A} (self : Executor) (artifact : A) : M string :=
  path <- store_save artifact ;;
  emit ARTIFACT_PERSISTED
       ("Artifact saved: " ++ ArtifactBase.artifact_type (base artifact))
       (Some (stage_id self)) None INFO
       [ ("artifact_type", Json.Str (ArtifactBase.artifact_type (base artifact)));
         ("artifact_id", Json.Str (ArtifactBase.artifact_id (base artifact)));
         ("path", Json.Str path) ] None ;;
  ret path.

(** [ArtifactBase(...)] as every executor builds it: [created_at] is
    drawn by the constructor, [version] and [pii] keep their defaults. *)
Definition new_envelope (self : Executor) (artifact_id artifact_type : string)
    (parent_hashes : list string) (classification : DataClassification)
    (sources : list string) : M ArtifactBase.t :=
  now <- utcnow ;;
  wfs <- get_wf ;;
  ret (ArtifactBase.mk artifact_id artifact_type 1 parent_hashes classification false sources
         (executor_name self) now (ICWorkflowState.run_id wfs) (stage_id self)).

End Primitives.

(* ================================================================== *)
(** * worker/executors/mandate.py *)
(* ================================================================== *)

Module LoadMandateExecutor.

(** One entry of [MANDATE_TEMPLATES]: the keyword arguments it holds. *)
Record Template : Type := mkTemplate
  { mandate_name : string;
    primary_objective : string;
    secondary_objectives : list string;
    benchmark : string;
    risk_budget : float;
    max_drawdown : float;
    volatility_target : float;
    min_equity : float;
    max_equity : float;
    min_fixed_income : float;
    max_fixed_income : float;
    min_alternatives : float;
    max_alternatives : float;
    max_single_position : float;
    max_sector_exposure : float;
    max_country_exposure : float;
    min_liquidity_ratio : float;
    esg_exclusions : list string }.

Definition balanced_growth : Template :=
  {| mandate_name := "Balanced Growth Fund";
     primary_objective := "growth";
     secondary_objectives := ["income"; "capital_preservation"];
     benchmark := "S&P 500 Total Return";
     risk_budget := 0.15;
     max_drawdown := 0.20;
     volatility_target := 0.12;
     min_equity := 0.40;
     max_equity := 0.70;
     min_fixed_income := 0.20;
     max_fixed_income := 0.50;
     min_alternatives := 0.0;
     max_alternatives := 0.15;
     max_single_position := 0.08;
     max_sector_exposure := 0.25;
     max_country_exposure := 0.40;
     min_liquidity_ratio := 0.85;
     esg_exclusions := ["tobacco"; "weapons"; "gambling"] |}.

Definition conservative_income : Template :=
  {| mandate_name := "Conservative Income Fund";
     primary_objective := "income";
     secondary_objectives := ["capital_preservation"];
     benchmark := "Bloomberg US Aggregate Bond Index";
     risk_budget := 0.08;
     max_drawdown := 0.10;
     volatility_target := 0.06;
     min_equity := 0.10;
     max_equity := 0.30;
     min_fixed_income := 0.50;
     max_fixed_income := 0.80;
     min_alternatives := 0.0;
     max_alternatives := 0.10;
     max_single_position := 0.05;
     max_sector_exposure := 0.20;
     max_country_exposure := 0.30;
     min_liquidity_ratio := 0.90;
     esg_exclusions := ["tobacco"; "weapons"] |}.

Definition aggressive_growth : Template :=
  {| mandate_name := "Aggressive Growth Fund";
     primary_objective := "growth";
     secondary_objectives := [];
     benchmark := "Russell 2000 Growth Index";
     risk_budget := 0.25;
     max_drawdown := 0.35;
     volatility_target := 0.20;
     min_equity := 0.70;
     max_equity := 1.0;
     min_fixed_income := 0.0;
     max_fixed_income := 0.20;
     min_alternatives := 0.0;
     max_alternatives := 0.20;
     max_single_position := 0.10;
     max_sector_exposure := 0.35;
     max_country_exposure := 0.50;
     min_liquidity_ratio := 0.75;
     esg_exclusions := [] |}.

Definition MANDATE_TEMPLATES : PyDict.t Template :=
  [ ("balanced_growth", balanced_growth);
    ("conservative_income", conservative_income);
    ("aggressive_growth", aggressive_growth) ].

Definition self : Executor := mkExecutor "load_mandate" "LoadMandateExecutor".

(** [MandateDSL(artifact_id=..., mandate_id=mandate_id, **template)] *)
Definition instantiate (envelope : ArtifactBase.t) (mandate_id : string) (t : Template)
  : MandateDSL.t :=
  MandateDSL.mk envelope (mandate_name t) mandate_id (primary_objective t)
    (secondary_objectives t) (Some (benchmark t)) (risk_budget t) (max_drawdown t)
    (Some (volatility_target t)) (min_equity t) (max_equity t) (min_fixed_income t)
    (max_fixed_income t) (min_alternatives t) (max_alternatives t) (max_single_position t)
    (max_sector_exposure t) (max_country_exposure t) (min_liquidity_ratio t)
    (esg_exclusions t) None.

Section WithRuntime.
  Variable rt : Runtime.t.

Definition execute (mandate_id : string) : M MandateDSL.t :=
  emit_progress rt self ("Loading mandate template: " ++ mandate_id) ;;
  '(template, mandate_id) <-
    (if PyDict.contains MANDATE_TEMPLATES mandate_id then
       match PyDict.get MANDATE_TEMPLATES mandate_id with
       | Some t => ret (t, mandate_id)
       | None => raise ("KeyError: " ++ PyStr.repr mandate_id)
       end
     else
       (* Default to balanced_growth *)
       match PyDict.get MANDATE_TEMPLATES "balanced_growth" with
       | Some t => ret (t, "balanced_growth")
       | None => raise "KeyError: 'balanced_growth'"
       end) ;;
  u <- uuid4_hex8 rt ;;
  envelope <- new_envelope rt self ("mandate-" ++ u) "mandate_dsl" [] DERIVED
                ["mandate_templates"] ;;
  let mandate := instantiate envelope mandate_id template in
  save_artifact rt self mandate ;;
  ret mandate.

End WithRuntime.

End LoadMandateExecutor.

(* ================================================================== *)
(** * worker/executors/compliance.py *)
(* ================================================================== *)

Module ComplianceCheckExecutor.

Definition self : Executor := mkExecutor "verify_candidates" "ComplianceCheckExecutor".

Definition critical_categories : list string := ["concentration"; "regulatory"].

Definition is_critical (r : ComplianceRule.t) : bool :=
  existsb (String.eqb (ComplianceRule.rule_category r)) critical_categories.

(** The eight rules, in order.  [esg_violations] is the outcome of
    [random.seed(hash(candidate_id)); random.random() < 0.1]. *)
Definition rules (candidate : PortfolioCandidate.t) (mandate : MandateDSL.t)
    (esg_violations : bool) : list ComplianceRule.t :=
  let pct x := PyNum.format_pct x 2 in
  let max_pos := PortfolioCandidate.max_position_size candidate in
  let equity := PortfolioCandidate.equity_allocation candidate in
  let fixed := PortfolioCandidate.fixed_income_allocation candidate in
  let positions := PortfolioCandidate.total_positions candidate in
  let min_positions := 5 in
  let max_positions := 50 in
  let p1 := (max_pos <=? MandateDSL.max_single_position mandate)%float in
  let p2 := (MandateDSL.min_equity mandate <=? equity)%float in
  let p3 := (equity <=? MandateDSL.max_equity mandate)%float in
  let p4 := (MandateDSL.min_fixed_income mandate <=? fixed)%float in
  let p5 := (fixed <=? MandateDSL.max_fixed_income mandate)%float in
  let p6 := min_positions <=? positions in
  let p7 := positions <=? max_positions in
  [ ComplianceRule.mk "CONC-001" "Maximum Single Position" "concentration" p1
      max_pos (MandateDSL.max_single_position mandate)
      ("Max position " ++ pct max_pos ++ " " ++ (if p1 then "<=" else ">") ++ " limit "
         ++ pct (MandateDSL.max_single_position mandate));
    ComplianceRule.mk "ALLOC-001" "Minimum Equity Allocation" "allocation" p2
      equity (MandateDSL.min_equity mandate)
      ("Equity " ++ pct equity ++ " " ++ (if p2 then ">=" else "<") ++ " min "
         ++ pct (MandateDSL.min_equity mandate));
    ComplianceRule.mk "ALLOC-002" "Maximum Equity Allocation" "allocation" p3
      equity (MandateDSL.max_equity mandate)
      ("Equity " ++ pct equity ++ " " ++ (if p3 then "<=" else ">") ++ " max "
         ++ pct (MandateDSL.max_equity mandate));
    ComplianceRule.mk "ALLOC-003" "Minimum Fixed Income" "allocation" p4
      fixed (MandateDSL.min_fixed_income mandate)
      ("Fixed income " ++ pct fixed ++ " " ++ (if p4 then ">=" else "<") ++ " min "
         ++ pct (MandateDSL.min_fixed_income mandate));
    ComplianceRule.mk "ALLOC-004" "Maximum Fixed Income" "allocation" p5
      fixed (MandateDSL.max_fixed_income mandate)
      ("Fixed income " ++ pct fixed ++ " " ++ (if p5 then "<=" else ">") ++ " max "
         ++ pct (MandateDSL.max_fixed_income mandate));
    ComplianceRule.mk "DIV-001" "Minimum Diversification" "diversification" p6
      (PyNum.of_Z positions) (PyNum.of_Z min_positions)
      ("Positions " ++ PyNum.str_int positions ++ " " ++ (if p6 then ">=" else "<") ++ " min "
         ++ PyNum.str_int min_positions);
    ComplianceRule.mk "DIV-002" "Maximum Positions" "diversification" p7
      (PyNum.of_Z positions) (PyNum.of_Z max_positions)
      ("Positions " ++ PyNum.str_int positions ++ " " ++ (if p7 then "<=" else ">") ++ " max "
         ++ PyNum.str_int max_positions);
    ComplianceRule.mk "ESG-001" "ESG Exclusion Compliance" "esg" (negb esg_violations)
      (if esg_violations then 1 else 0)%float 0%float
      (if esg_violations then "ESG violation detected" else "No ESG violations found") ].

(** The aggregation and the [ComplianceReport(...)] call. *)
Definition report (envelope : ArtifactBase.t) (candidate : PortfolioCandidate.t)
    (rules : list ComplianceRule.t) : ComplianceReport.t :=
  let rules_passed := Z.of_nat (List.length (filter ComplianceRule.passed rules)) in
  let rules_failed := Z.of_nat (List.length rules) - rules_passed in
  let critical_failures :=
    map ComplianceRule.message
        (filter (fun r => negb (ComplianceRule.passed r) && is_critical r) rules) in
  let warnings :=
    map ComplianceRule.message
        (filter (fun r => negb (ComplianceRule.passed r) && negb (is_critical r)) rules) in
  let overall_passed := rules_failed =? 0 in
  ComplianceReport.mk envelope (PortfolioCandidate.candidate_id candidate) overall_passed
    (Z.of_nat (List.length rules)) rules_passed rules_failed rules critical_failures warnings.

Section WithRuntime.
  Variable rt : Runtime.t.

(** [random.seed(hash(candidate.candidate_id)); random.random() < 0.1] *)
Definition esg_draw (candidate_id : string) : bool :=
  let g := Runtime.rng rt in
  (fst (Random.random g (Random.seed g (Runtime.str_hash rt candidate_id))) <? 0.1)%float.

Definition execute (candidate : PortfolioCandidate.t) (mandate : MandateDSL.t)
  : M ComplianceReport.t :=
  let cid := PortfolioCandidate.candidate_id candidate in
  emit_progress rt self ("Running compliance checks for " ++ cid ++ "...") ;;
  let rules := rules candidate mandate (esg_draw cid) in
  u <- uuid4_hex8 rt ;;
  envelope <- new_envelope rt self ("compliance-" ++ cid ++ "-" ++ u) "compliance_report"
                [artifact_hash candidate] DERIVED
                [ArtifactBase.artifact_id (PortfolioCandidate.envelope candidate)] ;;
  let report := report envelope candidate rules in
  save_artifact rt self report ;;
  ret report.

End WithRuntime.

End ComplianceCheckExecutor.

(* ================================================================== *)
(** * worker/executors/redteam.py *)
(* ================================================================== *)

Module RedTeamExecutor.

Record Scenario : Type := mkScenario
  { id : string;
    name : string;
    type : string;
    description : string;
    equity_shock : float;
    bond_shock : float;
    vol_multiplier : float }.

Definition STRESS_SCENARIOS : list Scenario :=
  [ mkScenario "2008_FINANCIAL_CRISIS" "2008 Financial Crisis" "historical"
      "Lehman collapse and credit freeze" (-0.50) (-0.10) 3.0;
    mkScenario "2020_COVID_CRASH" "2020 COVID Crash" "historical"
      "March 2020 pandemic selloff" (-0.35) 0.05 4.0;
    mkScenario "RATE_SHOCK_UP" "Interest Rate Shock (+300bps)" "synthetic"
      "Rapid rate hike scenario" (-0.15) (-0.20) 2.0;
    mkScenario "STAGFLATION" "Stagflation Scenario" "synthetic"
      "High inflation with low growth" (-0.25) (-0.15) 2.5;
    mkScenario "LIQUIDITY_CRISIS" "Liquidity Crisis" "adversarial"
      "Severe market liquidity stress" (-0.30) (-0.05) 3.5;
    mkScenario "CURRENCY_CRISIS" "Currency Crisis" "adversarial"
      "Dollar collapse scenario" (-0.20) (-0.10) 2.5;
    mkScenario "TECH_BUBBLE_BURST" "Tech Bubble Burst" "adversarial"
      "Technology sector collapse" (-0.40) 0.05 2.0 ].

Definition self : Executor := mkExecutor "verify_candidates" "RedTeamExecutor".

(** [_run_scenario], given the noise [random.gauss(0, 0.02)] drew. *)
Definition _run_scenario (candidate : PortfolioCandidate.t) (scenario : Scenario)
    (noise : float) : ScenarioResult.t :=
  let equity_impact := (PortfolioCandidate.equity_allocation candidate * equity_shock scenario)%float in
  let bond_impact := (PortfolioCandidate.fixed_income_allocation candidate * bond_shock scenario)%float in
  let cash_impact := (PortfolioCandidate.cash_allocation candidate * 0)%float in
  let total_return := (equity_impact + bond_impact + cash_impact)%float in
  let total_return := (total_return + noise)%float in
  let drawdown := PyNum.min 0 total_return in
  let var_threshold := (-0.15)%float in
  let var_breach := (total_return <? var_threshold)%float in
  let severity :=
    if (-0.10 <? drawdown)%float then "low"
    else if (-0.20 <? drawdown)%float then "medium"
    else if (-0.30 <? drawdown)%float then "high"
    else "critical" in
  let passed := (-0.30 <? drawdown)%float && negb var_breach in
  ScenarioResult.mk (id scenario) (name scenario) (type scenario) (description scenario)
    (PyNum.round total_return 4) (PyNum.round drawdown 4) var_breach severity passed.

(** [sorted(xs)] on floats: stable, ascending. *)
Fixpoint insert_sorted (x : float) (l : list float) : list float :=
  match l with
  | [] => [x]
  | y :: r => if (x <? y)%float then x :: l else y :: insert_sorted x r
  end.
Definition sorted (xs : list float) : list float :=
  fold_left (fun acc x => insert_sorted x acc) xs [].

(** What the scenario loop keeps between iterations. *)
Record Acc : Type := mkAcc
  { scenario_results : list ScenarioResult.t;
    breaking_scenarios : list string;
    worst_drawdown : float;
    worst_scenario : option ScenarioResult.t }.

(** The aggregate metrics and the [RedTeamReport(...)] call. *)
Definition report (envelope : ArtifactBase.t) (candidate : PortfolioCandidate.t) (seed : Z)
    (acc : Acc) : RedTeamReport.t :=
  let results := scenario_results acc in
  let n := Z.of_nat (List.length results) in
  let drawdowns := map ScenarioResult.portfolio_drawdown results in
  let avg_drawdown := (PyNum.sum drawdowns / PyNum.of_Z n)%float in
  let max_drawdown :=
    match drawdowns with
    | d :: r => PyNum.min_list d r
    | [] => 0%float
    end in
  let sorted_returns := sorted (map ScenarioResult.portfolio_return results) in
  let k := PyNum.to_Z (PyNum.of_Z n * 0.05)%float in
  let var_95 := nth (Z.to_nat (Z.max 0 k)) sorted_returns 0%float in
  let cvar_95 :=
    (PyNum.sum (firstn (Z.to_nat (Z.max 1 k)) sorted_returns) / PyNum.of_Z (Z.max 1 k))%float in
  let overall_passed :=
    (Z.of_nat (List.length (breaking_scenarios acc)) <=? 1)
    && (-0.35 <? worst_drawdown acc)%float in
  RedTeamReport.mk envelope (PortfolioCandidate.candidate_id candidate) seed n 100
    overall_passed (worst_scenario acc) results
    (PyNum.round avg_drawdown 4) (PyNum.round max_drawdown 4)
    (PyNum.round var_95 4) (PyNum.round cvar_95 4) (breaking_scenarios acc).

Section WithRuntime.
  Variable rt : Runtime.t.

Let g : Random.t := Runtime.rng rt.

(** The body of [for scenario in STRESS_SCENARIOS]. *)
Fixpoint scenario_loop (candidate : PortfolioCandidate.t) (scenarios : list Scenario)
    (st : Random.state g) (acc : Acc) : M Acc :=
  match scenarios with
  | [] => ret acc
  | scenario :: rest =>
      emit_progress rt self ("Testing: " ++ name scenario) ;;
      let '(noise, st) := Random.gauss g 0 0.02 st in
      let result := _run_scenario candidate scenario noise in
      let breaking :=
        if ScenarioResult.passed result then breaking_scenarios acc
        else (breaking_scenarios acc ++ [id scenario])%list in
      let worse := (ScenarioResult.portfolio_drawdown result <? worst_drawdown acc)%float in
      scenario_loop candidate rest st
        (mkAcc (scenario_results acc ++ [result])%list breaking
               (if worse then ScenarioResult.portfolio_drawdown result else worst_drawdown acc)
               (if worse then Some result else worst_scenario acc))
  end.

Definition execute (candidate : PortfolioCandidate.t) (seed : Z) : M RedTeamReport.t :=
  let cid := PortfolioCandidate.candidate_id candidate in
  let st := Random.seed g (seed + Runtime.str_hash rt cid) in
  emit_progress rt self ("Running adversarial scenarios for " ++ cid ++ "...") ;;
  acc <- scenario_loop candidate STRESS_SCENARIOS st (mkAcc [] [] 0 None) ;;
  u <- uuid4_hex8 rt ;;
  envelope <- new_envelope rt self ("redteam-" ++ cid ++ "-" ++ u) "redteam_report"
                [artifact_hash candidate] DERIVED
                [ArtifactBase.artifact_id (PortfolioCandidate.envelope candidate)] ;;
  let report := report envelope candidate seed acc in
  save_artifact rt self report ;;
  ret report.

End WithRuntime.

End RedTeamExecutor.

(* ================================================================== *)
(** * worker/executors/candidates.py *)
(* ================================================================== *)

Module GenerateCandidatesExecutor.

Record Config : Type := mkConfig
  { id : string;
    name : string;
    return_weight : float;
    risk_weight : float;
    seed_offset : Z }.

Definition configs : list Config :=
  [ mkConfig "A" "Return-Focused" 0.8 0.2 0;
    mkConfig "B" "Risk-Focused" 0.2 0.8 1000;
    mkConfig "C" "Balanced" 0.5 0.5 2000 ].

Definition self : Executor := mkExecutor "generate_candidates" "GenerateCandidatesExecutor".

(** [x or default] on an optional float: [None] and zero are falsy. *)
Definition or_default (x : option float) (default : float) : float :=
  match x with
  | Some v => if (v =? 0)%float then default else v
  | None => default
  end.

(** An entry of [scored_funds]. *)
Record Scored : Type := mkScored
  { fund : FundInfo.t;
    features : FundFeatures.t;
    score : float }.

Definition score_funds (config : Config) (universe : Universe.t)
    (feature_map : PyDict.t FundFeatures.t) : list Scored :=
  flat_map
    (fun fund =>
       match PyDict.get feature_map (FundInfo.accession_number fund) with
       | None => []
       | Some features =>
           let return_score := (or_default (FundFeatures.sharpe_ratio features) 0 * return_weight config)%float in
           let risk_score := ((1 - or_default (FundFeatures.volatility features) 1) * risk_weight config)%float in
           [mkScored fund features (return_score + risk_score)%float]
       end)
    (Universe.funds universe).

(** [scored_funds.sort(key=score, reverse=True)]: stable, descending. *)
Fixpoint insert_desc (x : Scored) (l : list Scored) : list Scored :=
  match l with
  | [] => [x]
  | y :: r => if (score y <? score x)%float then x :: l else y :: insert_desc x r
  end.
Definition sort_desc (xs : list Scored) : list Scored :=
  fold_left (fun acc x => insert_desc x acc) xs [].

(** [x[i], x[j] = x[j], x[i]] *)
Definition swap {A} (xs : list A) (i j : nat) : list A :=
  match nth_error xs i, nth_error xs j with
  | Some a, Some b =>
      let set k v l := (firstn k l ++ v :: skipn (S k) l)%list in
      set j a (set i b xs)
  | _, _ => xs
  end.

(** The weight drawn for position [i] of [n] needs [random.uniform]; the
    last position takes what remains. *)
Definition validation_error : string :=
  "ValidationError: 1 validation error for HoldingAllocation (weight)".

Section WithRuntime.
  Variable rt : Runtime.t.

Let g : Random.t := Runtime.rng rt.

(** [random.randint(a, b)] *)
Definition randint (a b : Z) (st : Random.state g) : Z * Random.state g :=
  let '(r, st) := Random.randbelow g (b - a + 1) st in (a + r, st).

(** [random.uniform(a, b)] *)
Definition uniform (a b : float) (st : Random.state g) : float * Random.state g :=
  let '(r, st) := Random.random g st in ((a + (b - a) * r)%float, st).

(** [random.shuffle(x)]: [for i in reversed(range(1, len(x)))]. *)
Fixpoint shuffle_from {A} (i : nat) (xs : list A) (st : Random.state g)
  : list A * Random.state g :=
  match i with
  | O => (xs, st)
  | S i' =>
      let '(j, st) := Random.randbelow g (Z.of_nat i + 1) st in
      shuffle_from i' (swap xs i (Z.to_nat j)) st
  end.
Definition shuffle {A} (xs : list A) (st : Random.state g) : list A * Random.state g :=
  shuffle_from (List.length xs - 1) xs st.

(** The loop [for i, item in enumerate(selected)] that draws the
    weights; [HoldingAllocation(...)] validates [0 <= weight <= 1]. *)
Fixpoint draw_weights (n : Z) (max_position : float) (i : Z) (items : list Scored)
    (remaining_weight : float) (st : Random.state g)
  : outcome (list HoldingAllocation.t) * Random.state g :=
  match items with
  | [] => (Ok [], st)
  | item :: rest =>
      let '(weight, st) :=
        if i =? n - 1 then (remaining_weight, st)
        else
          let max_w := PyNum.min max_position
                         (remaining_weight - 0.02 * PyNum.of_Z (n - i - 1))%float in
          let '(w, st) := uniform 0.02 (PyNum.max 0.02 max_w) st in
          (PyNum.round w 4, st) in
      if (0 <=? weight)%float && (weight <=? 1)%float then
        let h := HoldingAllocation.mk (FundInfo.accession_number (fund item))
                   (FundInfo.series_name (fund item)) weight
                   (weight * or_default (FundFeatures.annualized_return (features item)) 0)%float in
        match draw_weights n max_position (i + 1) rest (remaining_weight - weight)%float st with
        | (Ok hs, st) => (Ok (h :: hs), st)
        | (Raised e, st) => (Raised e, st)
        end
      else (Raised validation_error, st)
  end.

(** [h.weight = round(h.weight / total_weight, 4)] when the total is
    positive. *)
Definition normalize (holdings : list HoldingAllocation.t) : list HoldingAllocation.t :=
  let total_weight := PyNum.sum (map HoldingAllocation.weight holdings) in
  if (0 <? total_weight)%float then
    map (fun h => HoldingAllocation.set_weight h
                    (PyNum.round (HoldingAllocation.weight h / total_weight)%float 4)) holdings
  else holdings.

(** [_generate_candidate]: everything the candidate holds except its
    envelope, as a function of the inputs and the seed. *)
Definition generate_content (config : Config) (mandate : MandateDSL.t) (universe : Universe.t)
    (feature_map : PyDict.t FundFeatures.t) (seed : Z)
  : outcome (list string * (ArtifactBase.t -> PortfolioCandidate.t)) :=
  let st := Random.seed g seed in
  let scored_funds := sort_desc (score_funds config universe feature_map) in
  let '(num_positions, st) := randint 10 20 st in
  let selected := firstn (Z.to_nat (num_positions + 5)) scored_funds in
  let '(selected, st) := shuffle selected st in
  let selected := firstn (Z.to_nat num_positions) selected in
  match draw_weights (Z.of_nat (List.length selected)) (MandateDSL.max_single_position mandate)
                     0 selected 1 st with
  | (Raised e, _) => Raised e
  | (Ok holdings, st) =>
      let holdings := normalize holdings in
      let lookup h := PyDict.get feature_map (HoldingAllocation.fund_accession h) in
      let expected_return := PyNum.sum (map HoldingAllocation.expected_contribution holdings) in
      let expected_vol :=
        PyNum.sum (flat_map (fun h => match lookup h with
                                      | Some f => [(HoldingAllocation.weight h
                                                    * or_default (FundFeatures.volatility f) 0.1)%float]
                                      | None => []
                                      end) holdings) in
      let expected_sharpe :=
        if (0 <? expected_vol)%float then (expected_return / expected_vol)%float else 0%float in
      let equity_alloc :=
        PyNum.sum (flat_map (fun h => match lookup h with
                                      | Some f => [(HoldingAllocation.weight h
                                                    * FundFeatures.equity_exposure f)%float]
                                      | None => []
                                      end) holdings) in
      let fixed_income_alloc :=
        PyNum.sum (flat_map (fun h => match lookup h with
                                      | Some f => [(HoldingAllocation.weight h
                                                    * FundFeatures.fixed_income_exposure f)%float]
                                      | None => []
                                      end) holdings) in
      let max_position_size :=
        match map HoldingAllocation.weight holdings with
        | w :: ws => PyNum.max_list w ws
        | [] => 0%float
        end in
      let optimization_score :=
        match selected with
        | [] => 0%float
        | _ => PyNum.round (PyNum.sum (map score selected)
                            / PyNum.of_Z (Z.of_nat (List.length selected)))%float 4
        end in
      let '(solver_iterations, st) := randint 50 200 st in
      let '(solver_time_ms, _) := randint 100 500 st in
      Ok (map (fun item => FundInfo.accession_number (fund item)) selected,
          fun envelope =>
            PortfolioCandidate.mk envelope (id config) (name config) seed holdings
              (Z.of_nat (List.length holdings))
              (PyNum.round expected_return 4) (PyNum.round expected_vol 4)
              (PyNum.round expected_sharpe 4)
              (PyNum.round equity_alloc 4) (PyNum.round fixed_income_alloc 4) 0
              max_position_size optimization_score [] solver_iterations solver_time_ms)
  end.

Definition _generate_candidate (config : Config) (mandate : MandateDSL.t)
    (universe : Universe.t) (feature_map : PyDict.t FundFeatures.t) (seed : Z)
  : M PortfolioCandidate.t :=
  match generate_content config mandate universe feature_map seed with
  | Raised e => raise e
  | Ok (sources, build) =>
      u <- uuid4_hex8 rt ;;
      envelope <- new_envelope rt self ("candidate-" ++ id config ++ "-" ++ u)
                    "portfolio_candidate" [] DERIVED sources ;;
      ret (build envelope)
  end.

(** The body of [for config in configs]; its result is appended to
    [candidates]. *)
Definition optimize (mandate : MandateDSL.t) (universe : Universe.t)
    (feature_map : PyDict.t FundFeatures.t) (seed : Z) (config : Config)
  : M PortfolioCandidate.t :=
  emit_progress rt self ("Optimizing Candidate " ++ id config ++ ": " ++ name config) ;;
  candidate <- _generate_candidate config mandate universe feature_map
                 (seed + seed_offset config) ;;
  save_artifact rt self candidate ;;
  ret candidate.

Definition execute (mandate : MandateDSL.t) (universe : Universe.t)
    (features : list FundFeatures.t) (seed : Z) : M (list PortfolioCandidate.t) :=
  let feature_map := PyDict.of_list FundFeatures.accession_number features in
  emit_progress rt self "Generating candidate portfolios..." ;;
  map_M configs (optimize mandate universe feature_map seed).

End WithRuntime.

End GenerateCandidatesExecutor.

(* ================================================================== *)
(** * worker/executors/repair.py *)
(* ================================================================== *)

Module RepairLoopExecutor.

Definition self : Executor := mkExecutor "repair_loop" "RepairLoopExecutor".

(** An entry of [issues]. *)
Inductive Issue : Type :=
| ComplianceIssue (rule_id category : string) (actual limit : float)
| RedteamIssue (worst_drawdown : float) (breaking_count : Z).

Definition collect_issues (compliance : option ComplianceReport.t)
    (redteam : option RedTeamReport.t) : list Issue :=
  (match compliance with
   | Some c =>
       if negb (ComplianceReport.passed c) then
         map (fun rule => ComplianceIssue (ComplianceRule.rule_id rule)
                            (ComplianceRule.rule_category rule)
                            (ComplianceRule.actual_value rule)
                            (ComplianceRule.limit_value rule))
             (filter (fun rule => negb (ComplianceRule.passed rule))
                     (ComplianceReport.rule_results c))
       else []
   | None => []
   end
   ++
   match redteam with
   | Some r =>
       if negb (RedTeamReport.passed r) then
         [RedteamIssue (RedTeamReport.max_drawdown r)
                       (Z.of_nat (List.length (RedTeamReport.breaking_scenarios r)))]
       else []
   | None => []
   end)%list.

(** [h.weight = round(h.weight / total, 4)] when the total is positive. *)
Definition renormalize (holdings : list HoldingAllocation.t) : list HoldingAllocation.t :=
  let total := PyNum.sum (map HoldingAllocation.weight holdings) in
  if (0 <? total)%float then
    map (fun h => HoldingAllocation.set_weight h
                    (PyNum.round (HoldingAllocation.weight h / total)%float 4)) holdings
  else holdings.

(** [holdings[i] = h] *)
Definition set_nth {A} (i : nat) (h : A) (l : list A) : list A :=
  (firstn i l ++ h :: skipn (S i) l)%list.

(** One step of [for h in holdings] in [_reduce_concentration], at index
    [i]: the list is updated in place, so later steps see the weights
    earlier steps wrote. *)
Definition trim_at (max_position : float) (i : nat) (holdings : list HoldingAllocation.t)
  : list HoldingAllocation.t :=
  match nth_error holdings i with
  | None => holdings
  | Some h =>
      if (max_position <? HoldingAllocation.weight h)%float then
        let excess := (HoldingAllocation.weight h - max_position)%float in
        let holdings := set_nth i (HoldingAllocation.set_weight h max_position) holdings in
        let small x := (HoldingAllocation.weight x <? max_position * 0.5)%float in
        let small_holdings := filter small holdings in
        match small_holdings with
        | [] => holdings
        | _ =>
            let per_holding := (excess / PyNum.of_Z (Z.of_nat (List.length small_holdings)))%float in
            map (fun x => if small x
                          then HoldingAllocation.set_weight x
                                 (PyNum.min max_position (HoldingAllocation.weight x + per_holding)%float)
                          else x) holdings
        end
      else holdings
  end.

Fixpoint trim_from (max_position : float) (n i : nat) (holdings : list HoldingAllocation.t)
  : list HoldingAllocation.t :=
  match n with
  | O => holdings
  | S n' => trim_from max_position n' (S i) (trim_at max_position i holdings)
  end.

Definition _reduce_concentration (holdings : list HoldingAllocation.t) (max_position : float)
  : list HoldingAllocation.t :=
  renormalize (trim_from max_position (List.length holdings) 0 holdings).

(** [holdings.sort(key=lambda x: x.weight, reverse=True)]: stable. *)
Fixpoint insert_desc (x : HoldingAllocation.t) (l : list HoldingAllocation.t)
  : list HoldingAllocation.t :=
  match l with
  | [] => [x]
  | y :: r =>
      if (HoldingAllocation.weight y <? HoldingAllocation.weight x)%float
      then x :: l else y :: insert_desc x r
  end.
Definition sort_desc (xs : list HoldingAllocation.t) : list HoldingAllocation.t :=
  fold_left (fun acc x => insert_desc x acc) xs [].

Definition _reduce_risk (holdings : list HoldingAllocation.t) : list HoldingAllocation.t :=
  let holdings := sort_desc holdings in
  let top := map (fun h => HoldingAllocation.set_weight h (HoldingAllocation.weight h * 0.9)%float)
                 (firstn 3 holdings) in
  renormalize (top ++ skipn 3 holdings)%list.

(** The loop [for issue in issues]: the holdings and [repairs_made]. *)
Definition apply_issue (mandate : MandateDSL.t)
    (st : list HoldingAllocation.t * list string) (issue : Issue)
  : list HoldingAllocation.t * list string :=
  let '(repaired_holdings, repairs_made) := st in
  match issue with
  | ComplianceIssue _ category _ _ =>
      if String.eqb category "concentration" then
        (_reduce_concentration repaired_holdings (MandateDSL.max_single_position mandate),
         (repairs_made ++ ["reduced_concentration"])%list)
      else if String.eqb category "allocation" then
        (repaired_holdings, (repairs_made ++ ["adjusted_allocation"])%list)
      else st
  | RedteamIssue _ _ =>
      (_reduce_risk repaired_holdings, (repairs_made ++ ["reduced_risk"])%list)
  end.

(** The [PortfolioCandidate(...)] call of [_apply_repair]. *)
Definition repaired_candidate (envelope : ArtifactBase.t) (candidate : PortfolioCandidate.t)
    (repaired_holdings : list HoldingAllocation.t) : PortfolioCandidate.t :=
  PortfolioCandidate.mk envelope
    (PortfolioCandidate.candidate_id candidate)
    (PortfolioCandidate.solver_config candidate ++ " (repaired)")
    (PortfolioCandidate.diversity_seed candidate)
    repaired_holdings
    (Z.of_nat (List.length repaired_holdings))
    (PortfolioCandidate.expected_return candidate * 0.95)%float
    (PortfolioCandidate.expected_volatility candidate * 0.9)%float
    (PortfolioCandidate.expected_sharpe candidate)
    (PortfolioCandidate.equity_allocation candidate * 0.95)%float
    (PortfolioCandidate.fixed_income_allocation candidate * 1.05)%float
    (PortfolioCandidate.cash_allocation candidate + 0.02)%float
    (match map HoldingAllocation.weight repaired_holdings with
     | w :: ws => PyNum.max_list w ws
     | [] => 0%float
     end)
    (PortfolioCandidate.optimization_score candidate)
    []
    (PortfolioCandidate.solver_iterations candidate + 50)
    (PortfolioCandidate.solver_time_ms candidate + 100).

Section WithRuntime.
  Variable rt : Runtime.t.

Definition _apply_repair (candidate : PortfolioCandidate.t)
    (compliance : option ComplianceReport.t) (redteam : option RedTeamReport.t)
    (mandate : MandateDSL.t) : M (option PortfolioCandidate.t) :=
  let issues := collect_issues compliance redteam in
  match issues with
  | [] => ret None
  | _ =>
      let '(repaired_holdings, repairs_made) :=
        fold_left (apply_issue mandate) issues (PortfolioCandidate.holdings candidate, []) in
      match repairs_made with
      | [] => ret None
      | _ =>
          let cid := PortfolioCandidate.candidate_id candidate in
          u <- uuid4_hex8 rt ;;
          envelope <- new_envelope rt self ("candidate-" ++ cid ++ "-repaired-" ++ u)
                        "portfolio_candidate" [artifact_hash candidate] DERIVED
                        [ArtifactBase.artifact_id (PortfolioCandidate.envelope candidate)] ;;
          let repaired := repaired_candidate envelope candidate repaired_holdings in
          save_artifact rt self repaired ;;
          ret (Some repaired)
      end
  end.

(** The [for attempt in range(1, max_attempts + 1)] loop, from the
    attempt numbers still to run. *)
Fixpoint attempts_loop (attempts : list Z) (max_attempts : Z)
    (candidate : PortfolioCandidate.t) (mandate : MandateDSL.t)
    (current_candidate : PortfolioCandidate.t)
    (current_compliance : option ComplianceReport.t)
    (current_redteam : option RedTeamReport.t)
  : M (option PortfolioCandidate.t * option ComplianceReport.t * option RedTeamReport.t) :=
  match attempts with
  | [] =>
      (* repair_budget_exhausted *)
      ret (Some current_candidate, current_compliance, current_redteam)
  | attempt :: rest =>
      let cid := PortfolioCandidate.candidate_id candidate in
      emit rt REPAIR_ITERATION
           ("Repair attempt " ++ PyNum.str_int attempt ++ "/" ++ PyNum.str_int max_attempts
              ++ " for " ++ cid)
           None (Some cid) INFO
           [("attempt", Json.Int attempt); ("max_attempts", Json.Int max_attempts)] None ;;
      emit_progress rt self ("Repair attempt " ++ PyNum.str_int attempt ++ " for " ++ cid) ;;
      repaired <- _apply_repair current_candidate current_compliance current_redteam mandate ;;
      match repaired with
      | None =>
          (* continue *)
          attempts_loop rest max_attempts candidate mandate
                        current_candidate current_compliance current_redteam
      | Some repaired =>
          new_compliance <- ComplianceCheckExecutor.execute rt repaired mandate ;;
          new_redteam <- RedTeamExecutor.execute rt repaired (42 + attempt) ;;
          if ComplianceReport.passed new_compliance && RedTeamReport.passed new_redteam then
            ret (Some repaired, Some new_compliance, Some new_redteam)
          else
            attempts_loop rest max_attempts candidate mandate
                          repaired (Some new_compliance) (Some new_redteam)
      end
  end.

(** [range(1, max_attempts + 1)] *)
Definition attempt_range (max_attempts : Z) : list Z :=
  map (fun k => Z.of_nat k) (seq 1 (Z.to_nat max_attempts)).

Definition execute (candidate : PortfolioCandidate.t)
    (compliance_report : option ComplianceReport.t)
    (redteam_report : option RedTeamReport.t)
    (mandate : MandateDSL.t) (max_attempts : Z)
  : M (option PortfolioCandidate.t * option ComplianceReport.t * option RedTeamReport.t) :=
  let compliance_passed :=
    match compliance_report with None => true | Some c => ComplianceReport.passed c end in
  let redteam_passed :=
    match redteam_report with None => true | Some r => RedTeamReport.passed r end in
  if compliance_passed && redteam_passed then
    ret (Some candidate, compliance_report, redteam_report)
  else
    attempts_loop (attempt_range max_attempts) max_attempts candidate mandate
                  candidate compliance_report redteam_report.

End WithRuntime.

End RepairLoopExecutor.

(* ================================================================== *)
(** * worker/executors/selection.py *)
(* ================================================================== *)

Module RankSelectExecutor.

Definition self : Executor := mkExecutor "rank_select" "RankSelectExecutor".

(** Scoring weights (explicit policy). *)
Definition weights : PyDict.t float :=
  [ ("compliance", 0.0%float); ("risk", 0.30%float); ("return", 0.35%float); ("sharpe", 0.35%float) ].

(** [scores] of an eligible candidate: risk, return, sharpe. *)
Definition component_scores (candidate : PortfolioCandidate.t) (redteam : option RedTeamReport.t)
  : float * float * float :=
  let risk :=
    match redteam with
    | Some r => PyNum.max 0 (1 + RedTeamReport.max_drawdown r / 0.5)%float
    | None => 0.5%float
    end in
  let ret_ := PyNum.min 1.0 (PyNum.max 0 (PortfolioCandidate.expected_return candidate / 0.20)%float) in
  let sharpe := PyNum.min 1.0 (PyNum.max 0 (PortfolioCandidate.expected_sharpe candidate / 2.0)%float) in
  (risk, ret_, sharpe).

(** A clamped score as the comparison dict holds it: [max(0, x)] is the
    integer 0 unless [x] is positive. *)
Definition clamped (x v : float) : Json.value :=
  if (0 <? x)%float then Json.Float v else Json.Int 0.

Definition total_score (scores : float * float * float) : float :=
  let '(risk, ret_, sharpe) := scores in
  (risk * 0.30 + ret_ * 0.35 + sharpe * 0.35)%float.

(** What the scoring loop builds. *)
Record Tally : Type := mkTally
  { candidate_scores : PyDict.t float;
    candidate_details : PyDict.t (PyDict.t Json.value);
    rejected : PyDict.t string }.

(** The body of [for candidate_id, candidate in candidates.items()]:
    rejected for compliance, else rejected for red-team, else scored. *)
Definition score_candidate (compliance_reports : PyDict.t ComplianceReport.t)
    (redteam_reports : PyDict.t RedTeamReport.t) (t : Tally)
    (item : string * PortfolioCandidate.t) : Tally :=
  let '(candidate_id, candidate) := item in
  let compliance := PyDict.get compliance_reports candidate_id in
  let redteam := PyDict.get redteam_reports candidate_id in
  let reject reason :=
    mkTally (PyDict.set (candidate_scores t) candidate_id 0%float) (candidate_details t)
            (PyDict.set (rejected t) candidate_id reason) in
  let scored :=
    let scores := component_scores candidate redteam in
    let '(risk, ret_, sharpe) := scores in
    mkTally
      (PyDict.set (candidate_scores t) candidate_id (PyNum.round (total_score scores) 4))
      (PyDict.set (candidate_details t) candidate_id
         [ ("scores", Json.Dict
                        [ ("risk", match redteam with
                                   | Some r => clamped (1 + RedTeamReport.max_drawdown r / 0.5)%float risk
                                   | None => Json.Float risk
                                   end);
                          ("return", clamped (PortfolioCandidate.expected_return candidate / 0.20)%float ret_);
                          ("sharpe", clamped (PortfolioCandidate.expected_sharpe candidate / 2.0)%float sharpe) ]);
           ("expected_return", Json.Float (PortfolioCandidate.expected_return candidate));
           ("expected_volatility", Json.Float (PortfolioCandidate.expected_volatility candidate));
           ("expected_sharpe", Json.Float (PortfolioCandidate.expected_sharpe candidate));
           ("max_drawdown", Json.opt (fun r => Json.Float (RedTeamReport.max_drawdown r)) redteam);
           ("compliance_passed", Json.opt (fun c => Json.Bool (ComplianceReport.passed c)) compliance);
           ("redteam_passed", Json.opt (fun r => Json.Bool (RedTeamReport.passed r)) redteam) ])
      (rejected t) in
  let after_compliance :=
    match redteam with
    | Some r =>
        if negb (RedTeamReport.passed r) then
          reject ("Failed red-team: "
                    ++ PyNum.str_int (Z.of_nat (List.length (RedTeamReport.breaking_scenarios r)))
                    ++ " breaking scenarios")
        else scored
    | None => scored
    end in
  match compliance with
  | Some c =>
      if negb (ComplianceReport.passed c) then
        reject ("Failed compliance: " ++ PyStr.str_list (ComplianceReport.critical_failures c))
      else after_compliance
  | None => after_compliance
  end.

(** [max(xs, key=key)]: the first element whose key no later element
    beats; [None] on an empty sequence, where Python raises. *)
Definition max_by {A} (key : A -> float) (xs : list A) : option A :=
  match xs with
  | [] => None
  | x :: r => Some (fold_left (fun best y => if (key best <? key y)%float then y else best) r x)
  end.

(** [candidate_scores[x]] for a key that is present. *)
Definition score_of (scores : PyDict.t float) (x : string) : float :=
  match PyDict.get scores x with Some v => v | None => 0%float end.

(** The winner and the rationale; [None] stands for the [ValueError] of
    [max()] on an empty sequence. *)
Definition select_winner (candidates : PyDict.t PortfolioCandidate.t) (t : Tally)
  : option (string * string) :=
  let eligible_candidates :=
    filter (fun c => negb (PyDict.contains (rejected t) c)) (PyDict.keys (candidate_scores t)) in
  match eligible_candidates with
  | [] =>
      (* No candidates passed - select best of failed *)
      match max_by (score_of (candidate_scores t)) (PyDict.keys (candidate_scores t)) with
      | None => None
      | Some selected =>
          Some (selected,
                "No candidates passed all checks. Selected " ++ selected
                  ++ " as best available option.")
      end
  | _ =>
      match max_by (score_of (candidate_scores t)) eligible_candidates with
      | None => None
      | Some selected =>
          match PyDict.get candidates selected with
          | None => None
          | Some winner =>
              let winner_score := score_of (candidate_scores t) selected in
              Some (selected,
                    "Selected Candidate " ++ selected ++ " with score "
                      ++ PyNum.format_f winner_score 3 ++ ". "
                      ++ "Expected return: "
                      ++ PyNum.format_pct (PortfolioCandidate.expected_return winner) 2 ++ ", "
                      ++ "Expected Sharpe: "
                      ++ PyNum.format_f (PortfolioCandidate.expected_sharpe winner) 2 ++ ".")
          end
      end
  end.

Section WithRuntime.
  Variable rt : Runtime.t.

Definition execute (candidates : PyDict.t PortfolioCandidate.t)
    (compliance_reports : PyDict.t ComplianceReport.t)
    (redteam_reports : PyDict.t RedTeamReport.t) (mandate : MandateDSL.t)
  : M Decision.t :=
  emit_progress rt self "Scoring and ranking candidates..." ;;
  let tally :=
    fold_left (score_candidate compliance_reports redteam_reports)
              (PyDict.items candidates) (mkTally [] [] []) in
  '(selected, rationale) <-
    match select_winner candidates tally with
    | Some r => ret r
    | None => raise "ValueError: max() arg is an empty sequence"
    end ;;
  emit_progress rt self ("Selected winner: Candidate " ++ selected) ;;
  winner <- match PyDict.get candidates selected with
            | Some c => ret c
            | None => raise ("KeyError: " ++ PyStr.repr selected)
            end ;;
  u <- uuid4_hex8 rt ;;
  envelope <- new_envelope rt self ("decision-" ++ u) "decision"
                [artifact_hash winner] DERIVED
                (map (fun c => ArtifactBase.artifact_id (PortfolioCandidate.envelope c))
                     (PyDict.values candidates)) ;;
  let decision :=
    Decision.mk envelope selected rationale (candidate_scores tally) weights
                (candidate_details tally) (rejected tally) in
  save_artifact rt self decision ;;
  ret decision.

End WithRuntime.

End RankSelectExecutor.

(* ================================================================== *)
(** * worker/executors/audit.py *)
(* ================================================================== *)

Module AuditFinalizeExecutor.

Definition self : Executor := mkExecutor "audit_finalize" "AuditFinalizeExecutor".

(** Collect all artifact hashes. *)
Definition collect_hashes (mandate : MandateDSL.t) (universe : Universe.t)
    (candidates : PyDict.t PortfolioCandidate.t) (decision : Decision.t) (memo : ICMemo.t)
  : PyDict.t string :=
  let artifact_hashes :=
    [ ("mandate", artifact_hash mandate);
      ("universe", artifact_hash universe);
      ("decision", artifact_hash decision);
      ("memo", artifact_hash memo) ] in
  fold_left (fun hashes item => PyDict.set hashes ("candidate_" ++ fst item) (artifact_hash (snd item)))
            (PyDict.items candidates) artifact_hashes.

Definition decision_chain (mandate : MandateDSL.t) (universe : Universe.t)
    (candidates : PyDict.t PortfolioCandidate.t) (decision : Decision.t) (memo : ICMemo.t)
  : list Json.value :=
  [ Json.Dict [ ("stage", Json.Str "load_mandate");
                ("artifact", Json.Str (ArtifactBase.artifact_id (MandateDSL.envelope mandate)));
                ("timestamp", Json.Str (Datetime.isoformat
                                          (ArtifactBase.created_at (MandateDSL.envelope mandate)))) ];
    Json.Dict [ ("stage", Json.Str "build_universe");
                ("artifact", Json.Str (ArtifactBase.artifact_id (Universe.envelope universe)));
                ("timestamp", Json.Str (Datetime.isoformat
                                          (ArtifactBase.created_at (Universe.envelope universe))));
                ("fund_count", Json.Int (Universe.total_fund_count universe)) ];
    Json.Dict [ ("stage", Json.Str "generate_candidates");
                ("artifacts", Json.strs (map (fun c => ArtifactBase.artifact_id (PortfolioCandidate.envelope c))
                                             (PyDict.values candidates)));
                ("count", Json.Int (Z.of_nat (List.length candidates))) ];
    Json.Dict [ ("stage", Json.Str "rank_select");
                ("artifact", Json.Str (ArtifactBase.artifact_id (Decision.envelope decision)));
                ("selected", Json.Str (Decision.selected_candidate decision));
                ("scores", Json.dict_of Json.Float (Decision.candidate_scores decision)) ];
    Json.Dict [ ("stage", Json.Str "write_memo");
                ("artifact", Json.Str (ArtifactBase.artifact_id (ICMemo.envelope memo)));
                ("title", Json.Str (ICMemo.memo_title memo)) ] ].

Section WithRuntime.
  Variable rt : Runtime.t.

(** [_create_audit_bundle]: the store lists the run's blobs (a call
    that can raise; the loads that follow swallow their failures) and
    two timestamps are read; the bundle it builds is dropped. *)
Definition _create_audit_bundle (audit : AuditEvent.t) (hashes : PyDict.t string) : M unit :=
  io rt ;;
  utcnow rt ;;
  utcnow rt ;;
  ret tt.

Definition execute (mandate : MandateDSL.t) (universe : Universe.t)
    (candidates : PyDict.t PortfolioCandidate.t) (decision : Decision.t) (memo : ICMemo.t)
  : M AuditEvent.t :=
  emit_progress rt self "Collecting artifact hashes..." ;;
  let artifact_hashes := collect_hashes mandate universe candidates decision memo in
  emit_progress rt self "Creating audit bundle..." ;;
  let decision_chain := decision_chain mandate universe candidates decision memo in
  u <- uuid4_hex8 rt ;;
  wfs <- get_wf ;;
  let run_id := ICWorkflowState.run_id wfs in
  envelope <- new_envelope rt self ("audit-" ++ u) "audit_event"
                (PyDict.values artifact_hashes) RESTRICTED (PyDict.keys artifact_hashes) ;;
  event_timestamp <- utcnow rt ;;
  let audit :=
    AuditEvent.mk envelope ("audit-final-" ++ run_id) "run_completion" event_timestamp
      "IC Autopilot" "finalize_audit" (Some run_id)
      [ ("artifact_hashes", Json.dict_of Json.Str artifact_hashes);
        ("decision_chain", Json.List decision_chain);
        ("selected_candidate", Json.Str (Decision.selected_candidate decision));
        ("total_artifacts", Json.Int (Z.of_nat (List.length artifact_hashes)));
        ("mandate_name", Json.Str (MandateDSL.mandate_name mandate));
        ("universe_size", Json.Int (Universe.total_fund_count universe)) ]
      "success" None in
  save_artifact rt self audit ;;
  _create_audit_bundle audit artifact_hashes ;;
  ret audit.

End WithRuntime.

End AuditFinalizeExecutor.

(* ================================================================== *)
(** * worker/workflow.py: [ICWorkflow] *)
(* ================================================================== *)

Module ICWorkflow.

Import ICWorkflowState.


Definition set_candidates (s : t) (c : PyDict.t PortfolioCandidate.t) : t :=
  mk (run_id s) (run s) (sequence s) (mandate s) (universe s) (features s) c
     (compliance_reports s) (redteam_reports s) (decision s) (memo s).

Definition set_compliance_reports (s : t) (r : PyDict.t ComplianceReport.t) : t :=
  mk (run_id s) (run s) (sequence s) (mandate s) (universe s) (features s) (candidates s)
     r (redteam_reports s) (decision s) (memo s).

Definition set_redteam_reports (s : t) (r : PyDict.t RedTeamReport.t) : t :=
  mk (run_id s) (run s) (sequence s) (mandate s) (universe s) (features s) (candidates s)
     (compliance_reports s) r (decision s) (memo s).

Definition set_decision (s : t) (d : Decision.t) : t :=
  mk (run_id s) (run s) (sequence s) (mandate s) (universe s) (features s) (candidates s)
     (compliance_reports s) (redteam_reports s) (Some d) (memo s).

(** Reading an attribute that is still [None] and using it. *)
Definition required {A} (name : string) (o : option A) : M A :=
  match o with
  | Some a => ret a
  | None => raise ("AttributeError: 'NoneType' object (self." ++ name ++ ")")
  end.

Section WithRuntime.
  Variable rt : Runtime.t.



Definition _generate_candidates : M (list PortfolioCandidate.t) :=
  self <- get_wf ;;
  mandate <- required "mandate" (mandate self) ;;
  universe <- required "universe" (universe self) ;;
  run <- required "run" (run self) ;;
  candidates <- GenerateCandidatesExecutor.execute rt mandate universe (features self)
                  (RunMetadata.seed run) ;;
  set_wf (fun s => set_candidates s (PyDict.of_list PortfolioCandidate.candidate_id candidates)) ;;
  for_each candidates (fun candidate =>
    emit rt CANDIDATE_CREATED
         ("Candidate " ++ PortfolioCandidate.candidate_id candidate ++ " created")
         None (Some (PortfolioCandidate.candidate_id candidate)) INFO
         [ ("expected_return", Json.Float (PortfolioCandidate.expected_return candidate));
           ("expected_volatility", Json.Float (PortfolioCandidate.expected_volatility candidate));
           ("positions", Json.Int (PortfolioCandidate.total_positions candidate)) ] None) ;;
  ret candidates.

(** One unit of the stage-5 fan-out. *)
Definition _verify_single_candidate (candidate_id : string) (candidate : PortfolioCandidate.t)
  : M unit :=
  (* Compliance check *)
  emit rt COMPLIANCE_CHECK ("Running compliance check for " ++ candidate_id)
       None (Some candidate_id) INFO [] None ;;
  self <- get_wf ;;
  mandate <- required "mandate" (mandate self) ;;
  compliance_report <- ComplianceCheckExecutor.execute rt candidate mandate ;;
  set_wf (fun s => set_compliance_reports s
                     (PyDict.set (compliance_reports s) candidate_id compliance_report)) ;;
  (if ComplianceReport.passed compliance_report then
     emit rt CANDIDATE_PASSED ("Candidate " ++ candidate_id ++ " passed compliance")
          None (Some candidate_id) INFO
          [("rules_passed", Json.Int (ComplianceReport.rules_passed compliance_report))] None
   else
     emit rt CANDIDATE_FAILED
          ("Candidate " ++ candidate_id ++ " failed compliance: "
             ++ PyStr.str_list (ComplianceReport.critical_failures compliance_report))
          None (Some candidate_id) WARN
          [("failures", Json.strs (ComplianceReport.critical_failures compliance_report))] None) ;;
  (* Red-team check *)
  emit rt REDTEAM_CHECK ("Running red-team scenarios for " ++ candidate_id)
       None (Some candidate_id) INFO [] None ;;
  self <- get_wf ;;
  run <- required "run" (run self) ;;
  redteam_report <- RedTeamExecutor.execute rt candidate (RunMetadata.seed run) ;;
  set_wf (fun s => set_redteam_reports s
                     (PyDict.set (redteam_reports s) candidate_id redteam_report)) ;;
  (if RedTeamReport.passed redteam_report then
     emit rt CANDIDATE_PASSED ("Candidate " ++ candidate_id ++ " passed red-team")
          None (Some candidate_id) INFO
          [("scenarios_tested", Json.Int (RedTeamReport.scenarios_tested redteam_report))] None
   else
     emit rt CANDIDATE_FAILED
          ("Candidate " ++ candidate_id ++ " failed red-team: "
             ++ PyStr.str_list (RedTeamReport.breaking_scenarios redteam_report))
          None (Some candidate_id) WARN
          [("breaking_scenarios", Json.strs (RedTeamReport.breaking_scenarios redteam_report))]
          None).

(** [(compliance and not compliance.passed) or (redteam and not redteam.passed)] *)
Definition needs_repair (compliance : option ComplianceReport.t)
    (redteam : option RedTeamReport.t) : bool :=
  match compliance with Some c => negb (ComplianceReport.passed c) | None => false end
  || match redteam with Some r => negb (RedTeamReport.passed r) | None => false end.

(** The body of [for candidate_id, candidate in self.candidates.items()]
    in [_repair_loop]. *)
Definition repair_one (item : string * PortfolioCandidate.t) : M unit :=
  let '(candidate_id, candidate) := item in
  self <- get_wf ;;
  let compliance := PyDict.get (compliance_reports self) candidate_id in
  let redteam := PyDict.get (redteam_reports self) candidate_id in
  if needs_repair compliance redteam then
    emit rt REPAIR_ITERATION ("Attempting repair for " ++ candidate_id)
         None (Some candidate_id) INFO [("attempt", Json.Int 1)] None ;;
    mandate <- required "mandate" (mandate self) ;;
    '(repaired_candidate, new_compliance, new_redteam) <-
      RepairLoopExecutor.execute rt candidate compliance redteam mandate 3 ;;
    (* Update artifacts *)
    match repaired_candidate with
    | Some repaired_candidate =>
        set_wf (fun s => set_candidates s
                           (PyDict.set (candidates s) candidate_id repaired_candidate)) ;;
        set_wf (fun s => set_compliance_reports s
                           (PyDict.set_opt (compliance_reports s) candidate_id new_compliance)) ;;
        set_wf (fun s => set_redteam_reports s
                           (PyDict.set_opt (redteam_reports s) candidate_id new_redteam)) ;;
        emit rt CANDIDATE_REPAIRED ("Candidate " ++ candidate_id ++ " repaired successfully")
             None (Some candidate_id) INFO [] None
    | None => ret tt
    end
  else ret tt.

Definition _repair_loop : M unit :=
  self <- get_wf ;;
  for_each (PyDict.items (candidates self)) repair_one.

Definition _rank_select : M Decision.t :=
  self <- get_wf ;;
  mandate <- required "mandate" (mandate self) ;;
  decision <- RankSelectExecutor.execute rt (candidates self) (compliance_reports self)
                (redteam_reports self) mandate ;;
  set_wf (fun s => set_decision s decision) ;;
  emit rt DECISION_MADE ("Selected candidate: " ++ Decision.selected_candidate decision)
       None None INFO
       [ ("winner", Json.Str (Decision.selected_candidate decision));
         ("scores", Json.dict_of Json.Float (Decision.candidate_scores decision)) ] None ;;
  ret decision.


End WithRuntime.

End ICWorkflow.

(* ================================================================== *)
(** * services/event_bus.py: [EventBus.subscribe] *)
(* ================================================================== *)

Module EventBus.

Definition HEARTBEAT_INTERVAL : Z := 15.






End EventBus.

(* ================================================================== *)
(** * A concrete runtime and concrete inputs *)
(* ================================================================== *)

(** The model is evaluated on these: a process in which no I/O call
    fails, uuids and timestamps follow a fixed sequence, and a small
    congruential generator stands in for the Mersenne Twister. *)
Module Fixture.

Definition lcg (st : Z) : Z := (st * 1103515245 + 12345) mod 2 ^ 31.

Definition rng : Random.t :=
  {| Random.state := Z;
     Random.seed := fun n => Z.abs n mod 2 ^ 31;
     Random.random := fun st => ((PyNum.of_Z (lcg st) / PyNum.of_Z (2 ^ 31))%float, lcg st);
     Random.randbelow := fun n st => ((lcg st / 65536) mod n, lcg st);
     Random.gauss := fun mu sigma st =>
       ((mu + sigma * (PyNum.of_Z (lcg st) / PyNum.of_Z (2 ^ 30) - 1))%float, lcg st) |}.

Definition uuid4 (n : nat) : Z :=
  ((Z.of_nat n + 1) * 0x9e3779b97f4a7c15f39cc0605cedc835) mod 2 ^ 128.

Definition utcnow (n : nat) : Datetime.t :=
  Datetime.mk 2024 1 15 10 ((Z.of_nat n / 60) mod 60) (Z.of_nat n mod 60) 250000.

Definition time (n : nat) : float := (1705312800 + PyNum.of_Z (Z.of_nat n) * 0.125)%float.

Definition str_hash (s : string) : Z :=
  fold_left (fun h c => (h * 31 + c) mod 2 ^ 61) (PyStr.bytes s) 7.

(** No call to Redis, the blob container or the run store fails. *)
Definition rt : Runtime.t :=
  Runtime.mk uuid4 utcnow time str_hash rng (fun _ => None).


Definition run_id : string := "run-test-12345678".

Definition w0 : World.t :=
  World.set_wf (World.init run_id)
    (ICWorkflowState.mk run_id (Some (RunMetadata.mk "unknown-mandate-xyz" 42)) 0
       None None [] [] [] [] None None).

(** The value a computation returns from a world, if it returns. *)
Definition result {A} (m : M A) (w : World.t) : option A :=
  match m w with (Ok a, _) => Some a | (Raised _, _) => None end.

Definition world_after {A} (m : M A) (w : World.t) : World.t := snd (m w).

Definition envelope (artifact_id artifact_type producer stage : string) : ArtifactBase.t :=
  ArtifactBase.mk artifact_id artifact_type 1 [] DERIVED false [] producer (utcnow 0) run_id stage.

(** A mandate as stage 1 builds it from a template. *)
Definition mandate_of (mandate_id : string) (t : LoadMandateExecutor.Template) : MandateDSL.t :=
  LoadMandateExecutor.instantiate
    (ArtifactBase.mk "mandate-9e3779b9" "mandate_dsl" 1 [] DERIVED false ["mandate_templates"]
       "LoadMandateExecutor" (utcnow 1) run_id "load_mandate")
    mandate_id t.

Definition mandate : MandateDSL.t :=
  mandate_of "balanced_growth" LoadMandateExecutor.balanced_growth.
Definition conservative : MandateDSL.t :=
  mandate_of "conservative_income" LoadMandateExecutor.conservative_income.

(** A candidate with the given id, position count, largest position,
    expected return, Sharpe ratio, equity and fixed-income allocation. *)
Definition candidate (cid : string) (positions : Z)
    (max_position expected_return sharpe equity fixed_income : float) : PortfolioCandidate.t :=
  PortfolioCandidate.mk
    (envelope ("candidate-" ++ cid ++ "-0badcafe") "portfolio_candidate"
              "GenerateCandidatesExecutor" "generate_candidates")
    cid "Balanced" 2042
    [ HoldingAllocation.mk "0001-24-000001" "Growth Fund A" max_position 0.01;
      HoldingAllocation.mk "0001-24-000002" "Income Fund B" 0.05 0.004;
      HoldingAllocation.mk "0001-24-000003" "Balanced Fund C" 0.04 0.003 ]
    positions expected_return 0.12 sharpe equity fixed_income 0 max_position 0.6 [] 120 300.

(** Candidate A holds four positions, one short of the diversification
    minimum, and is otherwise inside the conservative mandate;
    candidate B holds twelve, with a lower expected return and Sharpe
    ratio. *)
Definition thin : PortfolioCandidate.t := candidate "A" 4 0.05 0.09 0.9 0.10 0.50.
Definition broad : PortfolioCandidate.t := candidate "B" 12 0.05 0.05 0.5 0.10 0.50.

(** The reports stage 5 produces for a candidate under the
    conservative mandate. *)
Definition compliance_of (c : PortfolioCandidate.t) : option ComplianceReport.t :=
  result (ComplianceCheckExecutor.execute rt c conservative) w0.
Definition redteam_of (c : PortfolioCandidate.t) : option RedTeamReport.t :=
  result (RedTeamExecutor.execute rt c 42) w0.

Definition reports {R} (report_of : PortfolioCandidate.t -> option R)
    (cs : list PortfolioCandidate.t) : PyDict.t R :=
  flat_map (fun c => match report_of c with
                     | Some r => [(PortfolioCandidate.candidate_id c, r)]
                     | None => []
                     end) cs.

(** The workflow after stage 5 with the given candidates on the
    blackboard. *)
Definition verified (cs : list PortfolioCandidate.t) : World.t :=
  World.set_wf (World.init run_id)
    (ICWorkflowState.mk run_id (Some (RunMetadata.mk "conservative_income" 42)) 0
       (Some conservative) None [] (PyDict.of_list PortfolioCandidate.candidate_id cs)
       (reports compliance_of cs) (reports redteam_of cs) None None).


(** A universe of three funds with their features, as stages 2 and 3
    leave them. *)
Definition fund (n name manager asset_class : string) (equity fixed_income : float) : FundInfo.t :=
  FundInfo.mk ("0001234567-24-00000" ++ n) name ("S00000" ++ n) manager
    1000000000 950000000 asset_class 120 equity fixed_income 0.05 0.

Definition funds : list FundInfo.t :=
  [ fund "1" "Growth Fund A" "Alpha Advisors" "equity" 0.85 0.10;
    fund "2" "Income Fund B" "Beta Capital" "fixed_income" 0.10 0.85;
    fund "3" "Balanced Fund C" "Alpha Advisors" "balanced" 0.55 0.40 ].

Definition universe : Universe.t :=
  Universe.mk (envelope "universe-1badb002" "universe" "BuildUniverseExecutor" "build_universe")
    "Universe for Conservative Income Fund" [("min_equity", Json.Float 0.10)]
    funds 3 3000000000 [("equity", 1%float); ("fixed_income", 1%float); ("balanced", 1%float)]
    [("Alpha Advisors", 2); ("Beta Capital", 1)].

Definition features_of (f : FundInfo.t) (annualized volatility sharpe : float) : FundFeatures.t :=
  FundFeatures.mk
    (envelope ("features-" ++ FundInfo.series_id f) "fund_features" "ComputeFeaturesExecutor"
              "compute_features")
    (FundInfo.accession_number f) (FundInfo.series_name f)
    (Some 0.01%float) (Some 0.004%float) (Some (-0.002)%float) (Some annualized)
    (Some volatility) (Some sharpe) None None
    (FundInfo.equity_pct f) (FundInfo.fixed_income_pct f) (FundInfo.cash_pct f) 0
    0.35 0.12 None None None 0.8.

Definition features : list FundFeatures.t :=
  match funds with
  | [a; b; c] => [features_of a 0.11 0.18 0.55; features_of b 0.04 0.05 0.6; features_of c 0.07 0.10 0.6]
  | _ => []
  end.

(** The memo stage 9 leaves on the blackboard. *)
Definition memo : ICMemo.t :=
  ICMemo.mk (envelope "memo-5ca1ab1e" "ic_memo" "MemoWriterExecutor" "write_memo")
    (utcnow 0) "Investment Committee Memo" "IC Autopilot" "Summary" "APPROVE"
    "Mandate" "Context" "Overview" "Risk" "Compliance" "Plan" ["risk_appendix"].

(** A decision as stage 7 leaves it for the candidates A and B. *)
Definition decision : Decision.t :=
  Decision.mk (envelope "decision-0ddba11a" "decision" "RankSelectExecutor" "rank_select")
    "B" "Selected Candidate B with score 0.403. Expected return: 5.00%, Expected Sharpe: 0.50."
    [("A", 0%float); ("B", 0.4031%float)] RankSelectExecutor.weights []
    [("A", "Failed compliance: []")].

(** A run from stage 4 to stage 7 on these inputs, the three
    verification units taken in the order A, B, C; stage 9 then leaves
    the memo. *)
Definition staged : World.t :=
  World.set_wf (World.init run_id)
    (ICWorkflowState.mk run_id (Some (RunMetadata.mk "conservative_income" 42)) 0
       (Some conservative) (Some universe) features [] [] [] None None).

Definition stages_4_to_7 : M unit :=
  ICWorkflow._generate_candidates rt ;;
  self <- get_wf ;;
  for_each (PyDict.items (ICWorkflowState.candidates self))
           (fun item => ICWorkflow._verify_single_candidate rt (fst item) (snd item)) ;;
  ICWorkflow._repair_loop rt ;;
  ICWorkflow._rank_select rt ;;
  set_wf (fun s =>
    ICWorkflowState.mk (ICWorkflowState.run_id s) (ICWorkflowState.run s)
      (ICWorkflowState.sequence s) (ICWorkflowState.mandate s) (ICWorkflowState.universe s)
      (ICWorkflowState.features s) (ICWorkflowState.candidates s)
      (ICWorkflowState.compliance_reports s) (ICWorkflowState.redteam_reports s)
      (ICWorkflowState.decision s) (Some memo)).

Definition before_audit : World.t := world_after stages_4_to_7 staged.

End Fixture.

(* ================================================================== *)
(** * What the properties are stated with *)
(* ================================================================== *)

(** No call to Redis, the blob container or the run store raises. *)
Definition no_io_error (rt : Runtime.t) : Prop := forall n, Runtime.io_error rt n = None.

(** [n, n+1, ...], [len] of them. *)
Fixpoint zrange (n : Z) (len : nat) : list Z :=
  match len with
  | O => []
  | S k => n :: zrange (n + 1) k
  end.




Definition count_kind (k : EventKind) (evs : list WorkflowEvent.t) : nat :=
  List.length (filter (fun e => EventKind_eqb (WorkflowEvent.kind e) k) evs).

(** The saves of artifacts of one type among some uploads: each save
    writes the [latest.json] of its type once. *)
Definition is_save_of (artifact_type : string) (b : Blob.t) : bool :=
  String.eqb (Blob.artifact_type b) artifact_type && String.eqb (Blob.file b) "latest.json".

Definition saves_of (artifact_type : string) (bls : list Blob.t) : list Blob.t :=
  filter (is_save_of artifact_type) bls.

(** The [passed] field of a saved report. *)
Definition blob_passed (b : Blob.t) : bool :=
  match Blob.content b with
  | Json.Dict d =>
      match PyDict.get d "passed" with Some (Json.Bool true) => true | _ => false end
  | _ => false
  end.

(** What a call appended to the run's stream and to the container. *)
Definition new_events (w w' : World.t) : list WorkflowEvent.t :=
  skipn (List.length (World.stream w)) (World.stream w').
Definition new_blobs (w w' : World.t) : list Blob.t :=
  skipn (List.length (World.blobs w)) (World.blobs w').

(** Two workflow objects that differ at most in their sequence counter:
    the blackboard is the same. *)
Definition same_blackboard (s s' : ICWorkflowState.t) : Prop :=
  set_sequence s' (ICWorkflowState.sequence s) = s.

(** A call that returns or raises [o] from [w], leaves the world [w'],
    has appended the events [evs] and the blobs [bls], and has written
    nothing else of the workflow object than its sequence counter. *)
Record Step {A} (m : M A) (w : World.t) (o : outcome A) (w' : World.t)
    (evs : list WorkflowEvent.t) (bls : list Blob.t) : Prop := mkStep
  { step_run : m w = (o, w');
    step_stream : World.stream w' = (World.stream w ++ evs)%list;
    step_blobs : World.blobs w' = (World.blobs w ++ bls)%list;
    step_blackboard : same_blackboard (World.wf w) (World.wf w');
    step_sequence :
      ICWorkflowState.sequence (World.wf w')
      = ICWorkflowState.sequence (World.wf w) + Z.of_nat (List.length evs) }.

(** A candidate with the identifiers that are drawn outside the program
    blanked: its [artifact_id] and its [created_at]. *)
Definition epoch : Datetime.t := Datetime.mk 1970 1 1 0 0 0 0.



(* ================================================================== *)
(** * Runs, traces and invariants *)
(* ================================================================== *)

(** [m] returns from [w], and [Q] holds of what it returned, the world it
    left and what it appended. *)
Definition Runs {A} (m : M A) (w : World.t)
    (Q : A -> World.t -> list WorkflowEvent.t -> list Blob.t -> Prop) : Prop :=
  exists a w' evs bls, Step m w (Ok a) w' evs bls /\ Q a w' evs bls.

(** What one [save_artifact] uploads. *)
Definition saved_blobs {A} `{Artifact A} (a : A) : list Blob.t :=
  [ Blob.mk (ArtifactBase.run_id (base a)) (ArtifactBase.artifact_type (base a))
            (PyNum.str_int (ArtifactBase.version (base a)) ++ ".json") (model_dump_json a);
    Blob.mk (ArtifactBase.run_id (base a)) (ArtifactBase.artifact_type (base a))
            "latest.json" (model_dump_json a) ].

(** The events an executor emits by itself: progress updates and
    artifact saves. *)
Definition executor_event (e : WorkflowEvent.t) : Prop :=
  WorkflowEvent.kind e = PROGRESS_UPDATE \/ WorkflowEvent.kind e = ARTIFACT_PERSISTED.

(** The trace of one executor run that saves its one artifact [a] last. *)
Record Saved {A} `{Artifact A} (a : A) (artifact_type : string)
    (evs : list WorkflowEvent.t) (bls : list Blob.t) : Prop := mkSaved
  { saved_events : Forall executor_event evs;
    saved_last : option_map WorkflowEvent.kind (hd_error (rev evs)) = Some ARTIFACT_PERSISTED;
    saved_blobs_eq : bls = saved_blobs a;
    saved_type : ArtifactBase.artifact_type (base a) = artifact_type;
    saved_version : ArtifactBase.version (base a) = 1 }.

(** ** Sequence numbers *)









(** ** Selection *)

(** The candidate failed a check, as [_repair_loop] and the scoring loop
    both test it. *)
Definition failed_a_check (compliance_reports : PyDict.t ComplianceReport.t)
    (redteam_reports : PyDict.t RedTeamReport.t) (cid : string) : bool :=
  ICWorkflow.needs_repair (PyDict.get compliance_reports cid) (PyDict.get redteam_reports cid).

(** The scoring loop from an accumulator. *)
Definition tally_of (compliance_reports : PyDict.t ComplianceReport.t)
    (redteam_reports : PyDict.t RedTeamReport.t)
    (items : list (string * PortfolioCandidate.t)) (acc : RankSelectExecutor.Tally)
  : RankSelectExecutor.Tally :=
  fold_left (RankSelectExecutor.score_candidate compliance_reports redteam_reports) items acc.

(** [eligible_candidates] *)
Definition eligible_of (t : RankSelectExecutor.Tally) : list string :=
  filter (fun c => negb (PyDict.contains (RankSelectExecutor.rejected t) c))
         (PyDict.keys (RankSelectExecutor.candidate_scores t)).

(** ** The repair loop *)

(** One iteration of the repair loop: either [_apply_repair] produced
    no candidate and the loop went on, or it produced one, which was
    saved and checked again. *)
Inductive Iteration : Type :=
| Unproductive
| Rechecked (candidate : PortfolioCandidate.t) (compliance : ComplianceReport.t)
            (redteam : RedTeamReport.t).

Definition iteration_blobs (it : Iteration) : list Blob.t :=
  match it with
  | Unproductive => []
  | Rechecked c co re => (saved_blobs c ++ saved_blobs co ++ saved_blobs re)%list
  end.

Definition iteration_passed (it : Iteration) : bool :=
  match it with
  | Unproductive => false
  | Rechecked _ co re => ComplianceReport.passed co && RedTeamReport.passed re
  end.

Definition Triple : Type :=
  option PortfolioCandidate.t * option ComplianceReport.t * option RedTeamReport.t.

(** The candidate and reports of the last iteration that produced any,
    else those the loop started from. *)
Fixpoint kept (its : list Iteration) (current : Triple) : Triple :=
  match its with
  | [] => current
  | Unproductive :: r => kept r current
  | Rechecked c co re :: r => kept r (Some c, Some co, Some re)
  end.

(** The reports of an iteration are those of its candidate. *)
Definition rechecked (rt : Runtime.t) (mandate : MandateDSL.t) (it : Iteration) : Prop :=
  match it with
  | Unproductive => True
  | Rechecked c co re =>
      co = ComplianceCheckExecutor.report (ComplianceReport.envelope co) c
             (ComplianceCheckExecutor.rules c mandate
                (ComplianceCheckExecutor.esg_draw rt (PortfolioCandidate.candidate_id c))) /\
      ArtifactBase.parent_hashes (ComplianceReport.envelope co) = [artifact_hash c] /\
      RedTeamReport.candidate_id re = PortfolioCandidate.candidate_id c /\
      ArtifactBase.parent_hashes (RedTeamReport.envelope re) = [artifact_hash c]
  end.

(** What a run of the repair loop with the given budget did: the
    iterations [its] it went through, from [current] to [result], with
    the events and blobs it appended. *)
Record Repaired (rt : Runtime.t) (mandate : MandateDSL.t) (its : list Iteration) (budget : nat)
    (current result : Triple) (evs : list WorkflowEvent.t) (bls : list Blob.t) : Prop := mkRepaired
  { (** at most [budget] iterations, each announced by one event *)
    repaired_budget : (List.length its <= budget)%nat;
    repaired_events : count_kind REPAIR_ITERATION evs = List.length its;
    (** what was saved: per productive iteration the candidate, then its
        compliance report, then its red-team report *)
    repaired_blobs : bls = flat_map iteration_blobs its;
    repaired_checks : Forall (rechecked rt mandate) its;
    (** no iteration but the last passed both checks, and the loop ended
        before the budget only on one that did *)
    repaired_failed : Forall (fun it => iteration_passed it = false) (removelast its);
    repaired_early : (List.length its < budget)%nat -> iteration_passed (last its Unproductive) = true;
    repaired_result : result = kept its current }.

(** ** The candidate generator *)



(* ================================================================== *)
(** * Further definitions: what the later properties are stated with *)
(* ================================================================== *)

(** ** The red-team scenario loop *)

(** What the scenario loop adds to its accumulator: one result per
    scenario, in order; the identifiers of the results that did not pass;
    and a worst scenario that is one of the results, unless the one it
    started with was kept. *)
Record Scanned (scenarios : list RedTeamExecutor.Scenario) (acc acc' : RedTeamExecutor.Acc)
  : Prop := mkScanned
  { scanned_results :
      exists results,
        RedTeamExecutor.scenario_results acc' = (RedTeamExecutor.scenario_results acc ++ results)%list /\
        map ScenarioResult.scenario_id results = map RedTeamExecutor.id scenarios /\
        RedTeamExecutor.breaking_scenarios acc'
        = (RedTeamExecutor.breaking_scenarios acc
             ++ map ScenarioResult.scenario_id
                  (filter (fun s => negb (ScenarioResult.passed s)) results))%list /\
        (RedTeamExecutor.worst_scenario acc' = RedTeamExecutor.worst_scenario acc \/
         exists s, In s results /\ RedTeamExecutor.worst_scenario acc' = Some s) }.


(** ** Repairs *)

(** The issues [_apply_repair] acts on: a compliance failure in the
    category "concentration" or "allocation", and a red-team failure. *)
Definition repairable (issue : RepairLoopExecutor.Issue) : bool :=
  match issue with
  | RepairLoopExecutor.ComplianceIssue _ category _ _ =>
      String.eqb category "concentration" || String.eqb category "allocation"
  | RepairLoopExecutor.RedteamIssue _ _ => true
  end.

(** What a holding says of its fund, everything but the weight. *)
Definition funds_of (holdings : list HoldingAllocation.t) : list (string * string * float) :=
  map (fun h => (HoldingAllocation.fund_accession h, HoldingAllocation.fund_name h,
                 HoldingAllocation.expected_contribution h)) holdings.

(* ================================================================== *)
(** * Theorems *)
(* ================================================================== *)

#[local] Open Scope list_scope.

(* ------------------------------------------------------------------ *)
(** ** Runs of the primitives *)
(* ------------------------------------------------------------------ *)

Arguments Uuid.str : simpl never.
Arguments Uuid.hex : simpl never.
Arguments String.append : simpl never.
Arguments substring : simpl never.
Arguments artifact_hash : simpl never.
Arguments model_dump_json : simpl never.
Arguments PyNum.str_int : simpl never.
Arguments PyStr.str_list : simpl never.
Arguments PyStr.repr : simpl never.
Arguments Z.add : simpl never.
Arguments Z.eqb : simpl never.


Lemma filter_none {A} (p : A -> bool) l : Forall (fun x => p x = false) l -> filter p l = [].
Proof. induction 1 as [|x l Hx _ IH]; cbn; [reflexivity|]. now rewrite Hx, IH. Qed.

Lemma same_blackboard_refl s : same_blackboard s s.
Proof. destruct s; reflexivity. Qed.

Lemma same_blackboard_trans s1 s2 s3 :
  same_blackboard s1 s2 -> same_blackboard s2 s3 -> same_blackboard s1 s3.
Proof.
  unfold same_blackboard. destruct s1, s2, s3; cbn. intros H1 H2.
  inversion H1; inversion H2; subst. reflexivity.
Qed.

Lemma same_blackboard_set_sequence s n : same_blackboard s (set_sequence s n).
Proof. destruct s; reflexivity. Qed.

Lemma bind_ok {A B} (m : M A) (f : A -> M B) w a w1 :
  m w = (Ok a, w1) -> bind m f w = f a w1.
Proof. intros H. unfold bind. rewrite H. reflexivity. Qed.


Lemma step_ret {A} (a : A) w : Step (ret a) w (Ok a) w [] [].
Proof.
  constructor; cbn; rewrite ?app_nil_r; auto using same_blackboard_refl. lia.
Qed.

Lemma step_raise {A} (e : string) w : Step (@raise A e) w (Raised e) w [] [].
Proof.
  constructor; cbn; rewrite ?app_nil_r; auto using same_blackboard_refl. lia.
Qed.

Lemma step_bind {A B} (m : M A) (f : A -> M B) w a w1 e1 b1 o w2 e2 b2 :
  Step m w (Ok a) w1 e1 b1 -> Step (f a) w1 o w2 e2 b2 ->
  Step (bind m f) w o w2 (e1 ++ e2) (b1 ++ b2).
Proof.
  intros [R1 S1 B1 F1 Q1] [R2 S2 B2 F2 Q2]. constructor.
  - unfold bind. rewrite R1. exact R2.
  - rewrite S2, S1, app_assoc. reflexivity.
  - rewrite B2, B1, app_assoc. reflexivity.
  - eauto using same_blackboard_trans.
  - rewrite Q2, Q1, length_app. lia.
Qed.

Lemma step_bind' {A B} (m : M A) (f : A -> M B) w a w1 e1 b1 o w2 e2 b2 evs bls :
  Step m w (Ok a) w1 e1 b1 -> Step (f a) w1 o w2 e2 b2 ->
  evs = e1 ++ e2 -> bls = b1 ++ b2 ->
  Step (bind m f) w o w2 evs bls.
Proof. intros; subst; eauto using step_bind. Qed.

Lemma step_bind_raised {A B} (m : M A) (f : A -> M B) w e w1 e1 b1 :
  Step m w (Raised e) w1 e1 b1 -> Step (bind m f) w (Raised e) w1 e1 b1.
Proof.
  intros [R1 S1 B1 F1 Q1]. constructor; auto.
  unfold bind. rewrite R1. reflexivity.
Qed.


Lemma runs_ret {A} (a : A) w Q : Q a w [] [] -> Runs (ret a) w Q.
Proof. intros. exists a, w, [], []. split; [apply step_ret | assumption]. Qed.

Lemma runs_bind {A B} (m : M A) (f : A -> M B) w Q :
  Runs m w (fun a w1 e1 b1 => Runs (f a) w1 (fun b w2 e2 b2 => Q b w2 (e1 ++ e2) (b1 ++ b2))) ->
  Runs (bind m f) w Q.
Proof.
  intros (a & w1 & e1 & b1 & S1 & b & w2 & e2 & b2 & S2 & HQ).
  exists b, w2, (e1 ++ e2), (b1 ++ b2). split; [eapply step_bind; eassumption | assumption].
Qed.

Lemma runs_conseq {A} (m : M A) w (Q Q' : A -> World.t -> list WorkflowEvent.t -> list Blob.t -> Prop) :
  Runs m w Q -> (forall a w' evs bls, Step m w (Ok a) w' evs bls -> Q a w' evs bls -> Q' a w' evs bls) ->
  Runs m w Q'.
Proof. intros (a & w' & evs & bls & S & HQ) H. exists a, w', evs, bls. auto. Qed.

Lemma runs_get_wf w Q : Q (World.wf w) w [] [] -> Runs get_wf w Q.
Proof.
  intros. exists (World.wf w), w, [], []. split; [|assumption].
  constructor; [reflexivity | cbn; rewrite ?app_nil_r; auto using same_blackboard_refl ..].
  cbn. lia.
Qed.

Section NoIoError.
  Variable rt : Runtime.t.
  Hypothesis Hio : no_io_error rt.

Lemma step_uuid4 w : exists w', Step (uuid4 rt) w (Ok (Runtime.uuid4 rt (World.uuid_draws w))) w' [] [].
Proof.
  eexists. constructor; [reflexivity | cbn; rewrite ?app_nil_r; auto using same_blackboard_refl ..].
  cbn. lia.
Qed.

Lemma emit_run w k msg sid cid lvl pl dur :
  exists e w',
    emit rt k msg sid cid lvl pl dur w = (Ok tt, w') /\
    World.stream w' = World.stream w ++ [e] /\
    World.blobs w' = World.blobs w /\
    World.wf w' = set_sequence (World.wf w) (ICWorkflowState.sequence (World.wf w) + 1) /\
    WorkflowEvent.kind e = k /\ WorkflowEvent.candidate_id e = cid /\
    (0 <= ICWorkflowState.sequence (World.wf w) ->
     WorkflowEvent.sequence e = ICWorkflowState.sequence (World.wf w) + 1).
Proof.
  unfold emit, bind, set_wf, modify, get_wf, new_event, uuid4, utcnow, publish, ret, xadd, io,
    _get_next_sequence. cbn.
  destruct (World.wf w) as [rid run sq ma un fe ca co re de me]; cbn.
  destruct (sq + 1 =? 0) eqn:E; cbn; unfold bind, modify; cbn; rewrite Hio; cbn.
  - do 2 eexists. split; [reflexivity|]. cbn. repeat split. intros. apply Z.eqb_eq in E. lia.
  - do 2 eexists. split; [reflexivity|]. cbn. repeat split.
Qed.

Lemma step_emit w k msg sid cid lvl pl dur :
  exists e w',
    Step (emit rt k msg sid cid lvl pl dur) w (Ok tt) w' [e] [] /\
    WorkflowEvent.kind e = k /\ WorkflowEvent.candidate_id e = cid /\
    (0 <= ICWorkflowState.sequence (World.wf w) ->
     WorkflowEvent.sequence e = ICWorkflowState.sequence (World.wf w) + 1).
Proof.
  destruct (emit_run w k msg sid cid lvl pl dur) as (e & w' & R & S & B & F & K & C & Q).
  exists e, w'. split; [|auto].
  constructor; auto.
  - rewrite B, app_nil_r. reflexivity.
  - rewrite F. apply same_blackboard_set_sequence.
  - rewrite F. destruct (World.wf w); cbn. lia.
Qed.

Lemma runs_emit w k msg sid cid lvl pl dur Q :
  (forall e w',
      Step (emit rt k msg sid cid lvl pl dur) w (Ok tt) w' [e] [] ->
      WorkflowEvent.kind e = k -> WorkflowEvent.candidate_id e = cid ->
      Q tt w' [e] []) ->
  Runs (emit rt k msg sid cid lvl pl dur) w Q.
Proof.
  intros H. destruct (step_emit w k msg sid cid lvl pl dur) as (e & w' & S & K & C & _).
  exists tt, w', [e], []. auto.
Qed.

Lemma runs_emit_progress self msg w Q :
  (forall e w',
      Step (emit_progress rt self msg) w (Ok tt) w' [e] [] ->
      WorkflowEvent.kind e = PROGRESS_UPDATE -> Q tt w' [e] []) ->
  Runs (emit_progress rt self msg) w Q.
Proof. intros H. unfold emit_progress. apply runs_emit. intros; eauto. Qed.

Lemma runs_uuid4_hex8 w Q :
  (forall u w', Step (uuid4_hex8 rt) w (Ok u) w' [] [] -> Q u w' [] []) ->
  Runs (uuid4_hex8 rt) w Q.
Proof.
  intros H. do 4 eexists. split; [|apply H].
  all: constructor; [reflexivity | cbn; rewrite ?app_nil_r; auto using same_blackboard_refl ..];
    cbn; lia.
Qed.

Lemma runs_utcnow w Q :
  (forall d w', Step (utcnow rt) w (Ok d) w' [] [] -> Q d w' [] []) ->
  Runs (utcnow rt) w Q.
Proof.
  intros H. do 4 eexists. split; [|apply H].
  all: constructor; [reflexivity | cbn; rewrite ?app_nil_r; auto using same_blackboard_refl ..];
    cbn; lia.
Qed.

Lemma runs_io w Q :
  (forall w', Step (io rt) w (Ok tt) w' [] [] -> Q tt w' [] []) -> Runs (io rt) w Q.
Proof.
  intros H.
  assert (exists w', Step (io rt) w (Ok tt) w' [] []) as (w' & S).
  { eexists.
    constructor; [unfold io; rewrite Hio; reflexivity
                 | cbn; rewrite ?app_nil_r; auto using same_blackboard_refl ..].
    cbn. lia. }
  exists tt, w', [], []. auto.
Qed.

Lemma runs_new_envelope self id ty ph cl src w Q :
  (forall now w',
      Step (new_envelope rt self id ty ph cl src) w
           (Ok (ArtifactBase.mk id ty 1 ph cl false src (executor_name self) now
                  (ICWorkflowState.run_id (World.wf w)) (stage_id self))) w' [] [] ->
      Q (ArtifactBase.mk id ty 1 ph cl false src (executor_name self) now
           (ICWorkflowState.run_id (World.wf w)) (stage_id self)) w' [] []) ->
  Runs (new_envelope rt self id ty ph cl src) w Q.
Proof.
  intros H. do 4 eexists. split; [|apply H].
  all: constructor; [reflexivity | cbn; rewrite ?app_nil_r; auto using same_blackboard_refl ..];
    cbn; lia.
Qed.


Lemma step_upload_blob w b : exists w', Step (upload_blob rt b) w (Ok tt) w' [] [b].
Proof.
  eexists.
  constructor; [unfold upload_blob, bind, io, modify; rewrite Hio; reflexivity
               | cbn; rewrite ?app_nil_r; auto using same_blackboard_refl ..].
  cbn. lia.
Qed.

Lemma step_store_save {A} `{Artifact A} (a : A) w :
  exists p w', Step (store_save rt a) w (Ok p) w' [] (saved_blobs a).
Proof.
  unfold store_save.
  edestruct (step_upload_blob w) as (w1 & S1).
  edestruct (step_upload_blob w1) as (w2 & S2).
  do 2 eexists.
  eapply step_bind'; [exact S1| |reflexivity|reflexivity].
  eapply step_bind'; [exact S2|apply step_ret|reflexivity|reflexivity].
Qed.

Lemma runs_save_artifact {A} `{Artifact A} self (a : A) w Q :
    (forall p e w',
        Step (save_artifact rt self a) w (Ok p) w' [e] (saved_blobs a) ->
        WorkflowEvent.kind e = ARTIFACT_PERSISTED -> Q p w' [e] (saved_blobs a)) ->
    Runs (save_artifact rt self a) w Q.
  Proof.
    intros HQ. unfold save_artifact.
    destruct (step_store_save a w) as (p & w1 & S1).
    edestruct (step_emit w1) as (e & w2 & S2 & K & _ & _).
    exists p, w2, [e], (saved_blobs a). split; [|apply HQ; [|exact K]].
    all: eapply step_bind'; [exact S1| |reflexivity|symmetry; apply app_nil_r];
      eapply step_bind'; [exact S2|apply step_ret|reflexivity|reflexivity].
  Qed.
End NoIoError.

(* ------------------------------------------------------------------ *)
(** ** Sequence numbers: closure under the monad *)
(* ------------------------------------------------------------------ *)


Section Closure.
  Variable rt : Runtime.t.
  Variable K : EventKind -> Prop.


















End Closure.

(* ------------------------------------------------------------------ *)
(** ** Sequence numbers: the executors *)
(* ------------------------------------------------------------------ *)



Section Executors.
  Variable rt : Runtime.t.
  Variable K : EventKind -> Prop.
  Hypothesis Kprogress : K PROGRESS_UPDATE.
  Hypothesis Kpersisted : K ARTIFACT_PERSISTED.










Hypothesis Kiteration : K REPAIR_ITERATION.




End Executors.

(* ------------------------------------------------------------------ *)
(** ** Sequence numbers: the workflow and its subscribers (C3) *)
(* ------------------------------------------------------------------ *)


Section Workflow.
  Variable rt : Runtime.t.




End Workflow.

(** ** The subscriber *)








Lemma zrange_length n len : List.length (zrange n len) = len.
Proof. revert n. induction len; intros; cbn; auto. Qed.



Lemma fixture_no_io_error : no_io_error Fixture.rt.
Proof. intros n. reflexivity. Qed.




(* ------------------------------------------------------------------ *)
(** ** Mandate fallback (C8), artifact hash (C2), audit (C1) *)
(* ------------------------------------------------------------------ *)

(** ** The mandate loader *)

Section LoadMandate.
  Variable rt : Runtime.t.
  Hypothesis Hio : no_io_error rt.

Lemma runs_load_mandate_fallback mandate_id w Q :
    PyDict.contains LoadMandateExecutor.MANDATE_TEMPLATES mandate_id = false ->
    (forall envelope w' evs bls,
        Q (LoadMandateExecutor.instantiate envelope "balanced_growth"
             LoadMandateExecutor.balanced_growth) w' evs bls) ->
    Runs (LoadMandateExecutor.execute rt mandate_id) w Q.
  Proof.
    intros Hc HQ. unfold LoadMandateExecutor.execute. rewrite Hc.
    apply runs_bind, runs_emit_progress; auto. intros e1 w1 _ _.
    apply runs_bind. cbn [PyDict.get LoadMandateExecutor.MANDATE_TEMPLATES String.eqb Ascii.eqb Bool.eqb].
    apply runs_ret.
    apply runs_bind, runs_uuid4_hex8; auto. intros u w2 _.
    apply runs_bind, runs_new_envelope; auto. intros now w3 _.
    apply runs_bind, runs_save_artifact; auto. intros p e2 w4 _ _.
    apply runs_ret. apply HQ.
  Qed.
End LoadMandate.

(** C8 (what the code does).  For a mandate identifier that is not in
    the template registry, and when no I/O call fails, the loader returns
    a mandate that is the default archetype [balanced_growth] in every
    field, its [mandate_id] included: the identifier the caller supplied
    is replaced by ["balanced_growth"]. *)
Theorem C8_unknown_mandate_id_is_replaced
    (rt : Runtime.t) (w : World.t) (mandate_id : string) :
  no_io_error rt ->
  PyDict.contains LoadMandateExecutor.MANDATE_TEMPLATES mandate_id = false ->
  exists m w',
    LoadMandateExecutor.execute rt mandate_id w = (Ok m, w') /\
    m = LoadMandateExecutor.instantiate (MandateDSL.envelope m) "balanced_growth"
          LoadMandateExecutor.balanced_growth /\
    MandateDSL.mandate_id m = "balanced_growth" /\
    MandateDSL.mandate_id m <> mandate_id.
Proof.
  intros Hio Hc.
  destruct (runs_load_mandate_fallback rt Hio mandate_id w
              (fun m _ _ _ =>
                 m = LoadMandateExecutor.instantiate (MandateDSL.envelope m) "balanced_growth"
                       LoadMandateExecutor.balanced_growth) Hc)
    as (m & w' & evs & bls & S & Hm).
  { intros. reflexivity. }
  exists m, w'. split; [apply S|]. split; [exact Hm|]. rewrite Hm. cbn. split; [reflexivity|].
  intros <-. discriminate Hc.
Qed.

Lemma C8_unknown_mandate_id_is_replaced_witness :
  exists m w',
    LoadMandateExecutor.execute Fixture.rt "unknown-mandate-xyz" Fixture.w0 = (Ok m, w') /\
    m = LoadMandateExecutor.instantiate (MandateDSL.envelope m) "balanced_growth"
          LoadMandateExecutor.balanced_growth /\
    MandateDSL.mandate_id m = "balanced_growth" /\
    MandateDSL.mandate_id m <> "unknown-mandate-xyz".
Proof.
  apply (C8_unknown_mandate_id_is_replaced Fixture.rt Fixture.w0 "unknown-mandate-xyz").
  - intros n. reflexivity.
  - reflexivity.
Defined.

(** ** The artifact hash *)

Lemma exclude_app excluded (d1 d2 : list (string * Json.value)) :
  Json.exclude excluded (d1 ++ d2) = Json.exclude excluded d1 ++ Json.exclude excluded d2.
Proof. apply filter_app. Qed.

Lemma exclude_not_in excluded (d : list (string * Json.value)) k :
  In k excluded -> ~ In k (map fst (Json.exclude excluded d)).
Proof.
  intros Hk Hin. apply in_map_iff in Hin. destruct Hin as ([k' v] & <- & Hin).
  apply filter_In in Hin. destruct Hin as [_ Hf]. cbn in Hf.
  apply negb_true_iff in Hf.
  assert (existsb (String.eqb k') excluded = true); [|congruence].
  apply existsb_exists. exists k'. split; [exact Hk | apply String.eqb_refl].
Qed.

(** C2 (as the code has it).  The hash is the first 16 hex digits of the
    SHA-256 of the key-sorted JSON of every field except [artifact_hash]
    and [created_at]; the uuid-based [artifact_id] is among the hashed
    fields.  Two artifacts that differ at most in [created_at] have the
    same hash. *)
Theorem C2_hash_covers_all_but_hash_and_timestamp
    {A : Type} `{Artifact A} (a b : A) :
  own_fields a = own_fields b ->
  ArtifactBase.set_created_at (base a) epoch = ArtifactBase.set_created_at (base b) epoch ->
  artifact_hash a
  = substring 0 16 (SHA256.hexdigest (Json.dumps (Json.Dict (hashed_fields a)))) /\
  hashed_fields a = hashed_fields b /\
  artifact_hash a = artifact_hash b /\
  In ("artifact_id", Json.Str (ArtifactBase.artifact_id (base a))) (hashed_fields a) /\
  ~ In "created_at" (map fst (hashed_fields a)) /\
  ~ In "artifact_hash" (map fst (hashed_fields a)).
Proof.
  intros Hown Hbase.
  assert (Hf : hashed_fields a = hashed_fields b).
  { unfold hashed_fields, model_dump. rewrite !exclude_app, Hown. f_equal.
    destruct (base a), (base b). cbn in Hbase. inversion Hbase; subst. reflexivity. }
  split; [reflexivity|]. split; [exact Hf|]. split.
  - unfold artifact_hash, hash_content. rewrite Hf. reflexivity.
  - split; [|split].
    + unfold hashed_fields, model_dump. rewrite exclude_app. apply in_or_app. left.
      cbn. left. reflexivity.
    + apply exclude_not_in. cbn. auto.
    + apply exclude_not_in. cbn. auto.
Qed.

Lemma C2_hash_covers_all_but_hash_and_timestamp_witness :
  let a := Fixture.mandate in
  let b := LoadMandateExecutor.instantiate
             (ArtifactBase.set_created_at (MandateDSL.envelope Fixture.mandate)
                                          (Datetime.mk 2031 7 4 9 30 0 0))
             "balanced_growth" LoadMandateExecutor.balanced_growth in
  artifact_hash a
  = substring 0 16 (SHA256.hexdigest (Json.dumps (Json.Dict (hashed_fields a)))) /\
  hashed_fields a = hashed_fields b /\
  artifact_hash a = artifact_hash b /\
  In ("artifact_id", Json.Str (ArtifactBase.artifact_id (base a))) (hashed_fields a) /\
  ~ In "created_at" (map fst (hashed_fields a)) /\
  ~ In "artifact_hash" (map fst (hashed_fields a)).
Proof.
  intros a b. apply (C2_hash_covers_all_but_hash_and_timestamp a b).
  - reflexivity.
  - reflexivity.
Defined.

(** C2 as stated fails: two mandates that differ in nothing but their
    uuid-based [artifact_id] have different hashes. *)
Lemma C2_artifact_id_changes_the_hash :
  let a := Fixture.mandate in
  let b := LoadMandateExecutor.instantiate
             (ArtifactBase.set_artifact_id (MandateDSL.envelope Fixture.mandate) "mandate-0badf00d")
             "balanced_growth" LoadMandateExecutor.balanced_growth in
  own_fields a = own_fields b /\
  ArtifactBase.set_artifact_id (base a) "" = ArtifactBase.set_artifact_id (base b) "" /\
  artifact_hash a = "ac4db53bc27158ef" /\
  artifact_hash b <> artifact_hash a.
Proof.
  cbv zeta. split; [reflexivity|]. split; [reflexivity|]. split; [vm_compute; reflexivity|].
  vm_compute. discriminate.
Qed.

(** ** The audit finalizer *)

Lemma set_values_in {V} (d : PyDict.t V) k v x :
  In x (PyDict.values (PyDict.set d k v)) -> x = v \/ In x (PyDict.values d).
Proof.
  induction d as [|[k' v'] d IH]; cbn.
  - intros [H|[]]; auto.
  - destruct (String.eqb k k'); cbn; intros [H|H]; auto.
    destruct (IH H); auto.
Qed.

Lemma collect_hashes_values mandate universe candidates decision memo h :
  In h (PyDict.values
          (AuditFinalizeExecutor.collect_hashes mandate universe candidates decision memo)) ->
  h = artifact_hash mandate \/ h = artifact_hash universe \/ h = artifact_hash decision \/
  h = artifact_hash memo \/
  exists c, In c (PyDict.values candidates) /\ h = artifact_hash c.
Proof.
  unfold AuditFinalizeExecutor.collect_hashes, PyDict.items.
  set (init := [("mandate", artifact_hash mandate); ("universe", artifact_hash universe);
                ("decision", artifact_hash decision); ("memo", artifact_hash memo)]).
  assert (Hgen : forall (items : list (string * PortfolioCandidate.t)) (acc : PyDict.t string),
             In h (PyDict.values
                     (fold_left (fun hashes item =>
                                   PyDict.set hashes ("candidate_" ++ fst item)%string
                                              (artifact_hash (snd item))) items acc)) ->
             In h (PyDict.values acc) \/
             exists c, In c (PyDict.values items) /\ h = artifact_hash c).
  { induction items as [|item items IH]; intros acc Hin; cbn in *; [auto|].
    destruct (IH _ Hin) as [Hacc|(c & Hc & ->)].
    - apply set_values_in in Hacc. destruct Hacc as [->|Hacc]; [|auto].
      right. exists (snd item). auto.
    - right. exists c. auto. }
  intros Hin. destruct (Hgen _ _ Hin) as [Hinit|Hc].
  - cbn in Hinit. intuition.
  - intuition.
Qed.

Section Audit.
  Variable rt : Runtime.t.
  Hypothesis Hio : no_io_error rt.

Lemma runs_audit mandate universe candidates decision memo w Q :
    (forall audit w' evs bls,
        ArtifactBase.parent_hashes (AuditEvent.envelope audit)
        = PyDict.values
            (AuditFinalizeExecutor.collect_hashes mandate universe candidates decision memo) ->
        PyDict.get (AuditEvent.details audit) "artifact_hashes"
        = Some (Json.dict_of Json.Str
                  (AuditFinalizeExecutor.collect_hashes mandate universe candidates decision memo)) ->
        Q audit w' evs bls) ->
    Runs (AuditFinalizeExecutor.execute rt mandate universe candidates decision memo) w Q.
  Proof.
    intros HQ. unfold AuditFinalizeExecutor.execute, AuditFinalizeExecutor._create_audit_bundle.
    apply runs_bind, runs_emit_progress; auto. intros e1 w1 _ _.
    apply runs_bind, runs_emit_progress; auto. intros e2 w2 _ _.
    apply runs_bind, runs_uuid4_hex8; auto. intros u w3 _.
    apply runs_bind, runs_get_wf.
    apply runs_bind, runs_new_envelope; auto. intros now w4 _.
    apply runs_bind, runs_utcnow; auto. intros ts w5 _.
    apply runs_bind, runs_save_artifact; auto. intros p e3 w6 _ _.
    apply runs_bind. apply runs_bind, runs_io; auto. intros w7 _.
    apply runs_bind, runs_utcnow; auto. intros t1 w8 _.
    apply runs_bind, runs_utcnow; auto. intros t2 w9 _.
    apply runs_ret. apply runs_ret. apply HQ; reflexivity.
  Qed.
End Audit.

(** C1 (what the code does).  When no I/O call fails, the audit
    finalizer returns an audit event whose collected hashes are those of
    the mandate, the universe, the decision, the memo and the candidates
    on the blackboard, and no others: the fund features, the compliance
    and red-team reports, the rebalance plan and the risk appendix are not
    collected. *)
Theorem C1_audit_collects_mandate_universe_decision_memo_candidates
    (rt : Runtime.t) (w : World.t) (mandate : MandateDSL.t) (universe : Universe.t)
    (candidates : PyDict.t PortfolioCandidate.t) (decision : Decision.t) (memo : ICMemo.t) :
  no_io_error rt ->
  exists audit w',
    AuditFinalizeExecutor.execute rt mandate universe candidates decision memo w = (Ok audit, w') /\
    ArtifactBase.parent_hashes (AuditEvent.envelope audit)
    = PyDict.values (AuditFinalizeExecutor.collect_hashes mandate universe candidates decision memo) /\
    PyDict.get (AuditEvent.details audit) "artifact_hashes"
    = Some (Json.dict_of Json.Str
              (AuditFinalizeExecutor.collect_hashes mandate universe candidates decision memo)) /\
    forall h, In h (ArtifactBase.parent_hashes (AuditEvent.envelope audit)) ->
      h = artifact_hash mandate \/ h = artifact_hash universe \/ h = artifact_hash decision \/
      h = artifact_hash memo \/
      exists c, In c (PyDict.values candidates) /\ h = artifact_hash c.
Proof.
  intros Hio.
  destruct (runs_audit rt Hio mandate universe candidates decision memo w
              (fun audit _ _ _ =>
                 ArtifactBase.parent_hashes (AuditEvent.envelope audit)
                 = PyDict.values
                     (AuditFinalizeExecutor.collect_hashes mandate universe candidates decision memo) /\
                 PyDict.get (AuditEvent.details audit) "artifact_hashes"
                 = Some (Json.dict_of Json.Str
                           (AuditFinalizeExecutor.collect_hashes mandate universe candidates
                              decision memo))))
    as (audit & w' & evs & bls & S & Hp & Hd).
  { intros. split; assumption. }
  exists audit, w'. split; [apply S|]. split; [exact Hp|]. split; [exact Hd|].
  intros h Hh. rewrite Hp in Hh. apply collect_hashes_values. exact Hh.
Qed.

(** On a workflow that holds the candidates A and B and their four
    reports, the audit event references none of the report hashes. *)
Lemma C1_audit_collects_mandate_universe_decision_memo_candidates_witness :
  let w := Fixture.verified [Fixture.thin; Fixture.broad] in
  let candidates := ICWorkflowState.candidates (World.wf w) in
  let referenced audit h :=
    existsb (String.eqb h) (ArtifactBase.parent_hashes (AuditEvent.envelope audit)) in
  exists audit w',
    AuditFinalizeExecutor.execute Fixture.rt Fixture.conservative Fixture.universe candidates
      Fixture.decision Fixture.memo w = (Ok audit, w') /\
    (forall h, In h (ArtifactBase.parent_hashes (AuditEvent.envelope audit)) ->
       h = artifact_hash Fixture.conservative \/ h = artifact_hash Fixture.universe \/
       h = artifact_hash Fixture.decision \/ h = artifact_hash Fixture.memo \/
       exists c, In c (PyDict.values candidates) /\ h = artifact_hash c) /\
    List.length (ArtifactBase.parent_hashes (AuditEvent.envelope audit)) = 6%nat /\
    map (fun r => referenced audit (artifact_hash r))
        (PyDict.values (ICWorkflowState.compliance_reports (World.wf w))) = [false; false] /\
    map (fun r => referenced audit (artifact_hash r))
        (PyDict.values (ICWorkflowState.redteam_reports (World.wf w))) = [false; false].
Proof.
  intros w candidates referenced.
  destruct (C1_audit_collects_mandate_universe_decision_memo_candidates
              Fixture.rt w Fixture.conservative Fixture.universe candidates
              Fixture.decision Fixture.memo)
    as (audit & w' & R & P & _ & H).
  - intros n. reflexivity.
  - exists audit, w'. split; [exact R|]. split; [exact H|]. unfold referenced. rewrite P.
    split; [|split]; vm_compute; reflexivity.
Defined.

(* ------------------------------------------------------------------ *)
(** ** Rank and select (C5, C7) *)
(* ------------------------------------------------------------------ *)

(** ** Dictionaries *)

Lemma get_set {V} (d : PyDict.t V) k v k' :
  PyDict.get (PyDict.set d k v) k' = if String.eqb k' k then Some v else PyDict.get d k'.
Proof.
  induction d as [|[k0 v0] d IH]; cbn.
  - destruct (String.eqb k' k); reflexivity.
  - destruct (String.eqb_spec k k0) as [->|Hk]; cbn.
    + destruct (String.eqb k' k0); reflexivity.
    + rewrite IH. destruct (String.eqb_spec k' k0) as [->|Hk'].
      * destruct (String.eqb_spec k0 k); [congruence | reflexivity].
      * reflexivity.
Qed.

Lemma contains_set {V} (d : PyDict.t V) k v k' :
  PyDict.contains (PyDict.set d k v) k' = String.eqb k' k || PyDict.contains d k'.
Proof. unfold PyDict.contains. rewrite get_set. destruct (String.eqb k' k); reflexivity. Qed.

Lemma keys_set_in {V} (d : PyDict.t V) k v x :
  In x (PyDict.keys (PyDict.set d k v)) <-> x = k \/ In x (PyDict.keys d).
Proof.
  induction d as [|[k0 v0] d IH]; cbn.
  - intuition.
  - destruct (String.eqb_spec k k0) as [->|Hk]; cbn; intuition.
Qed.

Lemma get_in_keys {V} (d : PyDict.t V) k :
  In k (PyDict.keys d) -> exists v, PyDict.get d k = Some v.
Proof.
  induction d as [|[k0 v0] d IH]; cbn; [intros []|].
  intros [->|H].
  - rewrite String.eqb_refl. eauto.
  - destruct (String.eqb k k0); eauto.
Qed.

Lemma keys_items_in {V} (d : PyDict.t V) k v : In (k, v) (PyDict.items d) -> In k (PyDict.keys d).
Proof. intros H. apply in_map_iff. exists (k, v). auto. Qed.

(** ** The scoring loop *)

Section Selection.

Import RankSelectExecutor.

Arguments score_candidate : simpl never.

Section Scoring.
  Variable compliance_reports : PyDict.t ComplianceReport.t.
  Variable redteam_reports : PyDict.t RedTeamReport.t.


(** What one step writes: the score of its candidate, and a rejection
    exactly when the candidate failed a check. *)
Lemma score_candidate_step t cid c :
  exists score details,
    candidate_scores (score_candidate compliance_reports redteam_reports t (cid, c))
    = PyDict.set (candidate_scores t) cid score /\
    (if failed_a_check compliance_reports redteam_reports cid then
       score = 0%float /\
       candidate_details (score_candidate compliance_reports redteam_reports t (cid, c))
       = candidate_details t /\
       exists reason,
         rejected (score_candidate compliance_reports redteam_reports t (cid, c))
         = PyDict.set (rejected t) cid reason
     else
       candidate_details (score_candidate compliance_reports redteam_reports t (cid, c))
       = PyDict.set (candidate_details t) cid details /\
       rejected (score_candidate compliance_reports redteam_reports t (cid, c)) = rejected t).
Proof.
  unfold failed_a_check, ICWorkflow.needs_repair, score_candidate.
  destruct (PyDict.get compliance_reports cid) as [co|];
    destruct (PyDict.get redteam_reports cid) as [re|]; cbn [negb orb];
    try destruct (ComplianceReport.passed co); try destruct (RedTeamReport.passed re);
    cbn [negb orb]; try destruct (component_scores c _) as [[risk r] sh]; cbn.
  all: do 2 eexists.
  all: try (split; [reflexivity|]; repeat split; eauto).
  all: exact [].
Qed.

(** The scores cover the candidates. *)
Lemma tally_keys items acc k :
  In k (PyDict.keys (candidate_scores (tally_of compliance_reports redteam_reports items acc))) <->
  In k (PyDict.keys (candidate_scores acc)) \/ In k (PyDict.keys items).
Proof.
  revert acc. induction items as [|[cid c] items IH]; intros acc; cbn.
  - intuition.
  - unfold tally_of in IH. rewrite IH.
    destruct (score_candidate_step acc cid c) as (s & d & -> & _).
    rewrite keys_set_in. intuition.
Qed.

(** Only candidates that failed a check are rejected. *)
Lemma tally_rejected_failed items acc :
  (forall k, PyDict.contains (rejected acc) k = true -> failed_a_check compliance_reports redteam_reports k = true) ->
  forall k, PyDict.contains (rejected (tally_of compliance_reports redteam_reports items acc)) k = true -> failed_a_check compliance_reports redteam_reports k = true.
Proof.
  revert acc. induction items as [|[cid c] items IH]; intros acc Hacc k; cbn; [apply Hacc|].
  apply IH. intros k'.
  destruct (score_candidate_step acc cid c) as (s & d & _ & H).
  destruct (failed_a_check compliance_reports redteam_reports cid) eqn:Hf.
  - destruct H as (_ & _ & reason & ->). rewrite contains_set.
    destruct (String.eqb_spec k' cid) as [->|]; cbn; auto.
  - destruct H as (_ & ->). apply Hacc.
Qed.

(** A candidate that failed a check is rejected with score 0. *)
Lemma tally_failed_rejected items acc k :
  failed_a_check compliance_reports redteam_reports k = true ->
  In k (PyDict.keys items) \/
  (PyDict.contains (rejected acc) k = true /\ PyDict.get (candidate_scores acc) k = Some 0%float) ->
  PyDict.contains (rejected (tally_of compliance_reports redteam_reports items acc)) k = true /\
  PyDict.get (candidate_scores (tally_of compliance_reports redteam_reports items acc)) k = Some 0%float.
Proof.
  intros Hk. revert acc. induction items as [|[cid c] items IH]; intros acc; cbn.
  - intros [[]|H]; exact H.
  - intros H. apply IH.
    destruct (score_candidate_step acc cid c) as (s & d & Hs & Hr).
    destruct (String.eqb_spec k cid) as [->|Hne].
    + right. rewrite Hk in Hr. destruct Hr as (-> & _ & reason & ->).
      rewrite Hs, contains_set, get_set, String.eqb_refl. auto.
    + destruct H as [[Heq|Hin]|[Hc Hg]]; [congruence|auto|]. right.
      rewrite Hs, get_set.
      destruct (String.eqb_spec k cid); [congruence|]. split; [|exact Hg].
      destruct (failed_a_check compliance_reports redteam_reports cid).
      * destruct Hr as (_ & _ & reason & ->). rewrite contains_set, Hc. apply orb_true_r.
      * destruct Hr as (_ & ->). exact Hc.
Qed.

(** A candidate whose compliance report failed is rejected for it. *)
Lemma tally_compliance_reason items acc k report :
  PyDict.get compliance_reports k = Some report ->
  ComplianceReport.passed report = false ->
  In k (PyDict.keys items) \/
  PyDict.get (rejected acc) k
  = Some ("Failed compliance: " ++ PyStr.str_list (ComplianceReport.critical_failures report))%string ->
  PyDict.get (rejected (tally_of compliance_reports redteam_reports items acc)) k
  = Some ("Failed compliance: " ++ PyStr.str_list (ComplianceReport.critical_failures report))%string.
Proof.
  intros Hg Hp. revert acc. induction items as [|[cid c] items IH]; intros acc; cbn.
  - intros [[]|H]; exact H.
  - intros H. apply IH.
    destruct (String.eqb_spec k cid) as [->|Hne].
    + right. unfold score_candidate. rewrite Hg, Hp. cbn.
      rewrite get_set, String.eqb_refl. reflexivity.
    + destruct H as [[Heq|Hin]|Hr]; [congruence|auto|]. right.
      destruct (score_candidate_step acc cid c) as (s & d & _ & H).
      destruct (failed_a_check compliance_reports redteam_reports cid).
      * destruct H as (_ & _ & reason & ->). rewrite get_set.
        destruct (String.eqb_spec k cid); [congruence | exact Hr].
      * destruct H as (_ & ->). exact Hr.
Qed.
End Scoring.

(** ** The winner *)

Lemma max_by_in {A} (key : A -> float) xs y : max_by key xs = Some y -> In y xs.
Proof.
  destruct xs as [|x r]; cbn; [discriminate|]. intros [= <-].
  assert (H : forall r best, In (fold_left (fun best y => if (key best <? key y)%float then y else best)
                                           r best) (best :: r)).
  { clear. induction r as [|z r IH]; intros best; cbn; [auto|].
    destruct (IH (if (key best <? key z)%float then z else best)) as [H|H]; [|auto].
    destruct (key best <? key z)%float; rewrite <- H; auto. }
  apply H.
Qed.


Lemma select_winner_spec candidates t :
  PyDict.keys (candidate_scores t) <> [] ->
  (forall k, In k (PyDict.keys (candidate_scores t)) -> In k (PyDict.keys candidates)) ->
  exists selected rationale,
    select_winner candidates t = Some (selected, rationale) /\
    In selected (PyDict.keys (candidate_scores t)) /\
    (eligible_of t = [] ->
     rationale = ("No candidates passed all checks. Selected " ++ selected
                    ++ " as best available option.")%string) /\
    (eligible_of t <> [] -> PyDict.contains (rejected t) selected = false).
Proof.
  intros Hne Hsub. unfold select_winner. fold (eligible_of t).
  destruct (eligible_of t) as [|e es] eqn:He.
  - destruct (PyDict.keys (candidate_scores t)) as [|k ks] eqn:Hk; [congruence|].
    destruct (max_by (score_of (candidate_scores t)) (k :: ks)) as [sel|] eqn:Hm; [|discriminate Hm].
    apply max_by_in in Hm. exists sel. eexists. split; [reflexivity|].
    split; [exact Hm|]. split; [reflexivity | congruence].
  - destruct (max_by (score_of (candidate_scores t)) (e :: es)) as [sel|] eqn:Hm; [|discriminate Hm].
    apply max_by_in in Hm. rewrite <- He in Hm. unfold eligible_of in Hm.
    apply filter_In in Hm. destruct Hm as [Hin Hrej].
    destruct (get_in_keys candidates sel (Hsub _ Hin)) as [winner ->].
    exists sel. eexists. split; [reflexivity|]. split; [exact Hin|].
    split; [discriminate|]. intros _. now apply negb_true_iff in Hrej.
Qed.

Section RankSelect.
  Variable rt : Runtime.t.
  Hypothesis Hio : no_io_error rt.

Lemma runs_rank_select candidates compliance_reports redteam_reports mandate w Q :
  candidates <> [] ->
  (forall envelope selected rationale w' evs bls,
      let tally :=
        fold_left (score_candidate compliance_reports redteam_reports)
                  (PyDict.items candidates) (mkTally [] [] []) in
      select_winner candidates tally = Some (selected, rationale) ->
      In selected (PyDict.keys candidates) ->
      Q (Decision.mk envelope selected rationale (candidate_scores tally) weights
           (candidate_details tally) (rejected tally)) w' evs bls) ->
  Runs (execute rt candidates compliance_reports redteam_reports mandate) w Q.
Proof.
  intros Hne HQ. unfold execute.
  set (tally := fold_left (score_candidate compliance_reports redteam_reports)
                          (PyDict.items candidates) (mkTally [] [] [])) in *.
  assert (Hkeys : forall k, In k (PyDict.keys (candidate_scores tally)) <->
                            In k (PyDict.keys candidates)).
  { intros k. unfold tally.
    rewrite (tally_keys compliance_reports redteam_reports (PyDict.items candidates)
                        (mkTally [] [] []) k).
    cbn. intuition. }
  destruct (select_winner_spec candidates tally) as (sel & rat & Hs & Hin & _).
  { destruct candidates as [|[k c] r]; [congruence|].
    intros Hnil. assert (Hk : In k (PyDict.keys (candidate_scores tally))) by (apply Hkeys; cbn; auto).
    rewrite Hnil in Hk. exact Hk. }
  { intros k. apply Hkeys. }
  apply Hkeys in Hin.
  apply runs_bind, runs_emit_progress; auto. intros e1 w1 _ _.
  apply runs_bind. rewrite Hs. apply runs_ret.
  apply runs_bind, runs_emit_progress; auto. intros e2 w2 _ _.
  destruct (get_in_keys candidates sel Hin) as [winner Hw].
  apply runs_bind. rewrite Hw. apply runs_ret.
  apply runs_bind, runs_uuid4_hex8; auto. intros u w3 _.
  apply runs_bind, runs_new_envelope; auto. intros now w4 _.
  apply runs_bind, runs_save_artifact; auto. intros p e3 w5 _ _.
  apply runs_ret. apply HQ; assumption.
Qed.

(** Without a candidate there is nothing to take the maximum of: the
    executor raises. *)
Lemma rank_select_without_candidates compliance_reports redteam_reports mandate w :
  exists w',
    execute rt [] compliance_reports redteam_reports mandate w
    = (Raised "ValueError: max() arg is an empty sequence", w').
Proof.
  unfold execute, emit_progress.
  destruct (step_emit rt Hio w PROGRESS_UPDATE "Scoring and ranking candidates..."
              (Some (stage_id self)) None INFO [("progress_pct", Json.Null)] None)
    as (e1 & w1 & S1 & _).
  exists w1. rewrite (bind_ok _ _ _ _ _ (step_run _ _ _ _ _ _ S1)). reflexivity.
Qed.
End RankSelect.

(** C5.  When no I/O call fails and every one of the candidates (there
    is at least one) failed its compliance or its red-team check, the
    rank-and-select executor returns a decision: it selects one of the
    candidates, every score it records is 0 so the selected candidate's
    is the greatest, and the rationale says that no candidate passed. *)
Theorem C5_selection_without_an_eligible_candidate
    (rt : Runtime.t) (w : World.t) (candidates : PyDict.t PortfolioCandidate.t)
    (compliance_reports : PyDict.t ComplianceReport.t)
    (redteam_reports : PyDict.t RedTeamReport.t) (mandate : MandateDSL.t) :
  no_io_error rt ->
  candidates <> [] ->
  (forall cid, In cid (PyDict.keys candidates) ->
     ICWorkflow.needs_repair (PyDict.get compliance_reports cid)
                             (PyDict.get redteam_reports cid) = true) ->
  exists decision w',
    execute rt candidates compliance_reports redteam_reports mandate w = (Ok decision, w') /\
    In (Decision.selected_candidate decision) (PyDict.keys candidates) /\
    (forall cid, In cid (PyDict.keys candidates) ->
       PyDict.get (Decision.candidate_scores decision) cid = Some 0%float /\
       (score_of (Decision.candidate_scores decision) cid
        <=? score_of (Decision.candidate_scores decision) (Decision.selected_candidate decision))%float
       = true) /\
    Decision.selection_rationale decision
    = ("No candidates passed all checks. Selected " ++ Decision.selected_candidate decision
         ++ " as best available option.")%string.
Proof.
  intros Hio Hne Hall.
  set (tally := fold_left (score_candidate compliance_reports redteam_reports)
                          (PyDict.items candidates) (mkTally [] [] [])).
  assert (Hzero : forall cid, In cid (PyDict.keys candidates) ->
            PyDict.contains (rejected tally) cid = true /\
            PyDict.get (candidate_scores tally) cid = Some 0%float).
  { intros cid Hin. apply tally_failed_rejected; [apply Hall; exact Hin | left; exact Hin]. }
  assert (Hkeys : forall k, In k (PyDict.keys (candidate_scores tally)) -> In k (PyDict.keys candidates)).
  { intros k Hk. unfold tally in Hk.
    apply (tally_keys compliance_reports redteam_reports (PyDict.items candidates)
                      (mkTally [] [] []) k) in Hk.
    cbn in Hk. intuition. }
  assert (Hel : eligible_of tally = []).
  { unfold eligible_of. apply filter_none. apply Forall_forall. intros k Hk.
    destruct (Hzero k (Hkeys k Hk)) as [-> _]. reflexivity. }
  pose (P := fun decision : Decision.t =>
    In (Decision.selected_candidate decision) (PyDict.keys candidates) /\
    (forall cid, In cid (PyDict.keys candidates) ->
       PyDict.get (Decision.candidate_scores decision) cid = Some 0%float /\
       (score_of (Decision.candidate_scores decision) cid
        <=? score_of (Decision.candidate_scores decision) (Decision.selected_candidate decision))%float
       = true) /\
    Decision.selection_rationale decision
    = ("No candidates passed all checks. Selected " ++ Decision.selected_candidate decision
         ++ " as best available option.")%string).
  destruct (runs_rank_select rt Hio candidates compliance_reports redteam_reports mandate w
              (fun d _ _ _ => P d) Hne) as (d & w' & evs & bls & S & HQ).
  2: { exists d, w'. split; [apply S | exact HQ]. }
  intros env sel rat w' evs bls tally' Hs Hin. fold tally in tally'. subst tally'. unfold P. cbn.
    split; [exact Hin|]. split.
    + intros cid Hc. destruct (Hzero cid Hc) as [_ Hg]. split; [exact Hg|].
      unfold score_of. rewrite Hg. destruct (Hzero sel Hin) as [_ ->]. reflexivity.
    + destruct (select_winner_spec candidates tally) as (sel' & rat' & Hs' & _ & Hr & _).
      * intros Hnil. destruct (Hzero sel Hin) as [_ Hg].
        destruct (candidate_scores tally); [discriminate Hg | discriminate Hnil].
      * exact Hkeys.
      * rewrite Hs in Hs'. injection Hs' as <- <-. apply Hr, Hel.
Qed.

Lemma C5_selection_without_an_eligible_candidate_witness :
  let w := Fixture.verified [Fixture.thin] in
  let candidates := [("A", Fixture.thin)] in
  let compliance_reports := ICWorkflowState.compliance_reports (World.wf w) in
  let redteam_reports := ICWorkflowState.redteam_reports (World.wf w) in
  exists decision w',
    execute Fixture.rt candidates compliance_reports redteam_reports Fixture.conservative w
    = (Ok decision, w') /\
    In (Decision.selected_candidate decision) (PyDict.keys candidates) /\
    (forall cid, In cid (PyDict.keys candidates) ->
       PyDict.get (Decision.candidate_scores decision) cid = Some 0%float /\
       (score_of (Decision.candidate_scores decision) cid
        <=? score_of (Decision.candidate_scores decision) (Decision.selected_candidate decision))%float
       = true) /\
    Decision.selection_rationale decision
    = ("No candidates passed all checks. Selected " ++ Decision.selected_candidate decision
         ++ " as best available option.")%string.
Proof.
  intros w candidates compliance_reports redteam_reports.
  apply (C5_selection_without_an_eligible_candidate Fixture.rt w candidates compliance_reports
           redteam_reports Fixture.conservative).
  - intros n. reflexivity.
  - discriminate.
  - intros cid [<-|[]]. vm_compute. reflexivity.
Defined.

(** ** Compliance reports and selection *)

Lemma filter_length_lt {A} (p : A -> bool) l x :
  In x l -> p x = false -> (List.length (filter p l) < List.length l)%nat.
Proof.
  induction l as [|y l IH]; cbn; [intros []|].
  intros [->|Hin] Hp.
  - rewrite Hp. pose proof (filter_length_le p l). lia.
  - specialize (IH Hin Hp). destruct (p y); cbn; lia.
Qed.

Lemma report_failed envelope candidate rules rule :
  In rule rules -> ComplianceRule.passed rule = false ->
  ComplianceReport.passed (ComplianceCheckExecutor.report envelope candidate rules) = false.
Proof.
  intros Hin Hp. unfold ComplianceCheckExecutor.report. cbn.
  pose proof (filter_length_lt ComplianceRule.passed rules rule Hin Hp).
  apply Z.eqb_neq. lia.
Qed.

Lemma report_lists envelope candidate rules rule :
  In rule rules -> ComplianceRule.passed rule = false ->
  if ComplianceCheckExecutor.is_critical rule
  then In (ComplianceRule.message rule)
          (ComplianceReport.critical_failures (ComplianceCheckExecutor.report envelope candidate rules))
  else In (ComplianceRule.message rule)
          (ComplianceReport.warnings (ComplianceCheckExecutor.report envelope candidate rules)).
Proof.
  intros Hin Hp. unfold ComplianceCheckExecutor.report.
  cbn [ComplianceReport.critical_failures ComplianceReport.warnings].
  destruct (ComplianceCheckExecutor.is_critical rule) eqn:Hc;
    apply in_map, filter_In; (split; [exact Hin|]); rewrite Hp, Hc; reflexivity.
Qed.

(** C7 (as the code has it).  A failed rule of category "concentration"
    or "regulatory" is listed among the report's critical failures, a
    failed rule of any other category among its warnings; either way the
    report has not passed, and the candidate is rejected by
    rank-and-select with score 0 and is not the one selected whenever
    some candidate failed no check. *)
Theorem C7_any_failed_rule_blocks_selection
    (rt : Runtime.t) (w : World.t) (candidates : PyDict.t PortfolioCandidate.t)
    (compliance_reports : PyDict.t ComplianceReport.t)
    (redteam_reports : PyDict.t RedTeamReport.t) (mandate : MandateDSL.t)
    (cid : string) (envelope : ArtifactBase.t) (candidate : PortfolioCandidate.t)
    (rules : list ComplianceRule.t) (rule : ComplianceRule.t) :
  no_io_error rt ->
  In cid (PyDict.keys candidates) ->
  PyDict.get compliance_reports cid
  = Some (ComplianceCheckExecutor.report envelope candidate rules) ->
  In rule rules ->
  ComplianceRule.passed rule = false ->
  let report := ComplianceCheckExecutor.report envelope candidate rules in
  (if ComplianceCheckExecutor.is_critical rule
   then In (ComplianceRule.message rule) (ComplianceReport.critical_failures report)
   else In (ComplianceRule.message rule) (ComplianceReport.warnings report)) /\
  ComplianceReport.passed report = false /\
  exists decision w',
    execute rt candidates compliance_reports redteam_reports mandate w = (Ok decision, w') /\
    PyDict.get (Decision.rejected_candidates decision) cid
    = Some ("Failed compliance: " ++ PyStr.str_list (ComplianceReport.critical_failures report))%string /\
    PyDict.get (Decision.candidate_scores decision) cid = Some 0%float /\
    ((exists other, In other (PyDict.keys candidates) /\
                    ICWorkflow.needs_repair (PyDict.get compliance_reports other)
                                            (PyDict.get redteam_reports other) = false) ->
     Decision.selected_candidate decision <> cid).
Proof.
  intros Hio Hcid Hget Hin Hp report.
  assert (Hfail : ComplianceReport.passed report = false) by (eapply report_failed; eauto).
  split; [apply report_lists; assumption|]. split; [exact Hfail|].
  set (tally := fold_left (score_candidate compliance_reports redteam_reports)
                          (PyDict.items candidates) (mkTally [] [] [])).
  assert (Hneeds : ICWorkflow.needs_repair (PyDict.get compliance_reports cid)
                                           (PyDict.get redteam_reports cid) = true).
  { unfold ICWorkflow.needs_repair. rewrite Hget. fold report. rewrite Hfail. reflexivity. }
  assert (Hrej : PyDict.contains (rejected tally) cid = true /\
                 PyDict.get (candidate_scores tally) cid = Some 0%float).
  { apply tally_failed_rejected; [exact Hneeds | left; exact Hcid]. }
  assert (Hreason : PyDict.get (rejected tally) cid
                    = Some ("Failed compliance: "
                              ++ PyStr.str_list (ComplianceReport.critical_failures report))%string).
  { eapply tally_compliance_reason; eauto. }
  assert (Hkeys : forall k, In k (PyDict.keys (candidate_scores tally)) <-> In k (PyDict.keys candidates)).
  { intros k. unfold tally.
    rewrite (tally_keys compliance_reports redteam_reports (PyDict.items candidates)
                        (mkTally [] [] []) k).
    cbn. intuition. }
  pose (P := fun decision : Decision.t =>
    PyDict.get (Decision.rejected_candidates decision) cid
    = Some ("Failed compliance: " ++ PyStr.str_list (ComplianceReport.critical_failures report))%string /\
    PyDict.get (Decision.candidate_scores decision) cid = Some 0%float /\
    ((exists other, In other (PyDict.keys candidates) /\
                    ICWorkflow.needs_repair (PyDict.get compliance_reports other)
                                            (PyDict.get redteam_reports other) = false) ->
     Decision.selected_candidate decision <> cid)).
  destruct (runs_rank_select rt Hio candidates compliance_reports redteam_reports mandate w
              (fun d _ _ _ => P d)) as (d & w' & evs & bls & S & HQ).
  - destruct candidates; [destruct Hcid | discriminate].
  - intros env sel rat w' evs bls tally' Hs Hsel. fold tally in tally'. subst tally'.
    unfold P. cbn. split; [exact Hreason|]. split; [apply Hrej|].
    intros (other & Hother & Hok) ->.
    destruct (select_winner_spec candidates tally) as (sel' & rat' & Hs' & _ & _ & Hel).
    + intros Hnil. apply Hkeys in Hcid. rewrite Hnil in Hcid. exact Hcid.
    + intros k. apply Hkeys.
    + rewrite Hs in Hs'. injection Hs' as <- <-.
      destruct Hrej as [Hrej _]. rewrite Hel in Hrej; [discriminate|].
      intros Hnil.
      assert (Ho : In other (eligible_of tally)).
      { apply filter_In. split; [apply Hkeys; exact Hother|].
        apply negb_true_iff. destruct (PyDict.contains (rejected tally) other) eqn:Hc; [|reflexivity].
        apply (tally_rejected_failed compliance_reports redteam_reports) in Hc.
        - unfold failed_a_check in Hc. congruence.
        - intros k. cbn. discriminate. }
      rewrite Hnil in Ho. exact Ho.
  - exists d, w'. split; [apply S | exact HQ].
Qed.

Lemma C7_any_failed_rule_blocks_selection_witness :
  let w := Fixture.verified [Fixture.thin; Fixture.broad] in
  let candidates := [("A", Fixture.thin); ("B", Fixture.broad)] in
  let compliance_reports := ICWorkflowState.compliance_reports (World.wf w) in
  let redteam_reports := ICWorkflowState.redteam_reports (World.wf w) in
  let envelope :=
    match Fixture.compliance_of Fixture.thin with
    | Some r => ComplianceReport.envelope r
    | None => Fixture.envelope "" "" "" ""
    end in
  let rules :=
    ComplianceCheckExecutor.rules Fixture.thin Fixture.conservative
      (ComplianceCheckExecutor.esg_draw Fixture.rt "A") in
  let rule :=
    ComplianceRule.mk "DIV-001" "Minimum Diversification" "diversification" false 4 5
      "Positions 4 < min 5" in
  let report := ComplianceCheckExecutor.report envelope Fixture.thin rules in
  (if ComplianceCheckExecutor.is_critical rule
   then In (ComplianceRule.message rule) (ComplianceReport.critical_failures report)
   else In (ComplianceRule.message rule) (ComplianceReport.warnings report)) /\
  ComplianceReport.passed report = false /\
  exists decision w',
    execute Fixture.rt candidates compliance_reports redteam_reports Fixture.conservative w
    = (Ok decision, w') /\
    PyDict.get (Decision.rejected_candidates decision) "A"
    = Some ("Failed compliance: " ++ PyStr.str_list (ComplianceReport.critical_failures report))%string /\
    PyDict.get (Decision.candidate_scores decision) "A" = Some 0%float /\
    ((exists other, In other (PyDict.keys candidates) /\
                    ICWorkflow.needs_repair (PyDict.get compliance_reports other)
                                            (PyDict.get redteam_reports other) = false) ->
     Decision.selected_candidate decision <> "A").
Proof.
  intros w candidates compliance_reports redteam_reports envelope rules rule report.
  apply (C7_any_failed_rule_blocks_selection Fixture.rt w candidates compliance_reports
           redteam_reports Fixture.conservative "A" envelope Fixture.thin rules rule).
  - intros n. reflexivity.
  - simpl. left. reflexivity.
  - vm_compute. reflexivity.
  - vm_compute. do 5 right. left. reflexivity.
  - reflexivity.
Defined.

(** C7 as stated fails: candidate A fails one rule, of category
    "diversification", which its report lists as a warning, with no
    critical failure; rank-and-select rejects A for it and selects B,
    where without the compliance reports it selects A. *)
Lemma C7_a_warning_blocks_the_candidate :
  let w := Fixture.verified [Fixture.thin; Fixture.broad] in
  let s := World.wf w in
  let selection compliance_reports :=
    option_map (fun d => (Decision.selected_candidate d, Decision.rejected_candidates d))
      (Fixture.result
         (execute Fixture.rt (ICWorkflowState.candidates s) compliance_reports
            (ICWorkflowState.redteam_reports s) Fixture.conservative) w) in
  option_map (fun r => (ComplianceReport.critical_failures r, ComplianceReport.warnings r))
             (PyDict.get (ICWorkflowState.compliance_reports s) "A")
  = Some ([], ["Positions 4 < min 5"]) /\
  selection (ICWorkflowState.compliance_reports s) = Some ("B", [("A", "Failed compliance: []")]) /\
  selection [] = Some ("A", []).
Proof. vm_compute. repeat split; reflexivity. Qed.

End Selection.

(* ------------------------------------------------------------------ *)
(** ** Runs of the checks and of a repair *)
(* ------------------------------------------------------------------ *)

Lemma count_kind_app k e1 e2 : count_kind k (e1 ++ e2) = (count_kind k e1 + count_kind k e2)%nat.
Proof. unfold count_kind. rewrite filter_app, length_app. reflexivity. Qed.

Lemma count_executor_events k evs :
  Forall executor_event evs -> k <> PROGRESS_UPDATE -> k <> ARTIFACT_PERSISTED ->
  count_kind k evs = 0%nat.
Proof.
  intros H Hp Ha. unfold count_kind. rewrite filter_none; [reflexivity|].
  eapply Forall_impl; [|exact H]. intros e [He|He]; rewrite He; destruct k; try reflexivity; congruence.
Qed.

Lemma last_app_one {A} (l : list A) x : hd_error (rev (l ++ [x])) = Some x.
Proof. rewrite rev_app_distr. reflexivity. Qed.

Ltac executor_events :=
  cbn [app];
  repeat first [ apply Forall_nil
               | apply Forall_cons; [first [left; assumption | right; assumption]|] ].

Ltac saved_trace K :=
  constructor;
  first [ reflexivity
        | executor_events; fail
        | cbn; rewrite K; reflexivity
        | cbn; now rewrite ?app_nil_r ].

Section Checks.
  Variable rt : Runtime.t.
  Hypothesis Hio : no_io_error rt.

Lemma runs_compliance candidate mandate w Q :
  (forall envelope w' evs bls,
      let report :=
        ComplianceCheckExecutor.report envelope candidate
          (ComplianceCheckExecutor.rules candidate mandate
             (ComplianceCheckExecutor.esg_draw rt (PortfolioCandidate.candidate_id candidate))) in
      ArtifactBase.parent_hashes envelope = [artifact_hash candidate] ->
      Saved report "compliance_report" evs bls ->
      Q report w' evs bls) ->
  Runs (ComplianceCheckExecutor.execute rt candidate mandate) w Q.
Proof.
  intros HQ. unfold ComplianceCheckExecutor.execute.
  apply runs_bind, runs_emit_progress; auto. intros e1 w1 _ K1.
  apply runs_bind, runs_uuid4_hex8; auto. intros u w2 _.
  apply runs_bind, runs_new_envelope; auto. intros now w3 _.
  apply runs_bind, runs_save_artifact; auto. intros p e2 w4 _ K2.
  apply runs_ret. apply HQ; [reflexivity|].
  saved_trace K2.
Qed.

Lemma runs_scenario_loop candidate scenarios st acc w Q :
  (forall acc' w' evs,
      Forall (fun e => WorkflowEvent.kind e = PROGRESS_UPDATE) evs -> Q acc' w' evs []) ->
  Runs (RedTeamExecutor.scenario_loop rt candidate scenarios st acc) w Q.
Proof.
  revert st acc w Q. induction scenarios as [|sc scs IH]; intros st acc w Q HQ;
    cbn [RedTeamExecutor.scenario_loop].
  - apply runs_ret. apply HQ. constructor.
  - apply runs_bind, runs_emit_progress; auto. intros e1 w1 _ K1.
    destruct (Random.gauss _ _ _ _) as [noise st'].
    apply IH. intros acc' w' evs Hevs. apply HQ. constructor; assumption.
Qed.

Lemma runs_redteam candidate seed w Q :
  (forall envelope acc w' evs bls,
      let report := RedTeamExecutor.report envelope candidate seed acc in
      ArtifactBase.parent_hashes envelope = [artifact_hash candidate] ->
      Saved report "redteam_report" evs bls ->
      Q report w' evs bls) ->
  Runs (RedTeamExecutor.execute rt candidate seed) w Q.
Proof.
  intros HQ. unfold RedTeamExecutor.execute.
  apply runs_bind, runs_emit_progress; auto. intros e1 w1 _ K1.
  apply runs_bind, runs_scenario_loop. intros acc w2 evs Hevs.
  apply runs_bind, runs_uuid4_hex8; auto. intros u w3 _.
  apply runs_bind, runs_new_envelope; auto. intros now w4 _.
  apply runs_bind, runs_save_artifact; auto. intros p e2 w5 _ K2.
  apply runs_ret. apply HQ; [reflexivity|].
  assert (He : [e1] ++ evs ++ [] ++ [] ++ [e2] ++ [] = (e1 :: evs) ++ [e2]) by reflexivity.
  rewrite He. constructor; try reflexivity.
  - apply Forall_app. split; [constructor; [left; assumption|]|executor_events].
    eapply Forall_impl; [|exact Hevs]. intros e Hk. left. exact Hk.
  - rewrite last_app_one. cbn. rewrite K2. reflexivity.
Qed.

Lemma runs_apply_repair candidate compliance redteam mandate w Q :
    Q None w [] [] ->
    (forall envelope holdings w' evs bls,
        let repaired := RepairLoopExecutor.repaired_candidate envelope candidate holdings in
        ArtifactBase.parent_hashes envelope = [artifact_hash candidate] ->
        Saved repaired "portfolio_candidate" evs bls ->
        Q (Some repaired) w' evs bls) ->
    Runs (RepairLoopExecutor._apply_repair rt candidate compliance redteam mandate) w Q.
  Proof.
    intros HN HS. unfold RepairLoopExecutor._apply_repair.
    destruct (RepairLoopExecutor.collect_issues compliance redteam); [apply runs_ret; exact HN|].
    destruct (fold_left _ _ _) as [hs [|r rs]]; [apply runs_ret; exact HN|].
    apply runs_bind, runs_uuid4_hex8; auto. intros u w1 _.
    apply runs_bind, runs_new_envelope; auto. intros now w2 _.
    apply runs_bind, runs_save_artifact; auto. intros p e2 w3 _ K2.
    apply runs_ret. apply HS; [reflexivity|].
    saved_trace K2.
  Qed.
End Checks.

(* ------------------------------------------------------------------ *)
(** ** The repair loop (C6) and the repair stage (C10) *)
(* ------------------------------------------------------------------ *)

Lemma kept_candidate its c co re :
  exists c' co' re', kept its (Some c, co, re) = (Some c', co', re').
Proof.
  revert c co re. induction its as [|[|c1 co1 re1] its IH]; intros c co re; cbn; eauto.
Qed.

Lemma skipn_length_app {A} (l r : list A) : skipn (List.length l) (l ++ r) = r.
Proof. induction l; cbn; auto. Qed.

Lemma step_new {A} (m : M A) w o w' evs bls :
  Step m w o w' evs bls -> new_events w w' = evs /\ new_blobs w w' = bls.
Proof.
  intros [_ S B _ _]. unfold new_events, new_blobs. rewrite S, B, !skipn_length_app. auto.
Qed.

Section Repair.
  Variable rt : Runtime.t.
  Hypothesis Hio : no_io_error rt.

Lemma count_iteration_one e evs :
  WorkflowEvent.kind e = REPAIR_ITERATION ->
  count_kind REPAIR_ITERATION (e :: evs) = S (count_kind REPAIR_ITERATION evs).
Proof. intros K. unfold count_kind. cbn. rewrite K. reflexivity. Qed.

Lemma count_iteration_saved {A} `{Artifact A} (a : A) ty evs bls :
  Saved a ty evs bls -> count_kind REPAIR_ITERATION evs = 0%nat.
Proof. intros [H1 _ _ _ _]. apply count_executor_events; [exact H1 | discriminate ..]. Qed.

Lemma runs_attempts_loop attempts max_attempts candidate mandate current compliance redteam w :
  Runs (RepairLoopExecutor.attempts_loop rt attempts max_attempts candidate mandate
                                        current compliance redteam) w
       (fun result _ evs bls =>
          exists its,
            Repaired rt mandate its (List.length attempts) (Some current, compliance, redteam)
                     result evs bls).
Proof.
  revert current compliance redteam w.
  induction attempts as [|attempt rest IH]; intros current compliance redteam w;
    cbn [RepairLoopExecutor.attempts_loop].
  - apply runs_ret. exists []. constructor; cbn; auto. lia.
  - apply runs_bind, runs_emit; auto. intros e1 w1 _ K1 _.
    apply runs_bind, runs_emit_progress; auto. intros e2 w2 _ K2.
    apply runs_bind, runs_apply_repair; auto.
    + (* no candidate: continue *)
      eapply runs_conseq; [apply IH|]. cbn beta.
      intros result w' evs bls _ [its [Hb He Hbl Hc Hf Hy Hr]].
      exists (Unproductive :: its). constructor.
      * cbn. lia.
      * cbn [app]. rewrite count_iteration_one by exact K1.
        change (e2 :: evs) with ([e2] ++ evs). rewrite count_kind_app, He.
        unfold count_kind. cbn. rewrite K2. reflexivity.
      * cbn. exact Hbl.
      * constructor; [exact I | exact Hc].
      * destruct its; cbn; constructor; auto.
      * intros Hlt. cbn [List.length] in Hlt. destruct its as [|it its].
        -- apply Hy. cbn [List.length] in *. lia.
        -- change (last (Unproductive :: it :: its) Unproductive)
             with (last (it :: its) Unproductive). apply Hy. cbn [List.length] in *. lia.
      * cbn. exact Hr.
    + (* a repaired candidate: save it and check it again *)
      intros envelope holdings w3 evs3 bls3 repaired Hp3 S3.
      apply runs_bind, runs_compliance; auto.
      intros envelope4 w4 evs4 bls4 new_compliance Hp4 S4.
      apply runs_bind, runs_redteam; auto.
      intros envelope5 acc w5 evs5 bls5 new_redteam Hp5 S5.
      assert (Hcount : forall evs,
                 count_kind REPAIR_ITERATION ([e1] ++ [e2] ++ evs3 ++ evs4 ++ evs5 ++ evs)
                 = S (count_kind REPAIR_ITERATION evs)).
      { intros evs. cbn [app]. rewrite count_iteration_one by exact K1.
        change (e2 :: evs3 ++ evs4 ++ evs5 ++ evs) with ([e2] ++ evs3 ++ evs4 ++ evs5 ++ evs).
        rewrite !count_kind_app.
        rewrite (count_iteration_saved _ _ _ _ S3), (count_iteration_saved _ _ _ _ S4),
          (count_iteration_saved _ _ _ _ S5).
        unfold count_kind at 1. cbn. rewrite K2. reflexivity. }
      assert (Hblobs : forall bls,
                 [] ++ [] ++ bls3 ++ bls4 ++ bls5 ++ bls
                 = iteration_blobs (Rechecked repaired new_compliance new_redteam) ++ bls).
      { intros bls. cbn [app iteration_blobs].
        rewrite (saved_blobs_eq _ _ _ _ S3), (saved_blobs_eq _ _ _ _ S4),
          (saved_blobs_eq _ _ _ _ S5), <- !app_assoc. reflexivity. }
      assert (Hchk : rechecked rt mandate (Rechecked repaired new_compliance new_redteam)).
      { cbn. repeat split; assumption. }
      destruct (ComplianceReport.passed new_compliance && RedTeamReport.passed new_redteam) eqn:Hpass.
      * apply runs_ret. exists [Rechecked repaired new_compliance new_redteam]. constructor.
        -- cbn. lia.
        -- rewrite Hcount. reflexivity.
        -- rewrite Hblobs. cbn [flat_map]. reflexivity.
        -- constructor; [exact Hchk | constructor].
        -- constructor.
        -- intros _. exact Hpass.
        -- reflexivity.
      * eapply runs_conseq; [apply IH|]. cbn beta.
        intros result w' evs bls _ [its [Hb He Hbl Hc Hf Hy Hr]].
        exists (Rechecked repaired new_compliance new_redteam :: its). constructor.
        -- cbn. lia.
        -- rewrite Hcount, He. reflexivity.
        -- rewrite Hblobs, Hbl. reflexivity.
        -- constructor; [exact Hchk | exact Hc].
        -- destruct its; cbn; constructor; auto.
        -- intros Hlt. cbn [List.length] in Hlt. destruct its as [|it its].
           ++ assert (Hnone : iteration_passed (last [] Unproductive) = true)
                by (apply Hy; cbn [List.length] in *; lia).
              discriminate Hnone.
           ++ change (last (Rechecked repaired new_compliance new_redteam :: it :: its) Unproductive)
                with (last (it :: its) Unproductive). apply Hy. cbn [List.length] in *. lia.
        -- cbn. exact Hr.
Qed.

Lemma runs_repair candidate compliance redteam mandate w :
    ICWorkflow.needs_repair compliance redteam = true ->
    Runs (RepairLoopExecutor.execute rt candidate compliance redteam mandate 3) w
         (fun result _ evs bls =>
            exists its,
              Repaired rt mandate its 3 (Some candidate, compliance, redteam) result evs bls).
  Proof.
    intros Hn. unfold RepairLoopExecutor.execute.
    replace (_ && _) with false.
    - apply (runs_attempts_loop (RepairLoopExecutor.attempt_range 3)).
    - unfold ICWorkflow.needs_repair in Hn.
      destruct compliance as [c|], redteam as [r|]; cbn in *;
        try destruct (ComplianceReport.passed c); try destruct (RedTeamReport.passed r);
        cbn in *; congruence.
  Qed.
End Repair.

(** C6 (as the code has it).  For a candidate whose compliance or
    red-team report failed, and when no I/O call fails, the repair loop
    returns a candidate with its reports after at most 3 iterations.  Each
    iteration in which [_apply_repair] produced a candidate saves it and
    runs both checks on it; an iteration in which it produced none runs
    no check.  No iteration but the last passed both checks, the loop
    ends before the third iteration only on one that did, and what it
    returns is the candidate and the reports of the last iteration that
    produced any, or else those it was given. *)
Theorem C6_repair_loop_iterations
    (rt : Runtime.t) (w : World.t) (candidate : PortfolioCandidate.t)
    (compliance : option ComplianceReport.t) (redteam : option RedTeamReport.t)
    (mandate : MandateDSL.t) :
  no_io_error rt ->
  ICWorkflow.needs_repair compliance redteam = true ->
  exists its repaired new_compliance new_redteam w',
    RepairLoopExecutor.execute rt candidate compliance redteam mandate 3 w
    = (Ok (Some repaired, new_compliance, new_redteam), w') /\
    Repaired rt mandate its 3 (Some candidate, compliance, redteam)
             (Some repaired, new_compliance, new_redteam) (new_events w w') (new_blobs w w').
Proof.
  intros Hio Hn.
  destruct (runs_repair rt Hio candidate compliance redteam mandate w Hn)
    as (result & w' & evs & bls & S & its & H).
  destruct (kept_candidate its candidate compliance redteam) as (c' & co' & re' & Hk).
  destruct (step_new _ _ _ _ _ _ S) as [He Hb].
  assert (Hres : result = (Some c', co', re')) by (rewrite <- Hk; apply H).
  subst result. exists its, c', co', re', w'. split; [apply S|].
  rewrite He, Hb. exact H.
Qed.

Lemma C6_repair_loop_iterations_witness :
  let candidate := Fixture.candidate "C" 12 0.30 0.07 0.7 0.10 0.50 in
  let w := Fixture.verified [candidate] in
  let compliance := Fixture.compliance_of candidate in
  let redteam := Fixture.redteam_of candidate in
  exists its repaired new_compliance new_redteam w',
    RepairLoopExecutor.execute Fixture.rt candidate compliance redteam Fixture.conservative 3 w
    = (Ok (Some repaired, new_compliance, new_redteam), w') /\
    Repaired Fixture.rt Fixture.conservative its 3 (Some candidate, compliance, redteam)
             (Some repaired, new_compliance, new_redteam) (new_events w w') (new_blobs w w').
Proof.
  intros candidate w compliance redteam.
  apply (C6_repair_loop_iterations Fixture.rt w candidate compliance redteam Fixture.conservative).
  - intros n. reflexivity.
  - vm_compute. reflexivity.
Defined.

(** C6 as stated fails: candidate A fails only the diversification
    rule, for which [_apply_repair] has no repair; the loop goes through
    its three iterations, runs no check and saves nothing, and returns the
    candidate and the reports it was given. *)
Lemma C6_iterations_without_a_recheck :
  let w := Fixture.verified [Fixture.thin] in
  let compliance := Fixture.compliance_of Fixture.thin in
  let redteam := Fixture.redteam_of Fixture.thin in
  let run :=
    RepairLoopExecutor.execute Fixture.rt Fixture.thin compliance redteam Fixture.conservative 3 in
  let w' := Fixture.world_after run w in
  ICWorkflow.needs_repair compliance redteam = true /\
  count_kind REPAIR_ITERATION (new_events w w') = 3%nat /\
  saves_of "compliance_report" (new_blobs w w') = [] /\
  saves_of "redteam_report" (new_blobs w w') = [] /\
  new_blobs w w' = [] /\
  Fixture.result run w = Some (Some Fixture.thin, compliance, redteam).
Proof. vm_compute. repeat split; reflexivity. Qed.

(** ** The repair stage *)



Arguments emit : simpl never.
Arguments RepairLoopExecutor.execute : simpl never.



(* ------------------------------------------------------------------ *)
(** ** A unit of the verification fan-out (C9) *)
(* ------------------------------------------------------------------ *)




Section AnyOutcome.
  Variable rt : Runtime.t.







End AnyOutcome.





(* ------------------------------------------------------------------ *)
(** ** The candidate generator (C4) *)
(* ------------------------------------------------------------------ *)

Section Generation.

Import GenerateCandidatesExecutor.




Section Generate.
  Variable rt : Runtime.t.
  Hypothesis Hio : no_io_error rt.

Variable mandate : MandateDSL.t.
Variable universe : Universe.t.
Variable feature_map : PyDict.t FundFeatures.t.
Variable seed : Z.




End Generate.

Section Execute.
  Variable rt : Runtime.t.
  Hypothesis Hio : no_io_error rt.

End Execute.




End Generation.

(* ================================================================== *)
(** * Further properties of the executors, the workflow and the services *)
(* ================================================================== *)

(* ------------------------------------------------------------------ *)
(** ** The compliance report *)
(* ------------------------------------------------------------------ *)

Lemma filter_split_length {A} (p : A -> bool) l :
  (List.length (filter p l) + List.length (filter (fun x => negb (p x)) l) = List.length l)%nat.
Proof. induction l as [|x l IH]; cbn; [reflexivity|]. destruct (p x); cbn; lia. Qed.

Lemma filter_all_iff {A} (p : A -> bool) l :
  List.length (filter p l) = List.length l <-> Forall (fun x => p x = true) l.
Proof.
  induction l as [|x l IH]; cbn; [split; constructor|].
  pose proof (filter_length_le p l) as Hle.
  destruct (p x) eqn:Hp; cbn.
  - split.
    + intros H. constructor; [exact Hp|]. apply IH. lia.
    + intros H. inversion H; subst. f_equal. apply IH. assumption.
  - split; [lia|]. intros H. inversion H; subst. congruence.
Qed.

Lemma filter_and_length {A} (p q : A -> bool) l :
  (List.length (filter (fun x => p x && q x) l)
   + List.length (filter (fun x => p x && negb (q x)) l)
   = List.length (filter p l))%nat.
Proof.
  induction l as [|x l IH]; cbn; [reflexivity|].
  destruct (p x), (q x); cbn; lia.
Qed.

Lemma report_counts envelope candidate rules :
  let r := ComplianceCheckExecutor.report envelope candidate rules in
  ComplianceReport.rule_results r = rules /\
  ComplianceReport.rules_checked r = Z.of_nat (List.length rules) /\
  0 <= ComplianceReport.rules_passed r /\
  0 <= ComplianceReport.rules_failed r /\
  ComplianceReport.rules_passed r + ComplianceReport.rules_failed r
  = ComplianceReport.rules_checked r /\
  (ComplianceReport.passed r = true <-> ComplianceReport.rules_failed r = 0) /\
  (ComplianceReport.passed r = true
   <-> Forall (fun x => ComplianceRule.passed x = true) rules) /\
  Z.of_nat (List.length (ComplianceReport.critical_failures r))
  + Z.of_nat (List.length (ComplianceReport.warnings r))
  = ComplianceReport.rules_failed r.
Proof.
  unfold ComplianceCheckExecutor.report.
  cbn [ComplianceReport.rule_results ComplianceReport.rules_checked ComplianceReport.rules_passed
       ComplianceReport.rules_failed ComplianceReport.passed ComplianceReport.critical_failures
       ComplianceReport.warnings].
  pose proof (filter_split_length ComplianceRule.passed rules) as Hs.
  pose proof (filter_and_length (fun x => negb (ComplianceRule.passed x))
                ComplianceCheckExecutor.is_critical rules) as Ha.
  pose proof (filter_all_iff ComplianceRule.passed rules) as Hall.
  rewrite !length_map.
  cbv beta in Ha.
  split; [reflexivity|]. split; [reflexivity|]. split; [lia|]. split; [lia|]. split; [lia|].
  split; [apply Z.eqb_eq|].
  split; [|lia].
  split; intros H; [apply Hall; apply Z.eqb_eq in H; lia | apply Z.eqb_eq; apply Hall in H; lia].
Qed.

Section ComplianceTrace.
Variable rt : Runtime.t.
Hypothesis Hio : no_io_error rt.

Lemma compliance_trace candidate mandate w :
  Runs (ComplianceCheckExecutor.execute rt candidate mandate) w
       (fun r _ evs bls =>
          exists envelope e1 e2,
            r = ComplianceCheckExecutor.report envelope candidate
                  (ComplianceCheckExecutor.rules candidate mandate
                     (ComplianceCheckExecutor.esg_draw rt
                        (PortfolioCandidate.candidate_id candidate))) /\
            ArtifactBase.parent_hashes envelope = [artifact_hash candidate] /\
            evs = [e1; e2] /\
            WorkflowEvent.kind e1 = PROGRESS_UPDATE /\
            WorkflowEvent.kind e2 = ARTIFACT_PERSISTED /\
            bls = saved_blobs r).
Proof.
  unfold ComplianceCheckExecutor.execute.
  apply runs_bind, runs_emit_progress; auto. intros e1 w1 _ K1.
  apply runs_bind, runs_uuid4_hex8; auto. intros u w2 _.
  apply runs_bind, runs_new_envelope; auto. intros now w3 _.
  apply runs_bind, runs_save_artifact; auto. intros p e2 w4 _ K2.
  apply runs_ret. do 3 eexists. repeat apply conj; try reflexivity; assumption.
Qed.

End ComplianceTrace.

(** X1.  When no I/O call fails, the compliance check returns a report
    for the candidate it was given, with eight rule results; the counts
    [rules_passed] and [rules_failed] add up to eight; the report passed
    exactly when no rule failed, that is when every rule result passed;
    and every failed rule has its message in exactly one of
    [critical_failures] and [warnings].  The run appends one progress
    event and one artifact event, and uploads the report twice. *)
Theorem compliance_report_accounts_for_every_rule
    (rt : Runtime.t) (w : World.t) (candidate : PortfolioCandidate.t) (mandate : MandateDSL.t) :
  no_io_error rt ->
  exists r w',
    ComplianceCheckExecutor.execute rt candidate mandate w = (Ok r, w') /\
    ComplianceReport.candidate_id r = PortfolioCandidate.candidate_id candidate /\
    ArtifactBase.parent_hashes (ComplianceReport.envelope r) = [artifact_hash candidate] /\
    List.length (ComplianceReport.rule_results r) = 8%nat /\
    ComplianceReport.rules_checked r = 8 /\
    0 <= ComplianceReport.rules_passed r /\
    0 <= ComplianceReport.rules_failed r /\
    ComplianceReport.rules_passed r + ComplianceReport.rules_failed r = 8 /\
    (ComplianceReport.passed r = true <-> ComplianceReport.rules_failed r = 0) /\
    (ComplianceReport.passed r = true
     <-> Forall (fun x => ComplianceRule.passed x = true) (ComplianceReport.rule_results r)) /\
    Z.of_nat (List.length (ComplianceReport.critical_failures r))
    + Z.of_nat (List.length (ComplianceReport.warnings r))
    = ComplianceReport.rules_failed r /\
    map WorkflowEvent.kind (new_events w w') = [PROGRESS_UPDATE; ARTIFACT_PERSISTED] /\
    new_blobs w w' = saved_blobs r.
Proof.
  intros Hio.
  destruct (compliance_trace rt Hio candidate mandate w)
    as (r & w' & evs & bls & S & envelope & e1 & e2 & Hr & Hp & He & K1 & K2 & Hb).
  destruct (step_new _ _ _ _ _ _ S) as [Hev Hbl].
  pose proof (report_counts envelope candidate
                (ComplianceCheckExecutor.rules candidate mandate
                   (ComplianceCheckExecutor.esg_draw rt
                      (PortfolioCandidate.candidate_id candidate)))) as Hc.
  cbv zeta in Hc. rewrite <- Hr in Hc.
  destruct Hc as (Hrules & Hchk & Hp0 & Hf0 & Hsum & Hpass & Hall & Hlists).
  assert (Hlen : List.length (ComplianceReport.rule_results r) = 8%nat)
    by (rewrite Hrules; reflexivity).
  change (Z.of_nat (List.length _)) with 8 in Hchk.
  rewrite Hchk in Hsum.
  exists r, w'. split; [apply S|].
  split; [rewrite Hr; reflexivity|].
  split; [rewrite Hr; exact Hp|].
  split; [exact Hlen|]. split; [exact Hchk|]. split; [exact Hp0|]. split; [exact Hf0|].
  split; [exact Hsum|]. split; [exact Hpass|].
  split; [rewrite Hrules; exact Hall|]. split; [exact Hlists|].
  split; [rewrite Hev, He; cbn [map]; rewrite K1, K2; reflexivity | rewrite Hbl; exact Hb].
Qed.

(** There is such a run: the compliance check of the thin candidate
    under the conservative mandate. *)
Lemma compliance_report_accounts_for_every_rule_witness :
  exists r w',
    ComplianceCheckExecutor.execute Fixture.rt Fixture.thin Fixture.conservative Fixture.w0
    = (Ok r, w') /\
    ComplianceReport.candidate_id r = PortfolioCandidate.candidate_id Fixture.thin /\
    ArtifactBase.parent_hashes (ComplianceReport.envelope r) = [artifact_hash Fixture.thin] /\
    List.length (ComplianceReport.rule_results r) = 8%nat /\
    ComplianceReport.rules_checked r = 8 /\
    0 <= ComplianceReport.rules_passed r /\
    0 <= ComplianceReport.rules_failed r /\
    ComplianceReport.rules_passed r + ComplianceReport.rules_failed r = 8 /\
    (ComplianceReport.passed r = true <-> ComplianceReport.rules_failed r = 0) /\
    (ComplianceReport.passed r = true
     <-> Forall (fun x => ComplianceRule.passed x = true) (ComplianceReport.rule_results r)) /\
    Z.of_nat (List.length (ComplianceReport.critical_failures r))
    + Z.of_nat (List.length (ComplianceReport.warnings r))
    = ComplianceReport.rules_failed r /\
    map WorkflowEvent.kind (new_events Fixture.w0 w') = [PROGRESS_UPDATE; ARTIFACT_PERSISTED] /\
    new_blobs Fixture.w0 w' = saved_blobs r.
Proof.
  apply (compliance_report_accounts_for_every_rule
           Fixture.rt Fixture.w0 Fixture.thin Fixture.conservative).
  intros n. reflexivity.
Defined.

(** X2.  Of the eight rules only the position limit CONC-001 is in a
    critical category: the report's [critical_failures] is empty exactly
    when the largest position is within the mandate's limit, and never
    holds more than one message.  A failed allocation, diversification or
    ESG rule is reported under [warnings] only. *)
Theorem only_the_position_limit_is_critical
    (envelope : ArtifactBase.t) (candidate : PortfolioCandidate.t) (mandate : MandateDSL.t)
    (esg_violations : bool) :
  let rules := ComplianceCheckExecutor.rules candidate mandate esg_violations in
  let r := ComplianceCheckExecutor.report envelope candidate rules in
  (ComplianceReport.critical_failures r = []
   <-> (PortfolioCandidate.max_position_size candidate
        <=? MandateDSL.max_single_position mandate)%float = true) /\
  (List.length (ComplianceReport.critical_failures r) <= 1)%nat /\
  (forall rule, In rule rules -> ComplianceRule.passed rule = false ->
     ComplianceRule.rule_id rule <> "CONC-001" ->
     In (ComplianceRule.message rule) (ComplianceReport.warnings r) /\
     ~ In (ComplianceRule.message rule) (ComplianceReport.critical_failures r)).
Proof.
  intros rules r.
  assert (Hcrit :
            ComplianceReport.critical_failures r
            = if (PortfolioCandidate.max_position_size candidate
                  <=? MandateDSL.max_single_position mandate)%float
              then []
              else [ComplianceRule.message (hd (ComplianceRule.mk "" "" "" true 0 0 "") rules)]).
  { subst r rules. unfold ComplianceCheckExecutor.report, ComplianceCheckExecutor.rules. cbv zeta.
    cbn [ComplianceReport.critical_failures hd].
    cbn [filter map ComplianceRule.passed ComplianceRule.message ComplianceRule.rule_category
         ComplianceCheckExecutor.is_critical ComplianceCheckExecutor.critical_categories
         existsb String.eqb Ascii.eqb Bool.eqb orb].
    rewrite ?andb_false_r, ?andb_true_r. cbn [filter map].
    destruct (_ <=? _)%float; reflexivity. }
  assert (Hrules : forall rule, In rule rules -> ComplianceRule.rule_id rule <> "CONC-001" ->
            ComplianceCheckExecutor.is_critical rule = false /\
            ComplianceRule.message rule
            <> ComplianceRule.message (hd (ComplianceRule.mk "" "" "" true 0 0 "") rules)).
  { subst rules. unfold ComplianceCheckExecutor.rules. cbv zeta. intros rule Hin Hid.
    cbn [In] in Hin. destruct esg_violations.
    all:
    repeat (destruct Hin as [<-|Hin];
            [first [ exfalso; apply Hid; reflexivity
                   | split; [reflexivity|];
                     cbv [hd ComplianceRule.message String.append]; discriminate ]|]).
    all: contradiction. }
  split; [|split].
  - rewrite Hcrit. destruct (_ <=? _)%float; split; congruence.
  - rewrite Hcrit. destruct (_ <=? _)%float; cbn; lia.
  - intros rule Hin Hp Hid. destruct (Hrules rule Hin Hid) as [Hc Hm].
    split.
    + pose proof (report_lists envelope candidate rules rule Hin Hp) as H.
      rewrite Hc in H. exact H.
    + rewrite Hcrit. destruct (_ <=? _)%float; cbn; [tauto|].
      intros [H|[]]. apply Hm. symmetry. exact H.
Qed.

(* ------------------------------------------------------------------ *)
(** ** The red-team report *)
(* ------------------------------------------------------------------ *)

(** A negative float with a smaller exponent is nearer to zero: what is
    above it is above every negative float with a larger exponent. *)
Lemma SFltb_lower m1 e1 m3 e3 d :
  e1 < e3 -> SFltb (S754_finite true m1 e1) d = true -> SFltb (S754_finite true m3 e3) d = true.
Proof.
  intros He. unfold SFltb, SFcompare.
  destruct d as [s|s| |s m e]; try destruct s; auto.
  destruct (Z.compare_spec e1 e), (Z.compare_spec e3 e); try lia; auto; discriminate.
Qed.

Lemma above_tenth_above_three_tenths d : (-0.10 <? d)%float = true -> (-0.30 <? d)%float = true.
Proof.
  rewrite !ltb_spec.
  set (a := Prim2SF (-0.10)). set (b := Prim2SF (-0.30)).
  vm_compute in a, b. subst a b. apply SFltb_lower. lia.
Qed.

Lemma above_fifth_above_three_tenths d : (-0.20 <? d)%float = true -> (-0.30 <? d)%float = true.
Proof.
  rewrite !ltb_spec.
  set (a := Prim2SF (-0.20)). set (b := Prim2SF (-0.30)).
  vm_compute in a, b. subst a b. apply SFltb_lower. lia.
Qed.

(** X3.  A scenario result passes exactly when its severity is not
    "critical" and the return did not breach the VaR threshold; the
    severity is one of the four levels, and the result carries the
    scenario's identifier, name and type. *)
Theorem a_scenario_passes_unless_critical_or_var_breach
    (candidate : PortfolioCandidate.t) (scenario : RedTeamExecutor.Scenario) (noise : float) :
  let r := RedTeamExecutor._run_scenario candidate scenario noise in
  ScenarioResult.passed r
  = negb (String.eqb (ScenarioResult.severity r) "critical") && negb (ScenarioResult.var_breach r) /\
  In (ScenarioResult.severity r) ["low"; "medium"; "high"; "critical"] /\
  ScenarioResult.scenario_id r = RedTeamExecutor.id scenario /\
  ScenarioResult.scenario_name r = RedTeamExecutor.name scenario /\
  ScenarioResult.scenario_type r = RedTeamExecutor.type scenario.
Proof.
  unfold RedTeamExecutor._run_scenario. cbv zeta.
  cbn [ScenarioResult.passed ScenarioResult.severity ScenarioResult.var_breach
       ScenarioResult.scenario_id ScenarioResult.scenario_name ScenarioResult.scenario_type].
  set (d := PyNum.min 0 _).
  pose proof (above_tenth_above_three_tenths d) as H1.
  pose proof (above_fifth_above_three_tenths d) as H2.
  destruct (-0.10 <? d)%float; [rewrite H1 by reflexivity; cbn; auto 10|].
  destruct (-0.20 <? d)%float; [rewrite H2 by reflexivity; cbn; auto 10|].
  destruct (-0.30 <? d)%float; cbn; auto 10.
Qed.

Section RedTeamTrace.
Variable rt : Runtime.t.
Hypothesis Hio : no_io_error rt.

Lemma scenario_loop_scanned candidate scenarios st acc w :
  Runs (RedTeamExecutor.scenario_loop rt candidate scenarios st acc) w
       (fun acc' _ evs bls =>
          Scanned scenarios acc acc' /\
          map WorkflowEvent.kind evs = repeat PROGRESS_UPDATE (List.length scenarios) /\
          bls = []).
Proof.
  revert st acc w. induction scenarios as [|sc scs IH]; intros st acc w;
    cbn [RedTeamExecutor.scenario_loop].
  - apply runs_ret. split; [|split; reflexivity].
    constructor. exists []. rewrite !app_nil_r. cbn. auto.
  - apply runs_bind, runs_emit_progress; auto. intros e1 w1 _ K1.
    destruct (Random.gauss _ _ _ _) as [noise st'].
    eapply runs_conseq; [apply IH|]. cbn beta.
    intros acc' w' evs bls _ ([(results & Hres & Hids & Hbr & Hworst)] & Hk & Hb).
    cbn [RedTeamExecutor.scenario_results RedTeamExecutor.breaking_scenarios
         RedTeamExecutor.worst_scenario] in *.
    set (result := RedTeamExecutor._run_scenario candidate sc noise) in *.
    split; [|split].
    + constructor. exists (result :: results). repeat apply conj.
      * rewrite Hres, <- app_assoc. reflexivity.
      * cbn [map]. rewrite Hids. f_equal.
      * rewrite Hbr. cbn [filter]. destruct (ScenarioResult.passed result); cbn [negb map].
        -- reflexivity.
        -- rewrite <- app_assoc. reflexivity.
      * destruct Hworst as [Hw|(s & Hin & Hw)].
        -- rewrite Hw. destruct (_ <? _)%float; [right; exists result; split; [left|]; reflexivity|].
           left. reflexivity.
        -- right. exists s. split; [right; exact Hin | exact Hw].
    + cbn [app map List.length repeat]. rewrite K1, Hk. reflexivity.
    + rewrite Hb. reflexivity.
Qed.

Lemma redteam_trace candidate seed w :
  Runs (RedTeamExecutor.execute rt candidate seed) w
       (fun r _ evs bls =>
          exists envelope acc,
            r = RedTeamExecutor.report envelope candidate seed acc /\
            Scanned RedTeamExecutor.STRESS_SCENARIOS (RedTeamExecutor.mkAcc [] [] 0 None) acc /\
            ArtifactBase.parent_hashes envelope = [artifact_hash candidate] /\
            map WorkflowEvent.kind evs = repeat PROGRESS_UPDATE 8 ++ [ARTIFACT_PERSISTED] /\
            bls = saved_blobs r).
Proof.
  unfold RedTeamExecutor.execute.
  apply runs_bind, runs_emit_progress; auto. intros e1 w1 _ K1.
  apply runs_bind. eapply runs_conseq; [apply scenario_loop_scanned|]. cbn beta.
  intros acc w2 evs bls _ (Hsc & Hk & Hb).
  apply runs_bind, runs_uuid4_hex8; auto. intros u w3 _.
  apply runs_bind, runs_new_envelope; auto. intros now w4 _.
  apply runs_bind, runs_save_artifact; auto. intros p e2 w5 _ K2.
  apply runs_ret. do 2 eexists. repeat apply conj; try reflexivity.
  - exact Hsc.
  - cbn [app map]. rewrite !map_app, Hk. cbn [map app]. rewrite K1, K2. reflexivity.
  - rewrite Hb. reflexivity.
Qed.

End RedTeamTrace.

(** X4.  When no I/O call fails, the red-team executor returns a report
    for the candidate and seed it was given with one result per stress
    scenario, in the order of [STRESS_SCENARIOS]; [breaking_scenarios]
    lists the identifiers of exactly the results that did not pass, in
    that order; a report that passed has at most one of them; and the
    worst scenario, when there is one, is one of the results.  The run
    appends eight progress events and one artifact event, and uploads
    the report twice. *)
Theorem redteam_report_covers_every_scenario
    (rt : Runtime.t) (w : World.t) (candidate : PortfolioCandidate.t) (seed : Z) :
  no_io_error rt ->
  exists r w',
    RedTeamExecutor.execute rt candidate seed w = (Ok r, w') /\
    RedTeamReport.candidate_id r = PortfolioCandidate.candidate_id candidate /\
    RedTeamReport.seed r = seed /\
    ArtifactBase.parent_hashes (RedTeamReport.envelope r) = [artifact_hash candidate] /\
    RedTeamReport.scenarios_tested r = 7 /\
    map ScenarioResult.scenario_id (RedTeamReport.scenario_results r)
    = map RedTeamExecutor.id RedTeamExecutor.STRESS_SCENARIOS /\
    RedTeamReport.breaking_scenarios r
    = map ScenarioResult.scenario_id
        (filter (fun s => negb (ScenarioResult.passed s)) (RedTeamReport.scenario_results r)) /\
    (RedTeamReport.passed r = true ->
     (List.length (RedTeamReport.breaking_scenarios r) <= 1)%nat) /\
    (forall s, RedTeamReport.worst_scenario r = Some s ->
               In s (RedTeamReport.scenario_results r)) /\
    map WorkflowEvent.kind (new_events w w') = repeat PROGRESS_UPDATE 8 ++ [ARTIFACT_PERSISTED] /\
    new_blobs w w' = saved_blobs r.
Proof.
  intros Hio.
  destruct (redteam_trace rt Hio candidate seed w)
    as (r & w' & evs & bls & S & envelope & acc & Hr & [(results & Hres & Hids & Hbr & Hworst)]
        & Hp & Hk & Hb).
  destruct (step_new _ _ _ _ _ _ S) as [Hev Hbl].
  cbn [RedTeamExecutor.scenario_results RedTeamExecutor.breaking_scenarios
       RedTeamExecutor.worst_scenario app] in *.
  exists r, w'. split; [apply S|].
  assert (Hn : List.length results = 7%nat).
  { rewrite <- (length_map ScenarioResult.scenario_id), Hids. reflexivity. }
  rewrite Hr. unfold RedTeamExecutor.report. cbv zeta.
  cbn [RedTeamReport.candidate_id RedTeamReport.seed RedTeamReport.envelope
       RedTeamReport.scenarios_tested RedTeamReport.scenario_results
       RedTeamReport.breaking_scenarios RedTeamReport.passed RedTeamReport.worst_scenario].
  rewrite Hres, Hbr, Hn.
  repeat apply conj; try reflexivity; try assumption.
  - intros H. apply andb_prop in H. destruct H as [H _]. apply Z.leb_le in H. lia.
  - intros s Hs. destruct Hworst as [Hw|(s' & Hin & Hw)]; rewrite Hw in Hs;
      [discriminate | congruence].
  - rewrite Hev. exact Hk.
  - rewrite Hbl, Hb, Hr. unfold RedTeamExecutor.report. cbv zeta. rewrite Hres, Hbr, Hn.
    reflexivity.
Qed.

Lemma redteam_report_covers_every_scenario_witness :
  exists r w',
    RedTeamExecutor.execute Fixture.rt Fixture.broad 42 Fixture.w0 = (Ok r, w') /\
    RedTeamReport.candidate_id r = PortfolioCandidate.candidate_id Fixture.broad /\
    RedTeamReport.seed r = 42 /\
    ArtifactBase.parent_hashes (RedTeamReport.envelope r) = [artifact_hash Fixture.broad] /\
    RedTeamReport.scenarios_tested r = 7 /\
    map ScenarioResult.scenario_id (RedTeamReport.scenario_results r)
    = map RedTeamExecutor.id RedTeamExecutor.STRESS_SCENARIOS /\
    RedTeamReport.breaking_scenarios r
    = map ScenarioResult.scenario_id
        (filter (fun s => negb (ScenarioResult.passed s)) (RedTeamReport.scenario_results r)) /\
    (RedTeamReport.passed r = true ->
     (List.length (RedTeamReport.breaking_scenarios r) <= 1)%nat) /\
    (forall s, RedTeamReport.worst_scenario r = Some s ->
               In s (RedTeamReport.scenario_results r)) /\
    map WorkflowEvent.kind (new_events Fixture.w0 w')
    = repeat PROGRESS_UPDATE 8 ++ [ARTIFACT_PERSISTED] /\
    new_blobs Fixture.w0 w' = saved_blobs r.
Proof.
  apply (redteam_report_covers_every_scenario Fixture.rt Fixture.w0 Fixture.broad 42).
  intros n. reflexivity.
Defined.

(* ------------------------------------------------------------------ *)
(** ** Repairs *)
(* ------------------------------------------------------------------ *)

Lemma apply_issue_unrepairable mandate issues st :
  existsb repairable issues = false ->
  fold_left (RepairLoopExecutor.apply_issue mandate) issues st = st.
Proof.
  revert st. induction issues as [|i rest IH]; intros st H; [reflexivity|].
  cbn in H. apply orb_false_elim in H. destruct H as [Hi Hrest].
  cbn [fold_left]. rewrite <- (IH st Hrest) at 2. f_equal.
  destruct st as [hs rm]. destruct i as [rid cat a l|wd bc]; cbn in *; [|discriminate].
  apply orb_false_elim in Hi. destruct Hi as [H1 H2]. rewrite H1, H2. reflexivity.
Qed.

Lemma apply_issue_repairs mandate issues hs rm :
  exists made,
    snd (fold_left (RepairLoopExecutor.apply_issue mandate) issues (hs, rm)) = rm ++ made /\
    (made = [] <-> existsb repairable issues = false).
Proof.
  revert hs rm. induction issues as [|i rest IH]; intros hs rm.
  - exists []. cbn. rewrite app_nil_r. split; [reflexivity|]. split; reflexivity.
  - cbn [fold_left existsb].
    destruct i as [rid cat a l|wd bc]; cbn [RepairLoopExecutor.apply_issue repairable].
    + destruct (String.eqb cat "concentration") eqn:H1.
      * destruct (IH (RepairLoopExecutor._reduce_concentration hs
                        (MandateDSL.max_single_position mandate))
                     (rm ++ ["reduced_concentration"])) as (made & Hm & _).
        exists ("reduced_concentration" :: made). rewrite Hm, <- app_assoc.
        split; [reflexivity|]. cbn. split; discriminate.
      * destruct (String.eqb cat "allocation") eqn:H2.
        -- destruct (IH hs (rm ++ ["adjusted_allocation"])) as (made & Hm & _).
           exists ("adjusted_allocation" :: made). rewrite Hm, <- app_assoc.
           split; [reflexivity|]. cbn. split; discriminate.
        -- cbn [orb]. apply IH.
    + destruct (IH (RepairLoopExecutor._reduce_risk hs) (rm ++ ["reduced_risk"]))
        as (made & Hm & _).
      exists ("reduced_risk" :: made). rewrite Hm, <- app_assoc.
      split; [reflexivity|]. cbn. split; discriminate.
Qed.

(** X5.  When none of the issues collected from the reports is one the
    repair acts on (a concentration or allocation failure, or a failed
    red-team report), [_apply_repair] returns [None] and does nothing
    else: no event, no upload, no identifier drawn, whatever the
    runtime. *)
Theorem apply_repair_without_a_repairable_issue
    (rt : Runtime.t) (w : World.t) (candidate : PortfolioCandidate.t)
    (compliance : option ComplianceReport.t) (redteam : option RedTeamReport.t)
    (mandate : MandateDSL.t) :
  existsb repairable (RepairLoopExecutor.collect_issues compliance redteam) = false ->
  RepairLoopExecutor._apply_repair rt candidate compliance redteam mandate w = (Ok None, w).
Proof.
  intros H. unfold RepairLoopExecutor._apply_repair.
  destruct (RepairLoopExecutor.collect_issues compliance redteam) as [|i rest] eqn:Hi;
    [reflexivity|].
  rewrite (apply_issue_unrepairable mandate (i :: rest) _ H). reflexivity.
Qed.

Lemma apply_repair_without_a_repairable_issue_witness :
  RepairLoopExecutor._apply_repair Fixture.rt Fixture.thin (Fixture.compliance_of Fixture.thin)
    (Fixture.redteam_of Fixture.thin) Fixture.conservative Fixture.w0
  = (Ok None, Fixture.w0).
Proof.
  apply (apply_repair_without_a_repairable_issue Fixture.rt Fixture.w0 Fixture.thin).
  vm_compute. reflexivity.
Defined.

Section RepairRuns.
Variable rt : Runtime.t.
Hypothesis Hio : no_io_error rt.

Lemma attempts_without_a_repairable_issue attempts max_attempts candidate mandate current
    compliance redteam w :
  existsb repairable (RepairLoopExecutor.collect_issues compliance redteam) = false ->
  Runs (RepairLoopExecutor.attempts_loop rt attempts max_attempts candidate mandate
          current compliance redteam) w
       (fun result _ evs bls =>
          result = (Some current, compliance, redteam) /\
          map WorkflowEvent.kind evs
          = flat_map (fun _ => [REPAIR_ITERATION; PROGRESS_UPDATE]) attempts /\
          bls = []).
Proof.
  intros H. revert w. induction attempts as [|attempt rest IH]; intros w;
    cbn [RepairLoopExecutor.attempts_loop].
  - apply runs_ret. auto.
  - apply runs_bind, runs_emit; auto. intros e1 w1 _ K1 _.
    apply runs_bind, runs_emit_progress; auto. intros e2 w2 _ K2.
    apply runs_bind.
    exists None, w2, [], []. split.
    + constructor; try (rewrite app_nil_r; reflexivity).
      * apply apply_repair_without_a_repairable_issue. exact H.
      * apply same_blackboard_refl.
      * cbn. lia.
    + eapply runs_conseq; [apply IH|]. cbn beta.
      intros result w' evs bls _ (Hr & Hk & Hb). split; [exact Hr|]. split.
      * cbn [app map flat_map]. rewrite K1, K2, Hk. reflexivity.
      * rewrite Hb. reflexivity.
Qed.

End RepairRuns.

(** X6.  When a report failed but none of the issues is one the repair
    acts on, the repair executor uses up its budget: for each attempt it
    announces the attempt with REPAIR_ITERATION and a progress event,
    uploads nothing, and in the end returns the candidate and the
    reports it was given, unchanged. *)
Theorem repair_budget_is_used_up_without_effect
    (rt : Runtime.t) (w : World.t) (candidate : PortfolioCandidate.t)
    (compliance : option ComplianceReport.t) (redteam : option RedTeamReport.t)
    (mandate : MandateDSL.t) (max_attempts : Z) :
  no_io_error rt ->
  ICWorkflow.needs_repair compliance redteam = true ->
  existsb repairable (RepairLoopExecutor.collect_issues compliance redteam) = false ->
  exists w',
    RepairLoopExecutor.execute rt candidate compliance redteam mandate max_attempts w
    = (Ok (Some candidate, compliance, redteam), w') /\
    map WorkflowEvent.kind (new_events w w')
    = flat_map (fun _ => [REPAIR_ITERATION; PROGRESS_UPDATE])
               (RepairLoopExecutor.attempt_range max_attempts) /\
    List.length (new_events w w') = (2 * Z.to_nat max_attempts)%nat /\
    new_blobs w w' = [] /\
    same_blackboard (World.wf w) (World.wf w').
Proof.
  intros Hio Hn Hu.
  destruct (attempts_without_a_repairable_issue rt Hio
              (RepairLoopExecutor.attempt_range max_attempts) max_attempts candidate mandate
              candidate compliance redteam w Hu)
    as (result & w' & evs & bls & S & Hr & Hk & Hb).
  destruct (step_new _ _ _ _ _ _ S) as [Hev Hbl].
  exists w'. rewrite Hev, Hbl. subst result bls.
  split; [|split; [exact Hk|split; [|split; [reflexivity|apply S]]]].
  - unfold RepairLoopExecutor.execute.
    replace (_ && _) with false; [apply S|].
    unfold ICWorkflow.needs_repair in Hn.
    destruct compliance as [c|], redteam as [r|]; cbn in *;
      try destruct (ComplianceReport.passed c); try destruct (RedTeamReport.passed r);
      cbn in *; congruence.
  - rewrite <- (length_map WorkflowEvent.kind), Hk.
    unfold RepairLoopExecutor.attempt_range.
    assert (H : forall l : list nat,
               List.length (flat_map (fun _ : Z => [REPAIR_ITERATION; PROGRESS_UPDATE])
                              (map (fun k => Z.of_nat k) l))
               = (2 * List.length l)%nat).
    { induction l as [|x l IH]; cbn [map flat_map app List.length]; lia. }
    rewrite H, length_seq. reflexivity.
Qed.

Lemma repair_budget_is_used_up_without_effect_witness :
  exists w',
    RepairLoopExecutor.execute Fixture.rt Fixture.thin (Fixture.compliance_of Fixture.thin)
      (Fixture.redteam_of Fixture.thin) Fixture.conservative 3 Fixture.w0
    = (Ok (Some Fixture.thin, Fixture.compliance_of Fixture.thin,
           Fixture.redteam_of Fixture.thin), w') /\
    map WorkflowEvent.kind (new_events Fixture.w0 w')
    = flat_map (fun _ => [REPAIR_ITERATION; PROGRESS_UPDATE])
               (RepairLoopExecutor.attempt_range 3) /\
    List.length (new_events Fixture.w0 w') = (2 * Z.to_nat 3)%nat /\
    new_blobs Fixture.w0 w' = [] /\
    same_blackboard (World.wf Fixture.w0) (World.wf w').
Proof.
  apply (repair_budget_is_used_up_without_effect Fixture.rt Fixture.w0 Fixture.thin).
  - intros n. reflexivity.
  - vm_compute. reflexivity.
  - vm_compute. reflexivity.
Defined.

(** *** What a repair does to the holdings *)

Lemma funds_of_reweighted (f : HoldingAllocation.t -> HoldingAllocation.t) l :
  (forall h, funds_of [f h] = funds_of [h]) -> funds_of (map f l) = funds_of l.
Proof.
  intros Hf. unfold funds_of in *. rewrite map_map. apply map_ext.
  intros h. specialize (Hf h). cbn in Hf. congruence.
Qed.

Lemma funds_of_renormalize l : funds_of (RepairLoopExecutor.renormalize l) = funds_of l.
Proof.
  unfold RepairLoopExecutor.renormalize. destruct (_ <? _)%float; [|reflexivity].
  apply funds_of_reweighted. reflexivity.
Qed.

Lemma nth_error_split_at {A} (l : list A) i h :
  nth_error l i = Some h -> l = firstn i l ++ h :: skipn (S i) l.
Proof.
  revert l. induction i as [|i IH]; intros [|x l] H; try discriminate.
  - cbn in *. congruence.
  - cbn in *. f_equal. apply IH. exact H.
Qed.

Lemma funds_of_set_nth l i h h' :
  nth_error l i = Some h -> funds_of [h'] = funds_of [h] ->
  funds_of (RepairLoopExecutor.set_nth i h' l) = funds_of l.
Proof.
  intros Hn Hh. rewrite (nth_error_split_at l i h Hn) at 2.
  unfold RepairLoopExecutor.set_nth, funds_of in *. rewrite !map_app. cbn [map] in *.
  congruence.
Qed.

Lemma funds_of_trim_at max_position i l :
  funds_of (RepairLoopExecutor.trim_at max_position i l) = funds_of l.
Proof.
  unfold RepairLoopExecutor.trim_at. destruct (nth_error l i) as [h|] eqn:Hn; [|reflexivity].
  destruct (_ <? _)%float; [|reflexivity].
  assert (Hs : funds_of (RepairLoopExecutor.set_nth i (HoldingAllocation.set_weight h max_position) l)
               = funds_of l) by (apply (funds_of_set_nth l i h); [exact Hn | reflexivity]).
  destruct (filter _ _); [exact Hs|].
  rewrite <- Hs. apply funds_of_reweighted. intros x. destruct (_ <? _)%float; reflexivity.
Qed.

Lemma funds_of_trim_from max_position n i l :
  funds_of (RepairLoopExecutor.trim_from max_position n i l) = funds_of l.
Proof.
  revert i l. induction n as [|n IH]; intros i l; cbn [RepairLoopExecutor.trim_from];
    [reflexivity|]. rewrite IH. apply funds_of_trim_at.
Qed.

Lemma insert_desc_permutation x l : Permutation (RepairLoopExecutor.insert_desc x l) (x :: l).
Proof.
  induction l as [|y l IH]; cbn [RepairLoopExecutor.insert_desc]; [reflexivity|].
  destruct (_ <? _)%float; [reflexivity|].
  rewrite IH. apply perm_swap.
Qed.

Lemma sort_desc_permutation l : Permutation (RepairLoopExecutor.sort_desc l) l.
Proof.
  unfold RepairLoopExecutor.sort_desc.
  assert (H : forall xs acc,
             Permutation (fold_left (fun acc x => RepairLoopExecutor.insert_desc x acc) xs acc)
                         (xs ++ acc)).
  { induction xs as [|x xs IH]; intros acc; cbn [fold_left app]; [reflexivity|].
    rewrite IH, insert_desc_permutation. symmetry. apply Permutation_middle. }
  rewrite H, app_nil_r. reflexivity.
Qed.

Lemma funds_of_reduce_risk l :
  Permutation (funds_of (RepairLoopExecutor._reduce_risk l)) (funds_of l).
Proof.
  unfold RepairLoopExecutor._reduce_risk. rewrite funds_of_renormalize.
  set (s := RepairLoopExecutor.sort_desc l).
  transitivity (funds_of s).
  - rewrite <- (firstn_skipn 3 s) at 3. unfold funds_of. rewrite !map_app.
    apply Permutation_app_tail. rewrite map_map. reflexivity.
  - unfold funds_of. apply Permutation_map. apply sort_desc_permutation.
Qed.

Lemma funds_of_apply_issue mandate st issue :
  Permutation (funds_of (fst (RepairLoopExecutor.apply_issue mandate st issue)))
              (funds_of (fst st)).
Proof.
  destruct st as [hs rm]. destruct issue as [rid cat a l|wd bc];
    cbn [RepairLoopExecutor.apply_issue fst].
  - destruct (String.eqb cat "concentration"); [|destruct (String.eqb cat "allocation")];
      cbn [fst]; try reflexivity.
    unfold RepairLoopExecutor._reduce_concentration.
    rewrite funds_of_renormalize, funds_of_trim_from. reflexivity.
  - apply funds_of_reduce_risk.
Qed.

Lemma funds_of_repairs mandate issues st :
  Permutation (funds_of (fst (fold_left (RepairLoopExecutor.apply_issue mandate) issues st)))
              (funds_of (fst st)).
Proof.
  revert st. induction issues as [|i rest IH]; intros st; cbn [fold_left]; [reflexivity|].
  rewrite IH. apply funds_of_apply_issue.
Qed.

Section RepairTrace.
Variable rt : Runtime.t.
Hypothesis Hio : no_io_error rt.

Lemma apply_repair_trace candidate compliance redteam mandate w :
  existsb repairable (RepairLoopExecutor.collect_issues compliance redteam) = true ->
  Runs (RepairLoopExecutor._apply_repair rt candidate compliance redteam mandate) w
       (fun result _ evs bls =>
          exists envelope e,
            let holdings :=
              fst (fold_left (RepairLoopExecutor.apply_issue mandate)
                             (RepairLoopExecutor.collect_issues compliance redteam)
                             (PortfolioCandidate.holdings candidate, [])) in
            let repaired := RepairLoopExecutor.repaired_candidate envelope candidate holdings in
            result = Some repaired /\
            ArtifactBase.version envelope = 1 /\
            ArtifactBase.parent_hashes envelope = [artifact_hash candidate] /\
            ArtifactBase.sources envelope
            = [ArtifactBase.artifact_id (PortfolioCandidate.envelope candidate)] /\
            evs = [e] /\ WorkflowEvent.kind e = ARTIFACT_PERSISTED /\
            bls = saved_blobs repaired).
Proof.
  intros H. unfold RepairLoopExecutor._apply_repair.
  destruct (RepairLoopExecutor.collect_issues compliance redteam) as [|i rest] eqn:Hi;
    [discriminate H|].
  destruct (apply_issue_repairs mandate (i :: rest) (PortfolioCandidate.holdings candidate) [])
    as (made & Hm & Hiff).
  destruct (fold_left _ _ _) as [hs rm] eqn:Hf. cbn [snd app] in Hm. subst rm.
  destruct made as [|r rs]; [rewrite (proj1 Hiff eq_refl) in H; discriminate H|].
  apply runs_bind, runs_uuid4_hex8; auto. intros u w1 _.
  apply runs_bind, runs_new_envelope; auto. intros now w2 _.
  apply runs_bind, runs_save_artifact; auto. intros p e2 w3 _ K2.
  apply runs_ret. do 2 eexists. cbv zeta. cbn [fst].
  repeat apply conj; try reflexivity. exact K2.
Qed.

End RepairTrace.

(** X7.  When no I/O call fails and some issue is one the repair acts
    on, [_apply_repair] returns a new candidate with the same candidate
    id whose holdings are those of the input up to their order and their
    weights: the same funds, each with the expected contribution it had.
    The new candidate has version 1 like every artifact, names the input
    as its parent and source, and is saved once. *)
Theorem a_repair_changes_only_weights_and_order
    (rt : Runtime.t) (w : World.t) (candidate : PortfolioCandidate.t)
    (compliance : option ComplianceReport.t) (redteam : option RedTeamReport.t)
    (mandate : MandateDSL.t) :
  no_io_error rt ->
  existsb repairable (RepairLoopExecutor.collect_issues compliance redteam) = true ->
  exists repaired w',
    RepairLoopExecutor._apply_repair rt candidate compliance redteam mandate w
    = (Ok (Some repaired), w') /\
    PortfolioCandidate.candidate_id repaired = PortfolioCandidate.candidate_id candidate /\
    PortfolioCandidate.solver_config repaired
    = (PortfolioCandidate.solver_config candidate ++ " (repaired)")%string /\
    Permutation (funds_of (PortfolioCandidate.holdings repaired))
                (funds_of (PortfolioCandidate.holdings candidate)) /\
    PortfolioCandidate.total_positions repaired
    = Z.of_nat (List.length (PortfolioCandidate.holdings candidate)) /\
    ArtifactBase.version (PortfolioCandidate.envelope repaired) = 1 /\
    ArtifactBase.parent_hashes (PortfolioCandidate.envelope repaired) = [artifact_hash candidate] /\
    ArtifactBase.sources (PortfolioCandidate.envelope repaired)
    = [ArtifactBase.artifact_id (PortfolioCandidate.envelope candidate)] /\
    map WorkflowEvent.kind (new_events w w') = [ARTIFACT_PERSISTED] /\
    new_blobs w w' = saved_blobs repaired.
Proof.
  intros Hio Hr.
  destruct (apply_repair_trace rt Hio candidate compliance redteam mandate w Hr)
    as (result & w' & evs & bls & S & envelope & e & Hres & Hv & Hp & Hs & He & K & Hb).
  destruct (step_new _ _ _ _ _ _ S) as [Hev Hbl].
  pose proof (funds_of_repairs mandate (RepairLoopExecutor.collect_issues compliance redteam)
                (PortfolioCandidate.holdings candidate, [])) as Hperm.
  cbn [fst] in Hperm.
  set (holdings := fst (fold_left _ _ _)) in *.
  exists (RepairLoopExecutor.repaired_candidate envelope candidate holdings), w'.
  split; [rewrite <- Hres; apply S|].
  cbn [RepairLoopExecutor.repaired_candidate PortfolioCandidate.candidate_id
       PortfolioCandidate.solver_config PortfolioCandidate.holdings
       PortfolioCandidate.total_positions PortfolioCandidate.envelope].
  repeat apply conj; try reflexivity; try assumption.
  - f_equal. rewrite <- (length_map (fun h => (HoldingAllocation.fund_accession h,
                                                 HoldingAllocation.fund_name h,
                                                 HoldingAllocation.expected_contribution h))
                            holdings).
    fold (funds_of holdings). rewrite (Permutation_length Hperm).
    unfold funds_of. apply length_map.
  - rewrite Hev, He. cbn. rewrite K. reflexivity.
  - rewrite Hbl. exact Hb.
Qed.

Lemma a_repair_changes_only_weights_and_order_witness :
  let candidate := Fixture.candidate "C" 12 0.30 0.07 0.7 0.10 0.50 in
  exists repaired w',
    RepairLoopExecutor._apply_repair Fixture.rt candidate (Fixture.compliance_of candidate)
      (Fixture.redteam_of candidate) Fixture.conservative Fixture.w0
    = (Ok (Some repaired), w') /\
    PortfolioCandidate.candidate_id repaired = PortfolioCandidate.candidate_id candidate /\
    PortfolioCandidate.solver_config repaired
    = (PortfolioCandidate.solver_config candidate ++ " (repaired)")%string /\
    Permutation (funds_of (PortfolioCandidate.holdings repaired))
                (funds_of (PortfolioCandidate.holdings candidate)) /\
    PortfolioCandidate.total_positions repaired
    = Z.of_nat (List.length (PortfolioCandidate.holdings candidate)) /\
    ArtifactBase.version (PortfolioCandidate.envelope repaired) = 1 /\
    ArtifactBase.parent_hashes (PortfolioCandidate.envelope repaired) = [artifact_hash candidate] /\
    ArtifactBase.sources (PortfolioCandidate.envelope repaired)
    = [ArtifactBase.artifact_id (PortfolioCandidate.envelope candidate)] /\
    map WorkflowEvent.kind (new_events Fixture.w0 w') = [ARTIFACT_PERSISTED] /\
    new_blobs Fixture.w0 w' = saved_blobs repaired.
Proof.
  intros candidate.
  apply (a_repair_changes_only_weights_and_order Fixture.rt Fixture.w0 candidate).
  - intros n. reflexivity.
  - vm_compute. reflexivity.
Defined.

(** X8.  When no candidate on the blackboard has a failed report, the
    repair stage does nothing: it returns without an event, an upload or
    a change to the workflow object, whatever the runtime. *)
Theorem the_repair_stage_skips_candidates_that_passed (rt : Runtime.t) (w : World.t) :
  (forall cid, In cid (PyDict.keys (ICWorkflowState.candidates (World.wf w))) ->
     failed_a_check (ICWorkflowState.compliance_reports (World.wf w))
                    (ICWorkflowState.redteam_reports (World.wf w)) cid = false) ->
  ICWorkflow._repair_loop rt w = (Ok tt, w).
Proof.
  intros H. unfold ICWorkflow._repair_loop.
  rewrite (bind_ok get_wf _ w (World.wf w) w eq_refl).
  unfold PyDict.items, PyDict.keys in *.
  induction (ICWorkflowState.candidates (World.wf w)) as [|[cid c] items IH];
    cbn [for_each]; [reflexivity|].
  assert (Hone : ICWorkflow.repair_one rt (cid, c) w = (Ok tt, w)).
  { unfold ICWorkflow.repair_one. cbv beta iota.
    rewrite (bind_ok get_wf _ w (World.wf w) w eq_refl).
    specialize (H cid (or_introl eq_refl)). unfold failed_a_check in H. rewrite H. reflexivity. }
  rewrite (bind_ok _ _ _ _ _ Hone). apply IH.
  intros k Hk. apply H. right. exact Hk.
Qed.

Lemma the_repair_stage_skips_candidates_that_passed_witness :
  ICWorkflow._repair_loop Fixture.rt (Fixture.verified [Fixture.broad])
  = (Ok tt, Fixture.verified [Fixture.broad]).
Proof.
  apply (the_repair_stage_skips_candidates_that_passed Fixture.rt (Fixture.verified [Fixture.broad])).
  intros cid Hin. vm_compute in Hin. destruct Hin as [<-|[]]. vm_compute. reflexivity.
Defined.
